(** * Cogl vertex attributes: a shallow embedding of
      [clutter/cogl/cogl/cogl-vertex-attribute.c]

    The C file is read for the desktop GL build with debugging enabled
    ([HAVE_COGL_GL], hence [MAY_HAVE_PROGRAMABLE_GL], and
    [COGL_ENABLE_DEBUG]).  C integers are [Z]; pointers to reference
    counted objects are handles ([nat]), the null pointer being
    [COGL_INVALID_HANDLE]; every function that touches the context, the
    object heap or emits a diagnostic lives in the state monad [M].
    The headers and the other files of Cogl are not among the sources:
    what this file uses of them is declared here from the way it uses
    them and from the specification.  *)

From Stdlib Require Import ZArith String Ascii List Bool Lia.
From stdpp Require Import base option list gmap.
Import ListNotations.

Local Open Scope Z_scope.

(** ** Machine integers *)

(** [unsigned int], [guint32] and [GLuint]: 32 bits, wrapping. *)
Definition wrap_u32 (x : Z) : Z := x mod 2 ^ 32.

(** [int]: 32 bits, two's complement (what GCC does on overflow). *)
Definition wrap_int (x : Z) : Z := (x + 2 ^ 31) mod 2 ^ 32 - 2 ^ 31.

(** Width in bits of [size_t] and of a pointer. *)
Definition size_t_bits : Z := 64.
Definition wrap_size_t (x : Z) : Z := x mod 2 ^ size_t_bits.

(** ** Enumerations *)

(** Modelled from the spec: the semantic roles, the enumeration
    [CoglVertexAttributeNameID] of [cogl-vertex-attribute-private.h]. *)
Inductive CoglVertexAttributeNameID : Set :=
| COGL_VERTEX_ATTRIBUTE_NAME_ID_POSITION_ARRAY
| COGL_VERTEX_ATTRIBUTE_NAME_ID_COLOR_ARRAY
| COGL_VERTEX_ATTRIBUTE_NAME_ID_TEXTURE_COORD_ARRAY
| COGL_VERTEX_ATTRIBUTE_NAME_ID_NORMAL_ARRAY
| COGL_VERTEX_ATTRIBUTE_NAME_ID_CUSTOM_ARRAY.

(** Modelled from the spec: the topologies, the enumeration
    [CoglVerticesMode]; the journal also passes [GL_QUADS], "which isn't
    actually a valid CoglVerticesMode". *)
Inductive CoglVerticesMode : Set :=
| COGL_VERTICES_MODE_POINTS
| COGL_VERTICES_MODE_LINES
| COGL_VERTICES_MODE_LINE_LOOP
| COGL_VERTICES_MODE_LINE_STRIP
| COGL_VERTICES_MODE_TRIANGLES
| COGL_VERTICES_MODE_TRIANGLE_STRIP
| COGL_VERTICES_MODE_TRIANGLE_FAN
| GL_QUADS.

(** Modelled from the spec: the three index types of
    [cogl-indices.h], and their GL names. *)
Inductive CoglIndicesType : Set :=
| COGL_INDICES_TYPE_UNSIGNED_BYTE
| COGL_INDICES_TYPE_UNSIGNED_SHORT
| COGL_INDICES_TYPE_UNSIGNED_INT.

Inductive GLtype : Set :=
| GL_UNSIGNED_BYTE
| GL_UNSIGNED_SHORT
| GL_UNSIGNED_INT.

Inductive GLcap : Set := GL_NORMAL_ARRAY | GL_TEXTURE_COORD_ARRAY.

Inductive CoglBufferBindTarget : Set :=
| COGL_BUFFER_BIND_TARGET_VERTEX_ARRAY
| COGL_BUFFER_BIND_TARGET_INDEX_ARRAY.

(** [CoglVertexAttributeType] is a GL enumerant; only
    [COGL_VERTEX_ATTRIBUTE_TYPE_FLOAT] (= [GL_FLOAT]) is named in the
    file. *)
Definition CoglVertexAttributeType : Set := Z.
Definition COGL_VERTEX_ATTRIBUTE_TYPE_FLOAT : CoglVertexAttributeType :=
  5126.

(** ** Objects *)

(** A handle of a reference-counted object in the heap of the context. *)
Definition handle : Set := nat.

(** [COGL_INVALID_HANDLE], the null pointer: never the handle of an
    object. *)
Definition COGL_INVALID_HANDLE : handle := 0%nat.

(** Modelled from the spec: [struct _CoglVertexAttribute] of
    [cogl-vertex-attribute-private.h], with the fields this file
    assigns. *)
Record CoglVertexAttribute : Set := {
  array : handle;
  name : string;
  stride : Z;
  offset : Z;
  n_components : Z;
  type : CoglVertexAttributeType;
  immutable_ref : Z;
  name_id : CoglVertexAttributeNameID;
  normalized : bool;
  texture_unit : Z
}.

(** Modelled from the spec: [CoglPipelineFlushOptions], the accumulated
    override flags; only [flags] is used by this file. *)
Record CoglPipelineFlushOptions : Set := { flags : Z }.

Record ValidateLayerState : Set := {
  state_unit : Z;
  state_options : CoglPipelineFlushOptions;
  state_fallback_layers : Z
}.

(** Modelled from the spec: [CoglIndices], as seen through
    [get_array], [get_offset] and [get_type]. *)
Record CoglIndices : Set := {
  indices_array : handle;
  indices_offset : Z;
  indices_type : CoglIndicesType
}.

(** Modelled from the spec: the pipeline collaborator
    ([cogl-pipeline.c] is not part of the sources).  A pipeline carries a
    blend-enabled flag read by [get_real_blend_enabled] and written by
    [set_blend_enabled], its texture layers (layer index and texture, in
    layer order), and a record of what was applied to it: the flush
    options of [apply_overrides] and the legacy state.  [color4ub] is the
    flat colour [draw_wireframe] gives its debug pipeline. *)
Record CoglPipeline : Set := {
  real_blend_enable : bool;
  color4ub : Z * Z * Z * Z;
  layers : list (Z * option handle);
  applied_overrides : list CoglPipelineFlushOptions;
  applied_legacy_state : bool
}.

(** ** Diagnostics and calls into the collaborators *)

Inductive diagnostic : Set :=
| critical_position_n_components
| critical_color_n_components
| warning_tex_coord_name
| critical_normal_n_components
| warning_unknown_cogl_name (rest : string)
| warning_mid_scene_modification
| warning_disabling_layer (layer_index : Z)
| critical_immutable_unref.

(** What the file asks of GL and of the rest of Cogl, in the order it
    asks for it. *)
Inductive call : Set :=
| glColorPointer (size : Z) (type : Z) (stride : Z) (pointer : Z)
| glNormalPointer (type : Z) (stride : Z) (pointer : Z)
| glTexCoordPointer (size : Z) (type : Z) (stride : Z) (pointer : Z)
| glVertexPointer (size : Z) (type : Z) (stride : Z) (pointer : Z)
| glClientActiveTexture (unit : Z)
| glEnableClientState (cap : GLcap)
| glDisableClientState (cap : GLcap)
| glEnableVertexAttribArray (index : Z)
| glDisableVertexAttribArray (index : Z)
| glVertexAttribPointer (index : Z) (size : Z) (type : Z)
    (normalized : bool) (stride : Z) (pointer : Z)
| glDrawArrays (mode : CoglVerticesMode) (first : Z) (count : Z)
| glDrawElements (mode : CoglVerticesMode) (count : Z) (type : GLtype)
    (indices : Z)
| buffer_bind (buffer : handle) (target : CoglBufferBindTarget)
| buffer_unbind (buffer : handle)
| buffer_map (buffer : handle)
| buffer_unmap (buffer : handle)
| buffer_immutable_ref (buffer : handle)
| buffer_immutable_unref (buffer : handle)
| texture_ensure_non_quad_rendering (texture : handle)
| pipeline_pre_paint_for_layer (pipeline : handle) (layer_index : Z)
| disable_other_texcoord_arrays (mask : Z)
| pipeline_flush_gl_state (pipeline : handle) (skip_gl_color : bool)
| cogl_enable (enable_flags : Z)
| flush_face_winding
| journal_flush
| framebuffer_flush_state
| g_log (d : diagnostic).

(** ** The context *)

Record CoglContext : Type := {
  (** reference counts of the live objects; a freed object has none *)
  ref_counts : gmap handle Z;
  (** the pipelines, by handle *)
  pipelines : gmap handle CoglPipeline;
  source_stack : list handle;
  legacy_state_set : bool;
  enable_backface_culling : bool;
  temp_bitmask : Z;
  (** what [_cogl_buffer_bind] returns for a buffer *)
  buffer_base : handle -> Z;
  (** the bytes that mapping a buffer shows, by offset *)
  buffer_data : handle -> Z -> Z;
  (** what [_cogl_texture_can_hardware_repeat] answers for a texture
      once it had its chance to leave the atlas *)
  texture_can_hardware_repeat : handle -> bool;
  (** [cogl_debug_flags & COGL_DEBUG_WIREFRAME] *)
  debug_wireframe : bool;
  (** [static gboolean seen] of [warn_about_midscene_changes] *)
  seen : bool;
  (** [static CoglPipeline *wire_pipeline] of [draw_wireframe] *)
  wire_pipeline : option handle;
  (** the calls made so far, the latest first *)
  trace : list call
}.

(** ** The state monad of the context *)

Definition M (A : Type) : Type := CoglContext -> A * CoglContext.

Definition ret {A : Type} (a : A) : M A := fun ctx => (a, ctx).

Definition bind {A B : Type} (m : M A) (k : A -> M B) : M B :=
  fun ctx => let (a, ctx') := m ctx in k a ctx'.

Declare Scope cogl_scope.
Delimit Scope cogl_scope with cogl.
Notation "x <- m ;; k" := (bind m (fun x => k))
  (at level 100, m at next level, right associativity) : cogl_scope.
Notation "m ;;; k" := (bind m (fun _ => k))
  (at level 100, right associativity) : cogl_scope.
Local Open Scope cogl_scope.

Definition get {A : Type} (f : CoglContext -> A) : M A :=
  fun ctx => (f ctx, ctx).

Definition modify (f : CoglContext -> CoglContext) : M unit :=
  fun ctx => (tt, f ctx).

Definition when (b : bool) (m : M unit) : M unit :=
  if b then m else ret tt.

(** Field updates of the context. *)

Definition set_ref_counts (f : gmap handle Z -> gmap handle Z)
    (c : CoglContext) : CoglContext :=
  {| ref_counts := f (ref_counts c); pipelines := pipelines c;
     source_stack := source_stack c;
     legacy_state_set := legacy_state_set c;
     enable_backface_culling := enable_backface_culling c;
     temp_bitmask := temp_bitmask c; buffer_base := buffer_base c;
     buffer_data := buffer_data c;
     texture_can_hardware_repeat := texture_can_hardware_repeat c;
     debug_wireframe := debug_wireframe c; seen := seen c;
     wire_pipeline := wire_pipeline c; trace := trace c |}.

Definition set_pipelines
    (f : gmap handle CoglPipeline -> gmap handle CoglPipeline)
    (c : CoglContext) : CoglContext :=
  {| ref_counts := ref_counts c; pipelines := f (pipelines c);
     source_stack := source_stack c;
     legacy_state_set := legacy_state_set c;
     enable_backface_culling := enable_backface_culling c;
     temp_bitmask := temp_bitmask c; buffer_base := buffer_base c;
     buffer_data := buffer_data c;
     texture_can_hardware_repeat := texture_can_hardware_repeat c;
     debug_wireframe := debug_wireframe c; seen := seen c;
     wire_pipeline := wire_pipeline c; trace := trace c |}.

Definition set_source_stack (f : list handle -> list handle) (c : CoglContext)
    : CoglContext :=
  {| ref_counts := ref_counts c; pipelines := pipelines c;
     source_stack := f (source_stack c);
     legacy_state_set := legacy_state_set c;
     enable_backface_culling := enable_backface_culling c;
     temp_bitmask := temp_bitmask c; buffer_base := buffer_base c;
     buffer_data := buffer_data c;
     texture_can_hardware_repeat := texture_can_hardware_repeat c;
     debug_wireframe := debug_wireframe c; seen := seen c;
     wire_pipeline := wire_pipeline c; trace := trace c |}.

Definition set_temp_bitmask (f : Z -> Z) (c : CoglContext)
    : CoglContext :=
  {| ref_counts := ref_counts c; pipelines := pipelines c;
     source_stack := source_stack c;
     legacy_state_set := legacy_state_set c;
     enable_backface_culling := enable_backface_culling c;
     temp_bitmask := f (temp_bitmask c); buffer_base := buffer_base c;
     buffer_data := buffer_data c;
     texture_can_hardware_repeat := texture_can_hardware_repeat c;
     debug_wireframe := debug_wireframe c; seen := seen c;
     wire_pipeline := wire_pipeline c; trace := trace c |}.

Definition set_debug_wireframe (b : bool) (c : CoglContext)
    : CoglContext :=
  {| ref_counts := ref_counts c; pipelines := pipelines c;
     source_stack := source_stack c;
     legacy_state_set := legacy_state_set c;
     enable_backface_culling := enable_backface_culling c;
     temp_bitmask := temp_bitmask c; buffer_base := buffer_base c;
     buffer_data := buffer_data c;
     texture_can_hardware_repeat := texture_can_hardware_repeat c;
     debug_wireframe := b; seen := seen c;
     wire_pipeline := wire_pipeline c; trace := trace c |}.

Definition set_seen (b : bool) (c : CoglContext)
    : CoglContext :=
  {| ref_counts := ref_counts c; pipelines := pipelines c;
     source_stack := source_stack c;
     legacy_state_set := legacy_state_set c;
     enable_backface_culling := enable_backface_culling c;
     temp_bitmask := temp_bitmask c; buffer_base := buffer_base c;
     buffer_data := buffer_data c;
     texture_can_hardware_repeat := texture_can_hardware_repeat c;
     debug_wireframe := debug_wireframe c; seen := b;
     wire_pipeline := wire_pipeline c; trace := trace c |}.

Definition set_wire_pipeline (p : option handle) (c : CoglContext)
    : CoglContext :=
  {| ref_counts := ref_counts c; pipelines := pipelines c;
     source_stack := source_stack c;
     legacy_state_set := legacy_state_set c;
     enable_backface_culling := enable_backface_culling c;
     temp_bitmask := temp_bitmask c; buffer_base := buffer_base c;
     buffer_data := buffer_data c;
     texture_can_hardware_repeat := texture_can_hardware_repeat c;
     debug_wireframe := debug_wireframe c; seen := seen c;
     wire_pipeline := p; trace := trace c |}.

Definition set_trace (f : list call -> list call) (c : CoglContext)
    : CoglContext :=
  {| ref_counts := ref_counts c; pipelines := pipelines c;
     source_stack := source_stack c;
     legacy_state_set := legacy_state_set c;
     enable_backface_culling := enable_backface_culling c;
     temp_bitmask := temp_bitmask c; buffer_base := buffer_base c;
     buffer_data := buffer_data c;
     texture_can_hardware_repeat := texture_can_hardware_repeat c;
     debug_wireframe := debug_wireframe c; seen := seen c;
     wire_pipeline := wire_pipeline c; trace := f (trace c) |}.

(** [GE (call)]: make the GL call (and check the GL error). *)
Definition GE (c : call) : M unit := modify (set_trace (cons c)).

Definition g_warning (d : diagnostic) : M unit := GE (g_log d).
Definition g_critical (d : diagnostic) : M unit := GE (g_log d).

(** ** Reference counting *)

(** Modelled from the spec: [cogl_object_ref] of [cogl-object.c], which is
    not part of the sources.  Ownership is shared and reference counted:
    taking a reference adds one to the count of a live object. *)
Definition cogl_object_ref (object : handle) : M unit :=
  modify (set_ref_counts (fun rc =>
    match rc !! object with
    | Some n => <[object := n + 1]> rc
    | None => rc
    end)).

(** Modelled from the spec: [cogl_object_unref] of [cogl-object.c], which
    is not part of the sources.  Dropping a reference takes one from the
    count and the object is released when the last reference goes. *)
Definition cogl_object_unref (object : handle) : M unit :=
  modify (set_ref_counts (fun rc =>
    match rc !! object with
    | Some n => if n - 1 <=? 0 then delete object rc
                else <[object := n - 1]> rc
    | None => rc
    end)).

(** A handle no object of the context uses. *)
Definition fresh_handle (ctx : CoglContext) : handle :=
  fresh ({[COGL_INVALID_HANDLE]} ∪ dom (ref_counts ctx)
         ∪ dom (pipelines ctx)).

(** Modelled from the spec: [cogl_vertex_array_new]; the new buffer is
    born with one reference, held by the caller. *)
Definition cogl_vertex_array_new (bytes : Z) : M handle :=
  fun ctx =>
    let h := fresh_handle ctx in
    (h, set_ref_counts (insert h 1) ctx).

(** ** C strings *)

(** [name + n] *)
Fixpoint string_skip (n : nat) (s : string) : string :=
  match n, s with
  | O, _ => s
  | S n', String _ s' => string_skip n' s'
  | S _, EmptyString => EmptyString
  end.

(** [strcmp (a, b) == 0] *)
Definition strcmp_eq (a b : string) : bool := String.eqb a b.

(** [strncmp (s, p, strlen (p)) == 0] *)
Definition strncmp_eq (s p : string) : bool := String.prefix p s.

Definition isspace (c : ascii) : bool :=
  let n := N_of_ascii c in ((9 <=? n) && (n <=? 13) || (n =? 32))%N.

Definition digit_of (c : ascii) : option Z :=
  let n := Z.of_N (N_of_ascii c) in
  if (48 <=? n) && (n <=? 57) then Some (n - 48) else None.

Fixpoint skip_spaces (s : string) : string :=
  match s with
  | String c s' => if isspace c then skip_spaces s' else s
  | EmptyString => s
  end.

(** The decimal digits at the head of [s], folded into [acc]; [None]
    when [s] does not start with a digit. *)
Fixpoint scan_digits (s : string) (acc : option Z) : option Z :=
  match s with
  | String c s' =>
      match digit_of c with
      | Some d => scan_digits s' (Some (10 * default 0 acc + d))
      | None => acc
      end
  | EmptyString => acc
  end.

(** [ULONG_MAX], with [unsigned long] as wide as [size_t]. *)
Definition ULONG_MAX : Z := 2 ^ size_t_bits - 1.

(** What [strtoul] makes of the digits read, whose value is [v]: a value
    over [ULONG_MAX] is reported as [ULONG_MAX], whatever the sign; a
    value in range is negated in [unsigned long] after a minus sign. *)
Definition strtoul_value (negative : bool) (v : Z) : Z :=
  if v >? ULONG_MAX then ULONG_MAX
  else if negative then (- v) mod 2 ^ size_t_bits
  else v.

(** The [%u] conversion of [sscanf]: white space is skipped, a sign is
    accepted, at least one digit is needed; the digits are converted as
    [strtoul] converts them and the result is stored in an
    [unsigned int].  (ISO C leaves a numeral that does not fit
    undefined; this is what the C library does with it: it saturates at
    [ULONG_MAX], and the store keeps the low 32 bits.) *)
Definition scan_unsigned (s : string) : option Z :=
  match skip_spaces s with
  | String "+"%char s' =>
      (fun v => wrap_u32 (strtoul_value false v)) <$> scan_digits s' None
  | String "-"%char s' =>
      (fun v => wrap_u32 (strtoul_value true v)) <$> scan_digits s' None
  | s' =>
      (fun v => wrap_u32 (strtoul_value false v)) <$> scan_digits s' None
  end.

(** [sscanf (name, "tex_coord%u_in", texture_unit) == 1], with the
    converted unit.  The literal [tex_coord] has to match; whether the
    trailing [_in] matches does not change the count of conversions. *)
Definition sscanf_tex_coord_u_in (name : string) : option Z :=
  if strncmp_eq name "tex_coord" then scan_unsigned (string_skip 9 name)
  else None.

(** ** Vertex attributes *)

Definition with_array (array' : handle) (a : CoglVertexAttribute)
    : CoglVertexAttribute :=
  {| array := array'; name := name a; stride := stride a; offset := offset a;
     n_components := n_components a; type := type a;
     immutable_ref := immutable_ref a; name_id := name_id a;
     normalized := normalized a; texture_unit := texture_unit a |}.

Definition with_normalized (normalized' : bool) (a : CoglVertexAttribute)
    : CoglVertexAttribute :=
  {| array := array a; name := name a; stride := stride a; offset := offset a;
     n_components := n_components a; type := type a;
     immutable_ref := immutable_ref a; name_id := name_id a;
     normalized := normalized'; texture_unit := texture_unit a |}.

Definition with_immutable_ref (immutable_ref' : Z) (a : CoglVertexAttribute)
    : CoglVertexAttribute :=
  {| array := array a; name := name a; stride := stride a; offset := offset a;
     n_components := n_components a; type := type a;
     immutable_ref := immutable_ref'; name_id := name_id a;
     normalized := normalized a; texture_unit := texture_unit a |}.

(** The three out-parameters of [validate_cogl_attribute] point into the
    attribute under construction; they are passed in and handed back
    with the status. *)
Definition validate_cogl_attribute (name : string) (n_components : Z)
    (name_id : CoglVertexAttributeNameID) (normalized : bool)
    (texture_unit : Z)
    : M (bool * (CoglVertexAttributeNameID * bool * Z)) :=
  let name := string_skip 5 name in (* skip "cogl_" *)
  let normalized := false in
  let texture_unit := 0 in
  if strcmp_eq name "position_in" then
    if n_components =? 1 then
      g_critical critical_position_n_components;;;
      ret (false, (name_id, normalized, texture_unit))
    else
      ret (true, (COGL_VERTEX_ATTRIBUTE_NAME_ID_POSITION_ARRAY,
                  normalized, texture_unit))
  else if strcmp_eq name "color_in" then
    if negb (n_components =? 3) && negb (n_components =? 4) then
      g_critical critical_color_n_components;;;
      ret (false, (name_id, normalized, texture_unit))
    else
      ret (true, (COGL_VERTEX_ATTRIBUTE_NAME_ID_COLOR_ARRAY,
                  normalized, texture_unit))
  else if strcmp_eq name "tex_coord_in" then
    ret (true, (COGL_VERTEX_ATTRIBUTE_NAME_ID_TEXTURE_COORD_ARRAY,
                normalized, texture_unit))
  else if strncmp_eq name "tex_coord" then
    match sscanf_tex_coord_u_in name with
    | None =>
        g_warning warning_tex_coord_name;;;
        ret (false, (name_id, normalized, texture_unit))
    | Some texture_unit =>
        ret (true, (COGL_VERTEX_ATTRIBUTE_NAME_ID_TEXTURE_COORD_ARRAY,
                    normalized, texture_unit))
    end
  else if strcmp_eq name "normal" then
    if negb (n_components =? 3) then
      g_critical critical_normal_n_components;;;
      ret (false, (name_id, normalized, texture_unit))
    else
      let normalized := true in
      ret (true, (COGL_VERTEX_ATTRIBUTE_NAME_ID_NORMAL_ARRAY,
                  normalized, texture_unit))
  else
    g_warning (warning_unknown_cogl_name name);;;
    ret (false, (name_id, normalized, texture_unit)).

Definition _cogl_vertex_attribute_free (attribute : CoglVertexAttribute)
    : M unit :=
  cogl_object_unref (array attribute).

(** What [g_slice_new] leaves in the three fields that
    [cogl_vertex_attribute_new] does not assign itself: they are written
    by the validation, or in the [else] branch, before the attribute is
    handed out. *)
Definition g_slice_new_name_id : CoglVertexAttributeNameID :=
  COGL_VERTEX_ATTRIBUTE_NAME_ID_POSITION_ARRAY.
Definition g_slice_new_normalized : bool := true.
Definition g_slice_new_texture_unit : Z := 0xAAAAAAAA.

Definition cogl_vertex_attribute_new (array : handle) (name : string)
    (stride offset : Z) (n_components : Z) (type : CoglVertexAttributeType)
    : M (option CoglVertexAttribute) :=
  cogl_object_ref array;;;
  r <- (if strncmp_eq name "cogl_" then
          validate_cogl_attribute name n_components
            g_slice_new_name_id g_slice_new_normalized
            g_slice_new_texture_unit
        else
          ret (true, (COGL_VERTEX_ATTRIBUTE_NAME_ID_CUSTOM_ARRAY, false, 0)));;
  let '(status, (name_id, normalized, texture_unit)) := r in
  let attribute :=
    {| array := array; name := name; stride := stride; offset := offset;
       n_components := n_components; type := type; immutable_ref := 0;
       name_id := name_id; normalized := normalized;
       texture_unit := texture_unit |} in
  if negb status then
    _cogl_vertex_attribute_free attribute;;;
    ret None
  else
    ret (Some attribute).

Definition cogl_vertex_attribute_get_normalized
    (attribute : CoglVertexAttribute) : bool :=
  normalized attribute.

Definition warn_about_midscene_changes : M unit :=
  s <- get seen;;
  if negb s then
    g_warning warning_mid_scene_modification;;;
    modify (set_seen true)
  else ret tt.

(** The setters act on the attribute the pointer designates; the new
    contents of that attribute are the result. *)
Definition cogl_vertex_attribute_set_normalized
    (attribute : CoglVertexAttribute) (normalized : bool)
    : M CoglVertexAttribute :=
  when (negb (immutable_ref attribute =? 0)) warn_about_midscene_changes;;;
  ret (with_normalized normalized attribute).

Definition cogl_vertex_attribute_get_array (attribute : CoglVertexAttribute)
    : handle :=
  array attribute.

Definition cogl_vertex_attribute_set_array
    (attribute : CoglVertexAttribute) (array' : handle)
    : M CoglVertexAttribute :=
  when (negb (immutable_ref attribute =? 0)) warn_about_midscene_changes;;;
  cogl_object_ref array';;;
  cogl_object_unref (array attribute);;;
  ret (with_array array' attribute).

(** Modelled from the spec: the buffer operations
    [immutable_ref_acquire/release], to which the attribute forwards. *)
Definition _cogl_buffer_immutable_ref (buffer : handle) : M unit :=
  GE (buffer_immutable_ref buffer).

Definition _cogl_buffer_immutable_unref (buffer : handle) : M unit :=
  GE (buffer_immutable_unref buffer).

Definition _cogl_vertex_attribute_immutable_ref
    (vertex_attribute : CoglVertexAttribute) : M CoglVertexAttribute :=
  let vertex_attribute :=
    with_immutable_ref (wrap_int (immutable_ref vertex_attribute + 1))
      vertex_attribute in
  _cogl_buffer_immutable_ref (array vertex_attribute);;;
  ret vertex_attribute.

Definition _cogl_vertex_attribute_immutable_unref
    (vertex_attribute : CoglVertexAttribute) : M CoglVertexAttribute :=
  if negb (immutable_ref vertex_attribute >? 0) then
    g_critical critical_immutable_unref;;;
    ret vertex_attribute
  else
    let vertex_attribute :=
      with_immutable_ref (wrap_int (immutable_ref vertex_attribute - 1))
        vertex_attribute in
    _cogl_buffer_immutable_unref (array vertex_attribute);;;
    ret vertex_attribute.

(** ** The pipeline collaborator *)

Definition with_real_blend_enable (b : bool) (p : CoglPipeline)
    : CoglPipeline :=
  {| real_blend_enable := b; color4ub := color4ub p; layers := layers p;
     applied_overrides := applied_overrides p;
     applied_legacy_state := applied_legacy_state p |}.

Definition with_color4ub (c : Z * Z * Z * Z) (p : CoglPipeline)
    : CoglPipeline :=
  {| real_blend_enable := real_blend_enable p; color4ub := c;
     layers := layers p; applied_overrides := applied_overrides p;
     applied_legacy_state := applied_legacy_state p |}.

Definition with_applied_overrides (o : list CoglPipelineFlushOptions)
    (p : CoglPipeline) : CoglPipeline :=
  {| real_blend_enable := real_blend_enable p; color4ub := color4ub p;
     layers := layers p; applied_overrides := o;
     applied_legacy_state := applied_legacy_state p |}.

Definition with_applied_legacy_state (b : bool) (p : CoglPipeline)
    : CoglPipeline :=
  {| real_blend_enable := real_blend_enable p; color4ub := color4ub p;
     layers := layers p; applied_overrides := applied_overrides p;
     applied_legacy_state := b |}.

(** Modelled from the spec: the framebuffer/context operation
    [current_source_pipeline]; the source is the top of the stack that
    [cogl_push_source] and [cogl_pop_source] maintain. *)
Definition cogl_get_source : M handle :=
  get (fun ctx => hd COGL_INVALID_HANDLE (source_stack ctx)).

(** Modelled from the spec: [push/pop_source (pipeline)]. *)
Definition cogl_push_source (pipeline : handle) : M unit :=
  modify (set_source_stack (cons pipeline)).

Definition cogl_pop_source : M unit :=
  modify (set_source_stack (@tl handle)).

(** Modelled from the spec: the pipeline operation [copy () -> Pipeline],
    a structural copy that is a new reference-counted object. *)
Definition cogl_pipeline_copy (source : handle) : M handle :=
  fun ctx =>
    match pipelines ctx !! source with
    | Some p =>
        let h := fresh_handle ctx in
        (h, set_ref_counts (insert h 1) (set_pipelines (insert h p) ctx))
    | None => (COGL_INVALID_HANDLE, ctx)
    end.

(** Modelled from the spec: [cogl_pipeline_new], a pipeline in its
    default state: opaque white, no layers, blending off. *)
Definition cogl_pipeline_new : M handle :=
  fun ctx =>
    let h := fresh_handle ctx in
    let p := {| real_blend_enable := false;
                color4ub := (0xff, 0xff, 0xff, 0xff); layers := [];
                applied_overrides := []; applied_legacy_state := false |} in
    (h, set_ref_counts (insert h 1) (set_pipelines (insert h p) ctx)).

Definition update_pipeline (pipeline : handle)
    (f : CoglPipeline -> CoglPipeline) : M unit :=
  modify (set_pipelines (fun ps =>
    match ps !! pipeline with
    | Some p => <[pipeline := f p]> ps
    | None => ps
    end)).

(** Modelled from the spec: [cogl_pipeline_set_color4ub]. *)
Definition cogl_pipeline_set_color4ub (pipeline : handle)
    (red green blue alpha : Z) : M unit :=
  update_pipeline pipeline (with_color4ub (red, green, blue, alpha)).

(** Modelled from the spec: [get_real_blend_enabled () -> bool]. *)
Definition _cogl_pipeline_get_real_blend_enabled (pipeline : handle)
    : M bool :=
  get (fun ctx =>
    match pipelines ctx !! pipeline with
    | Some p => real_blend_enable p
    | None => false
    end).

(** [CoglPipelineBlendEnable]: the file only ever asks for
    [COGL_PIPELINE_BLEND_ENABLE_ENABLED]. *)
Definition COGL_PIPELINE_BLEND_ENABLE_ENABLED : bool := true.

(** Modelled from the spec: [set_blend_enabled (bool)]. *)
Definition _cogl_pipeline_set_blend_enabled (pipeline : handle)
    (enable : bool) : M unit :=
  update_pipeline pipeline (with_real_blend_enable enable).

(** Modelled from the spec: [apply_overrides (flags)]. *)
Definition _cogl_pipeline_apply_overrides (pipeline : handle)
    (options : CoglPipelineFlushOptions) : M unit :=
  update_pipeline pipeline
    (fun p => with_applied_overrides (applied_overrides p ++ [options]) p).

(** Modelled from the spec: the deprecated, global per-context override
    state applied to a pipeline. *)
Definition _cogl_pipeline_apply_legacy_state (pipeline : handle) : M unit :=
  update_pipeline pipeline (with_applied_legacy_state true).

(** Modelled from the spec: [flush_to_context (skip_fixed_color)]. *)
Definition _cogl_pipeline_flush_gl_state (pipeline : handle)
    (skip_gl_color : bool) : M unit :=
  GE (pipeline_flush_gl_state pipeline skip_gl_color).

(** Modelled from the spec: [get_layer_texture (index)]. *)
Definition _cogl_pipeline_get_layer_texture (pipeline : handle)
    (layer_index : Z) : M handle :=
  get (fun ctx =>
    match pipelines ctx !! pipeline with
    | Some p =>
        match List.find (fun l => fst l =? layer_index) (layers p) with
        | Some (_, Some texture) => texture
        | _ => COGL_INVALID_HANDLE
        end
    | None => COGL_INVALID_HANDLE
    end).

(** The callback is called for the layers in order until it returns
    [FALSE]. *)
Fixpoint foreach_layer_index {S : Type}
    (callback : handle -> Z -> S -> M (bool * S))
    (pipeline : handle) (layer_indices : list Z) (user_data : S) : M S :=
  match layer_indices with
  | [] => ret user_data
  | layer_index :: rest =>
      r <- callback pipeline layer_index user_data;;
      if fst r then foreach_layer_index callback pipeline rest (snd r)
      else ret (snd r)
  end.

(** Modelled from the spec: [foreach_layer (callback)], once per layer of
    the pipeline, in layer order. *)
Definition cogl_pipeline_foreach_layer {S : Type} (pipeline : handle)
    (callback : handle -> Z -> S -> M (bool * S)) (user_data : S) : M S :=
  ps <- get pipelines;;
  match ps !! pipeline with
  | Some p =>
      foreach_layer_index callback pipeline (map fst (layers p)) user_data
  | None => ret user_data
  end.

(** ** The texture and buffer collaborators *)

(** Modelled from the spec: the texture operation
    [notify_non_quad_usage ()], a pure delegation. *)
Definition _cogl_texture_ensure_non_quad_rendering (texture : handle)
    : M unit :=
  GE (texture_ensure_non_quad_rendering texture).

(** Modelled from the spec: [ensure_mip_preparation ()], a pure
    delegation. *)
Definition _cogl_pipeline_pre_paint_for_layer (pipeline : handle)
    (layer_index : Z) : M unit :=
  GE (pipeline_pre_paint_for_layer pipeline layer_index).

(** Modelled from the spec: [supports_hardware_repeat () -> bool], what
    the texture reports when it is asked. *)
Definition _cogl_texture_can_hardware_repeat (texture : handle) : M bool :=
  get (fun ctx => texture_can_hardware_repeat ctx texture).

(** Modelled from the spec: the buffer operations
    [bind (target) -> base_pointer] and [unbind ()]. *)
Definition _cogl_buffer_bind (buffer : handle)
    (target : CoglBufferBindTarget) : M Z :=
  GE (buffer_bind buffer target);;;
  get (fun ctx => buffer_base ctx buffer).

Definition _cogl_buffer_unbind (buffer : handle) : M unit :=
  GE (buffer_unbind buffer).

(** ** Layer validation *)

(** Modelled from the spec: the pipeline-override flag that asks for the
    substitution of fallback textures, [COGL_PIPELINE_FLUSH_FALLBACK_MASK]
    of [cogl-pipeline-private.h]; which bit it is plays no role below. *)
Definition COGL_PIPELINE_FLUSH_FALLBACK_MASK : Z := 1.

(** [user_data] points to the state: it is passed in and handed back
    with the status.  [1 << state->unit] is an [int], or-ed into a
    [guint32]; C leaves the shift undefined from [unit = 32] on, where
    the embedding sets no bit. *)
Definition validate_layer_cb (pipeline : handle) (layer_index : Z)
    (state : ValidateLayerState) : M (bool * ValidateLayerState) :=
  texture <- _cogl_pipeline_get_layer_texture pipeline layer_index;;
  let status := true in
  state <-
    (if Nat.eqb texture COGL_INVALID_HANDLE then
       ret state (* goto validated *)
     else
       _cogl_texture_ensure_non_quad_rendering texture;;;
       _cogl_pipeline_pre_paint_for_layer pipeline layer_index;;;
       can_repeat <- _cogl_texture_can_hardware_repeat texture;;
       if negb can_repeat then
         g_warning (warning_disabling_layer layer_index);;;
         ret {| state_unit := state_unit state;
                state_options :=
                  {| flags := Z.lor (flags (state_options state))
                                COGL_PIPELINE_FLUSH_FALLBACK_MASK |};
                state_fallback_layers :=
                  wrap_u32 (Z.lor (state_fallback_layers state)
                              (wrap_int (Z.shiftl 1 (state_unit state)))) |}
       else ret state);;
  (* validated: *)
  ret (status,
       {| state_unit := wrap_int (state_unit state + 1);
          state_options := state_options state;
          state_fallback_layers := state_fallback_layers state |}).

(** ** Flushing the vertex state *)

(** Modelled from the spec: the global draw flags (vertex and colour
    array enable bits, backface culling) of [cogl-internal.h]; which
    bits they are plays no role below. *)
Definition COGL_ENABLE_VERTEX_ARRAY : Z := Z.shiftl 1 3.
Definition COGL_ENABLE_COLOR_ARRAY : Z := Z.shiftl 1 4.
Definition COGL_ENABLE_BACKFACE_CULLING : Z := Z.shiftl 1 5.

Definition GL_TEXTURE0 : Z := 0x84C0.

(** [base + offset] on a [void *]. *)
Definition pointer_add (base offset : Z) : Z := wrap_size_t (base + offset).

(** Modelled from the spec: the per-context bitmask of the texture units
    in use, [ctx->temp_bitmask], and the operations of [cogl-bitmask.h]
    on it. *)
Definition _cogl_bitmask_clear_all : M unit :=
  modify (set_temp_bitmask (fun _ => 0)).

Definition _cogl_bitmask_set (bit_num : Z) (value : bool) : M unit :=
  modify (set_temp_bitmask (fun mask =>
    if value then Z.setbit mask bit_num else Z.clearbit mask bit_num)).

(** Modelled from the spec: the texture-coordinate channels a prior draw
    enabled and this one does not use are disabled. *)
Definition _cogl_disable_other_texcoord_arrays : M unit :=
  mask <- get temp_bitmask;;
  GE (disable_other_texcoord_arrays mask).

(** Modelled from the spec: the global draw flags are applied, and a
    pending change of the winding order is flushed. *)
Definition _cogl_enable (enable_flags : Z) : M unit :=
  GE (cogl_enable enable_flags).

Definition _cogl_flush_face_winding : M unit := GE flush_face_winding.

(** A loop over a NULL-terminated array, [for (i = 0; array[i]; i++)],
    threading the local variables the body assigns. *)
Fixpoint for_each {A L : Type} (body : A -> L -> M L) (elements : list A)
    (locals : L) : M L :=
  match elements with
  | [] => ret locals
  | x :: rest => locals' <- body x locals;; for_each body rest locals'
  end.

(** The local variables of [enable_gl_state] that its loop assigns. *)
Record enable_locals : Set := {
  generic_index : Z;
  enable_flags : Z;
  skip_gl_color : bool;
  source : handle;
  copy : handle
}.

(** The body of the loop of [enable_gl_state].  Every attribute carries
    one of the five name ids, so the [default:] branch of the [switch]
    is never taken. *)
Definition enable_attribute (attribute : CoglVertexAttribute)
    (l : enable_locals) : M enable_locals :=
  let vertex_array := cogl_vertex_attribute_get_array attribute in
  let buffer := vertex_array in
  base <- _cogl_buffer_bind buffer COGL_BUFFER_BIND_TARGET_VERTEX_ARRAY;;
  l <-
    match name_id attribute with
    | COGL_VERTEX_ATTRIBUTE_NAME_ID_COLOR_ARRAY =>
        let enable_flags :=
          Z.lor (enable_flags l) COGL_ENABLE_COLOR_ARRAY in
        GE (glColorPointer (n_components attribute) (type attribute)
              (wrap_int (stride attribute))
              (pointer_add base (offset attribute)));;;
        blend <- _cogl_pipeline_get_real_blend_enabled (source l);;
        sc <-
          (if negb blend then
             let blend_enable := COGL_PIPELINE_BLEND_ENABLE_ENABLED in
             copy <- cogl_pipeline_copy (source l);;
             _cogl_pipeline_set_blend_enabled copy blend_enable;;;
             ret (copy, copy)
           else ret (source l, copy l));;
        ret {| generic_index := generic_index l;
               enable_flags := enable_flags;
               skip_gl_color := true;
               source := fst sc; copy := snd sc |}
    | COGL_VERTEX_ATTRIBUTE_NAME_ID_NORMAL_ARRAY =>
        GE (glEnableClientState GL_NORMAL_ARRAY);;;
        GE (glNormalPointer (type attribute) (wrap_int (stride attribute))
              (pointer_add base (offset attribute)));;;
        ret l
    | COGL_VERTEX_ATTRIBUTE_NAME_ID_TEXTURE_COORD_ARRAY =>
        GE (glClientActiveTexture
              (wrap_u32 (GL_TEXTURE0 + texture_unit attribute)));;;
        GE (glEnableClientState GL_TEXTURE_COORD_ARRAY);;;
        GE (glTexCoordPointer (n_components attribute) (type attribute)
              (wrap_int (stride attribute))
              (pointer_add base (offset attribute)));;;
        _cogl_bitmask_set (texture_unit attribute) true;;;
        ret l
    | COGL_VERTEX_ATTRIBUTE_NAME_ID_POSITION_ARRAY =>
        let enable_flags :=
          Z.lor (enable_flags l) COGL_ENABLE_VERTEX_ARRAY in
        GE (glVertexPointer (n_components attribute) (type attribute)
              (wrap_int (stride attribute))
              (pointer_add base (offset attribute)));;;
        ret {| generic_index := generic_index l;
               enable_flags := enable_flags;
               skip_gl_color := skip_gl_color l;
               source := source l; copy := copy l |}
    | COGL_VERTEX_ATTRIBUTE_NAME_ID_CUSTOM_ARRAY =>
        (* glEnableVertexAttribArray (generic_index++) *)
        GE (glEnableVertexAttribArray (generic_index l));;;
        let generic_index := wrap_u32 (generic_index l + 1) in
        GE (glVertexAttribPointer generic_index (n_components attribute)
              (type attribute) (normalized attribute)
              (wrap_int (stride attribute))
              (pointer_add base (offset attribute)));;;
        ret {| generic_index := generic_index;
               enable_flags := enable_flags l;
               skip_gl_color := skip_gl_color l;
               source := source l; copy := copy l |}
    end;;
  _cogl_buffer_unbind buffer;;;
  ret l.

Definition enable_gl_state (attributes : list CoglVertexAttribute)
    (state : ValidateLayerState) : M handle :=
  current <- cogl_get_source;;
  _cogl_bitmask_clear_all;;;
  l <- for_each enable_attribute attributes
         {| generic_index := 0; enable_flags := 0; skip_gl_color := false;
            source := current; copy := COGL_INVALID_HANDLE |};;
  (* Disable any tex coord arrays that we didn't use *)
  _cogl_disable_other_texcoord_arrays;;;
  sc <-
    (if negb (flags (state_options state) =? 0) then
       (* If we haven't already created a derived pipeline... *)
       sc <- (if Nat.eqb (copy l) COGL_INVALID_HANDLE then
                copy <- cogl_pipeline_copy (source l);;
                ret (copy, copy)
              else ret (source l, copy l));;
       _cogl_pipeline_apply_overrides (fst sc) (state_options state);;;
       ret sc
     else ret (source l, copy l));;
  legacy <- get legacy_state_set;;
  sc <-
    (if legacy then
       (* If we haven't already created a derived pipeline... *)
       sc <- (if Nat.eqb (snd sc) COGL_INVALID_HANDLE then
                copy <- cogl_pipeline_copy (fst sc);;
                ret (copy, copy)
              else ret sc);;
       _cogl_pipeline_apply_legacy_state (fst sc);;;
       ret sc
     else ret sc);;
  let source := fst sc in
  _cogl_pipeline_flush_gl_state source (skip_gl_color l);;;
  culling <- get enable_backface_culling;;
  let enable_flags :=
    if culling then Z.lor (enable_flags l) COGL_ENABLE_BACKFACE_CULLING
    else enable_flags l in
  _cogl_enable enable_flags;;;
  _cogl_flush_face_winding;;;
  ret source.

(** The body of the loop of [disable_gl_state]; its only local is
    [generic_index]. *)
Definition disable_attribute (attribute : CoglVertexAttribute)
    (generic_index : Z) : M Z :=
  match name_id attribute with
  | COGL_VERTEX_ATTRIBUTE_NAME_ID_COLOR_ARRAY => ret generic_index
  | COGL_VERTEX_ATTRIBUTE_NAME_ID_NORMAL_ARRAY =>
      GE (glDisableClientState GL_NORMAL_ARRAY);;;
      ret generic_index
  | COGL_VERTEX_ATTRIBUTE_NAME_ID_TEXTURE_COORD_ARRAY => ret generic_index
  | COGL_VERTEX_ATTRIBUTE_NAME_ID_POSITION_ARRAY => ret generic_index
  | COGL_VERTEX_ATTRIBUTE_NAME_ID_CUSTOM_ARRAY =>
      (* glDisableVertexAttribArray (generic_index++) *)
      GE (glDisableVertexAttribArray generic_index);;;
      ret (wrap_u32 (generic_index + 1))
  end.

Definition disable_gl_state (attributes : list CoglVertexAttribute)
    (source : handle) : M unit :=
  current <- cogl_get_source;;
  when (negb (Nat.eqb source current)) (cogl_object_unref source);;;
  _ <- for_each disable_attribute attributes 0;;
  ret tt.

(** ** The wireframe of a draw ([COGL_ENABLE_DEBUG]) *)

(** A C loop [for (i = first; i < limit; i += step) body], with the value
    of [i] it ends on.  The first argument bounds the number of
    iterations; [loop_bound first limit] is enough for any [step >= 1]. *)
Fixpoint for_loop_upto {L : Type} (bound : nat) (i limit step : Z)
    (body : Z -> L -> L) (locals : L) : Z * L :=
  match bound with
  | O => (i, locals)
  | S bound' =>
      if i <? limit then
        for_loop_upto bound' (wrap_int (i + step)) limit step body
          (body i locals)
      else (i, locals)
  end.

Definition loop_bound (first limit : Z) : nat := Z.to_nat (limit - first).

Definition for_loop {L : Type} (first limit step : Z)
    (body : Z -> L -> L) (locals : L) : Z * L :=
  for_loop_upto (loop_bound first limit) first limit step body locals.

(** Mapped buffer memory: the byte at each offset from the pointer that
    [cogl_buffer_map] returned. *)
Definition memory : Type := Z -> Z.

(** Little-endian loads.  A [float] is carried as its 32 bits: the file
    only copies floats and writes [0]. *)
Definition load_u8 (m : memory) (address : Z) : Z := m address mod 2 ^ 8.

Definition load_u16 (m : memory) (address : Z) : Z :=
  load_u8 m address + 2 ^ 8 * load_u8 m (address + 1).

Definition load_u32 (m : memory) (address : Z) : Z :=
  load_u16 m address + 2 ^ 16 * load_u16 m (address + 2).

Definition load_float (m : memory) (address : Z) : Z := load_u32 m address.

Definition get_index (indices : option memory) (type : CoglIndicesType)
    (_index : Z) : Z :=
  match indices with
  | None => _index
  | Some indices =>
      match type with
      | COGL_INDICES_TYPE_UNSIGNED_BYTE => load_u8 indices _index
      | COGL_INDICES_TYPE_UNSIGNED_SHORT => load_u16 indices (2 * _index)
      | COGL_INDICES_TYPE_UNSIGNED_INT =>
          wrap_int (load_u32 indices (4 * _index))
      end
  end.

(** The [lines] array under construction, as the floats written so far
    (three to a [CoglP3Vertex]), and [*n_line_vertices]. *)
Record wire_lines : Type := {
  lines : gmap Z Z;
  n_line_vertices : Z
}.

(** One end of a line: the two loops of [add_line] that copy the
    components of the vertex at byte offset [v] to [o], [o + 1], ... and
    pad with zeros up to three. *)
Definition add_line_vertex (vertices : memory)
    (attribute : CoglVertexAttribute) (v o : Z) (out : gmap Z Z)
    : Z * gmap Z Z :=
  let '(i, (o, out)) :=
    for_loop 0 (n_components attribute) 1
      (fun i '(o, out) =>
         (o + 1, <[o := load_float vertices (v + 4 * i)]> out))
      (o, out) in
  let '(_, (o, out)) :=
    for_loop i 3 1 (fun _ '(o, out) => (o + 1, <[o := 0]> out)) (o, out) in
  (o, out).

Definition add_line (vertices : memory) (indices : option memory)
    (indices_type : CoglIndicesType) (attribute : CoglVertexAttribute)
    (start end_ : Z) (w : wire_lines) : wire_lines :=
  let start_index := get_index indices indices_type start in
  let end_index := get_index indices indices_type end_ in
  let v0 := wrap_size_t (start_index * stride attribute) in
  let v1 := wrap_size_t (end_index * stride attribute) in
  let o := 3 * n_line_vertices w in
  let '(o, out) := add_line_vertex vertices attribute v0 o (lines w) in
  let '(o, out) := add_line_vertex vertices attribute v1 o out in
  {| lines := out; n_line_vertices := wrap_int (n_line_vertices w + 2) |}.

(** Modelled from the spec: the buffer operation of mapping for reading;
    the context knows the bytes of every buffer. *)
Definition cogl_buffer_map (buffer : handle) : M memory :=
  GE (buffer_map buffer);;;
  get (fun ctx => buffer_data ctx buffer).

(** Modelled from the spec: the end of the scope of a mapping. *)
Definition cogl_buffer_unmap (buffer : handle) : M unit :=
  GE (buffer_unmap buffer).

(** [get_wire_lines] returns [out], which it leaves unassigned ([None])
    when no branch is taken, and [*n_vertices_out]. *)
Definition get_wire_lines
    (attribute : CoglVertexAttribute) (mode : CoglVerticesMode)
    (n_vertices_in : Z) (_indices : option CoglIndices)
    : M (option (gmap Z Z) * Z) :=
  let vertex_array := cogl_vertex_attribute_get_array attribute in
  vertices <- cogl_buffer_map vertex_array;;
  ix <-
    match _indices with
    | Some _indices =>
        let index_array := indices_array _indices in
        indices <- cogl_buffer_map index_array;;
        ret (Some indices, indices_type _indices)
    | None =>
        (* indices_type is left unassigned *)
        ret (None, COGL_INDICES_TYPE_UNSIGNED_BYTE)
    end;;
  let '(indices, indices_type) := ix in
  let line := add_line vertices indices indices_type attribute in
  let start := {| lines := ∅; n_line_vertices := 0 |} in
  let first_triangle w := line 0 2 (line 1 2 (line 0 1 w)) in
  let result :=
    match mode with
    | COGL_VERTICES_MODE_TRIANGLES =>
        if Z.rem n_vertices_in 3 =? 0 then
          Some (snd (for_loop 0 n_vertices_in 3
                  (fun i w =>
                     line (i + 2) i (line (i + 1) (i + 2)
                       (line i (i + 1) w)))
                  start))
        else None
    | COGL_VERTICES_MODE_TRIANGLE_FAN =>
        if n_vertices_in >=? 3 then
          Some (snd (for_loop 3 n_vertices_in 1
                  (fun i w => line 0 i (line (i - 1) i w))
                  (first_triangle start)))
        else None
    | COGL_VERTICES_MODE_TRIANGLE_STRIP =>
        if n_vertices_in >=? 3 then
          Some (snd (for_loop 3 n_vertices_in 1
                  (fun i w => line (i - 2) i (line (i - 1) i w))
                  (first_triangle start)))
        else None
    | GL_QUADS =>
        if Z.rem n_vertices_in 4 =? 0 then
          Some (snd (for_loop 0 n_vertices_in 4
                  (fun i w =>
                     line (i + 3) i (line (i + 2) (i + 3)
                       (line (i + 1) (i + 2) (line i (i + 1) w))))
                  start))
        else None
    | _ => None
    end in
  (* vertices is never NULL here *)
  cogl_buffer_unmap vertex_array;;;
  match _indices with
  | Some _indices => cogl_buffer_unmap (indices_array _indices)
  | None => ret tt
  end;;;
  ret match result with
      | Some w => (Some (lines w), n_line_vertices w)
      | None => (None, 0)
      end.

(** The number of line segments of a wireframe: two vertices each. *)
Definition n_segments (n_vertices_out : Z) : Z := n_vertices_out / 2.

Definition sizeof_CoglP3Vertex : Z := 12.

(** [draw_wireframe] draws through [_cogl_draw_vertex_attributes_array],
    which is defined after it and passed in here as [draw_array]. *)
Definition draw_wireframe
    (draw_array : CoglVerticesMode -> Z -> Z -> list CoglVertexAttribute ->
                  M unit)
    (mode : CoglVerticesMode) (first_vertex n_vertices : Z)
    (attributes : list CoglVertexAttribute) (indices : option CoglIndices)
    : M unit :=
  match List.find (fun a => strcmp_eq (name a) "cogl_position_in")
          attributes with
  | None => ret tt
  | Some position =>
      r <- get_wire_lines position mode n_vertices indices;;
      let n_line_vertices := snd r in
      array <- cogl_vertex_array_new
                 (wrap_size_t (sizeof_CoglP3Vertex * n_line_vertices));;
      wire_attribute0 <-
        cogl_vertex_attribute_new array "cogl_position_in"
          sizeof_CoglP3Vertex 0 3 COGL_VERTEX_ATTRIBUTE_TYPE_FLOAT;;
      let wire_attribute := option_list wire_attribute0 in
      cogl_object_unref array;;;
      wp <- get wire_pipeline;;
      wire_pipeline <-
        match wp with
        | Some p => ret p
        | None =>
            p <- cogl_pipeline_new;;
            cogl_pipeline_set_color4ub p 0x00 0xff 0x00 0xff;;;
            modify (set_wire_pipeline (Some p));;;
            ret p
        end;;
      cogl_push_source wire_pipeline;;;
      (* temporarily disable the wireframe to avoid recursion! *)
      modify (set_debug_wireframe false);;;
      draw_array COGL_VERTICES_MODE_LINES 0 n_line_vertices wire_attribute;;;
      modify (set_debug_wireframe true);;;
      cogl_pop_source;;;
      (* the last reference to the attribute goes: it is freed *)
      match wire_attribute0 with
      | Some a => _cogl_vertex_attribute_free a
      | None => ret tt
      end
  end.

(** ** Drawing *)

(** Modelled from the spec: the flush of the deferred draw journal, and
    the flush of the framebuffer and clip-stack state. *)
Definition _cogl_journal_flush : M unit := GE journal_flush.

Definition _cogl_framebuffer_flush_state : M unit :=
  GE framebuffer_flush_state.

(** [state.unit = 0; state.options.flags = 0; state.fallback_layers = 0;] *)
Definition initial_state : ValidateLayerState :=
  {| state_unit := 0; state_options := {| flags := 0 |};
     state_fallback_layers := 0 |}.

(** [_cogl_draw_vertex_attributes_array_real] and [draw_wireframe] call
    each other (through [_cogl_draw_vertex_attributes_array]).
    [nesting] bounds the depth of wireframe draws inside wireframe draws;
    one level is all a run uses, because the wireframe flag is cleared
    around the nested draw. *)
Fixpoint _cogl_draw_vertex_attributes_array_real (nesting : nat)
    (mode : CoglVerticesMode) (first_vertex n_vertices : Z)
    (attributes : list CoglVertexAttribute) (state : ValidateLayerState)
    {struct nesting} : M unit :=
  source <- enable_gl_state attributes state;;
  GE (glDrawArrays mode first_vertex n_vertices);;;
  disable_gl_state attributes source;;;
  wireframe <- get debug_wireframe;;
  if wireframe then
    match nesting with
    | S nesting' =>
        draw_wireframe
          (fun mode first_vertex n_vertices attributes =>
             _cogl_draw_vertex_attributes_array_real nesting' mode
               first_vertex n_vertices attributes initial_state)
          mode first_vertex n_vertices attributes None
    | O => ret tt
    end
  else ret tt.

(** The depth of nesting the model provides for. *)
Definition wireframe_nesting : nat := 1.

Definition _cogl_draw_vertex_attributes_array (mode : CoglVerticesMode)
    (first_vertex n_vertices : Z) (attributes : list CoglVertexAttribute)
    : M unit :=
  let state := initial_state in
  _cogl_draw_vertex_attributes_array_real wireframe_nesting mode
    first_vertex n_vertices attributes state.

Definition cogl_draw_vertex_attributes_array (mode : CoglVerticesMode)
    (first_vertex n_vertices : Z) (attributes : list CoglVertexAttribute)
    : M unit :=
  _cogl_journal_flush;;;
  let state := initial_state in
  current <- cogl_get_source;;
  state <- cogl_pipeline_foreach_layer current validate_layer_cb state;;
  _cogl_framebuffer_flush_state;;;
  _cogl_draw_vertex_attributes_array_real wireframe_nesting mode
    first_vertex n_vertices attributes state.

(** The variadic form collects its NULL-terminated arguments into the
    array. *)
Definition cogl_draw_vertex_attributes (mode : CoglVerticesMode)
    (first_vertex n_vertices : Z) (attributes : list CoglVertexAttribute)
    : M unit :=
  cogl_draw_vertex_attributes_array mode first_vertex n_vertices attributes.

Definition sizeof_index_type (type : CoglIndicesType) : Z :=
  match type with
  | COGL_INDICES_TYPE_UNSIGNED_BYTE => 1
  | COGL_INDICES_TYPE_UNSIGNED_SHORT => 2
  | COGL_INDICES_TYPE_UNSIGNED_INT => 4
  end.

(** Modelled from the spec: [get_array ()], [get_offset ()] and
    [get_type ()] of the indices. *)
Definition cogl_indices_get_array (indices : CoglIndices) : handle :=
  indices_array indices.

Definition cogl_indices_get_offset (indices : CoglIndices) : Z :=
  indices_offset indices.

Definition cogl_indices_get_type (indices : CoglIndices) : CoglIndicesType :=
  indices_type indices.

Definition _cogl_draw_indexed_vertex_attributes_array_real
    (mode : CoglVerticesMode) (first_vertex n_vertices : Z)
    (indices : CoglIndices) (attributes : list CoglVertexAttribute)
    (state : ValidateLayerState) : M unit :=
  source <- enable_gl_state attributes state;;
  let buffer := cogl_indices_get_array indices in
  base <- _cogl_buffer_bind buffer COGL_BUFFER_BIND_TARGET_INDEX_ARRAY;;
  let array_offset := wrap_size_t (cogl_indices_get_offset indices) in
  let index_size := sizeof_index_type (cogl_indices_get_type indices) in
  let indices_gl_type :=
    match cogl_indices_get_type indices with
    | COGL_INDICES_TYPE_UNSIGNED_BYTE => GL_UNSIGNED_BYTE
    | COGL_INDICES_TYPE_UNSIGNED_SHORT => GL_UNSIGNED_SHORT
    | COGL_INDICES_TYPE_UNSIGNED_INT => GL_UNSIGNED_INT
    end in
  GE (glDrawElements mode n_vertices indices_gl_type
        (pointer_add (pointer_add base array_offset)
           (wrap_size_t (index_size * wrap_size_t first_vertex))));;;
  _cogl_buffer_unbind buffer;;;
  disable_gl_state attributes source;;;
  wireframe <- get debug_wireframe;;
  if wireframe then
    draw_wireframe _cogl_draw_vertex_attributes_array
      mode first_vertex n_vertices attributes (Some indices)
  else ret tt.

Definition _cogl_draw_indexed_vertex_attributes_array
    (mode : CoglVerticesMode) (first_vertex n_vertices : Z)
    (indices : CoglIndices) (attributes : list CoglVertexAttribute)
    : M unit :=
  let state := initial_state in
  _cogl_draw_indexed_vertex_attributes_array_real mode first_vertex
    n_vertices indices attributes state.

Definition cogl_draw_indexed_vertex_attributes_array
    (mode : CoglVerticesMode) (first_vertex n_vertices : Z)
    (indices : CoglIndices) (attributes : list CoglVertexAttribute)
    : M unit :=
  _cogl_journal_flush;;;
  let state := initial_state in
  current <- cogl_get_source;;
  state <- cogl_pipeline_foreach_layer current validate_layer_cb state;;
  _cogl_framebuffer_flush_state;;;
  _cogl_draw_indexed_vertex_attributes_array_real mode first_vertex
    n_vertices indices attributes state.

Definition cogl_draw_indexed_vertex_attributes (mode : CoglVerticesMode)
    (first_vertex n_vertices : Z) (indices : CoglIndices)
    (attributes : list CoglVertexAttribute) : M unit :=
  cogl_draw_indexed_vertex_attributes_array mode first_vertex n_vertices
    indices attributes.

(** ** Vocabulary of the properties *)

(** *** Running a computation *)

Definition result_of {A : Type} (m : M A) (ctx : CoglContext) : A :=
  fst (m ctx).

Definition context_after {A : Type} (m : M A) (ctx : CoglContext)
    : CoglContext :=
  snd (m ctx).

(** *** Sample data *)

(** A context that holds one vertex array, handle 1, and one pipeline,
    handle 2, which is the current source. *)
Definition sample_pipeline (blend : bool) : CoglPipeline :=
  {| real_blend_enable := blend; color4ub := (0xff, 0xff, 0xff, 0xff);
     layers := []; applied_overrides := []; applied_legacy_state := false |}.

Definition sample_context (blend : bool) : CoglContext :=
  {| ref_counts := {[ 1%nat := 1; 2%nat := 1 ]};
     pipelines := {[ 2%nat := sample_pipeline blend ]};
     source_stack := [2%nat]; legacy_state_set := false;
     enable_backface_culling := false; temp_bitmask := 0;
     buffer_base := fun _ => 0; buffer_data := fun _ _ => 0;
     texture_can_hardware_repeat := fun _ => true;
     debug_wireframe := false; seen := false; wire_pipeline := None;
     trace := [] |}.

Definition sample_attribute (name : string)
    (name_id : CoglVertexAttributeNameID) (n_components : Z)
    : CoglVertexAttribute :=
  {| array := 1%nat; name := name; stride := 12; offset := 0;
     n_components := n_components;
     type := COGL_VERTEX_ATTRIBUTE_TYPE_FLOAT; immutable_ref := 0;
     name_id := name_id; normalized := false; texture_unit := 0 |}.

(** *** Programs that use the setters *)

(** A call a client makes on one of its attributes, named by its
    position in the client's table of attributes. *)
Inductive attribute_call : Set :=
| call_set_normalized (i : nat) (normalized : bool)
| call_set_array (i : nat) (array : handle)
| call_immutable_ref (i : nat)
| call_immutable_unref (i : nat).

(** The [g_return_if_fail (cogl_is_vertex_attribute (attribute))] of each
    entry point: nothing happens for what is not an attribute. *)
Definition on_attribute (i : nat)
    (f : CoglVertexAttribute -> M CoglVertexAttribute)
    (attributes : list CoglVertexAttribute) : M (list CoglVertexAttribute) :=
  match attributes !! i with
  | Some a => a' <- f a;; ret (<[i := a']> attributes)
  | None => ret attributes
  end.

Definition run_attribute_call (c : attribute_call)
    (attributes : list CoglVertexAttribute) : M (list CoglVertexAttribute) :=
  match c with
  | call_set_normalized i b =>
      on_attribute i (fun a => cogl_vertex_attribute_set_normalized a b)
        attributes
  | call_set_array i h =>
      on_attribute i (fun a => cogl_vertex_attribute_set_array a h)
        attributes
  | call_immutable_ref i =>
      on_attribute i _cogl_vertex_attribute_immutable_ref attributes
  | call_immutable_unref i =>
      on_attribute i _cogl_vertex_attribute_immutable_unref attributes
  end.

Definition run_attribute_calls (calls : list attribute_call)
    (attributes : list CoglVertexAttribute) : M (list CoglVertexAttribute) :=
  for_each run_attribute_call calls attributes.

(** The fields of an attribute that no setter assigns. *)
Definition layout_of (a : CoglVertexAttribute)
    : string * Z * Z * Z * CoglVertexAttributeType * Z
      * CoglVertexAttributeNameID * Z :=
  (name a, stride a, offset a, n_components a, type a, immutable_ref a,
   name_id a, texture_unit a).

(** How often the mid-scene warning was logged. *)
Definition is_mid_scene_warning (c : call) : bool :=
  match c with
  | g_log warning_mid_scene_modification => true
  | _ => false
  end.

Definition mid_scene_warnings (ctx : CoglContext) : nat :=
  length (List.filter is_mid_scene_warning (trace ctx)).

(** The reference count of an object; a released object has none. *)
Definition ref_count (ctx : CoglContext) (object : handle) : option Z :=
  ref_counts ctx !! object.


(** What a run may do to the warning state: [seen] is never reset, and
    a warning is logged only by the step that sets it. *)
Definition warned_once (ctx ctx' : CoglContext) : Prop :=
  implb (seen ctx) (seen ctx') = true
  /\ (mid_scene_warnings ctx' + (if seen ctx' then 0 else 1)
      = mid_scene_warnings ctx + (if seen ctx then 0 else 1))%nat.

(** *** Relations between the contexts before and after *)

(** Every run of [m] takes a context to one related to it by [R]. *)
Definition preserves {A : Type} (R : CoglContext -> CoglContext -> Prop)
    (m : M A) : Prop :=
  forall ctx, R ctx (context_after m ctx).

(** *** Layers *)

(** The texture of a layer, as [validate_layer_cb] gets it. *)
Definition layer_texture (ctx : CoglContext) (pipeline : handle)
    (layer_index : Z) : handle :=
  result_of (_cogl_pipeline_get_layer_texture pipeline layer_index) ctx.

(** The layer carries a texture that reports it cannot be repeated by
    the hardware. *)
Definition layer_cannot_repeat (ctx : CoglContext) (pipeline : handle)
    (layer_index : Z) : bool :=
  let texture := layer_texture ctx pipeline layer_index in
  negb (Nat.eqb texture COGL_INVALID_HANDLE)
  && negb (texture_can_hardware_repeat ctx texture).

(** The parts of the context that nothing in this file assigns after a
    pipeline or a texture was set up. *)
Definition same_world (ctx ctx' : CoglContext) : Prop :=
  buffer_base ctx' = buffer_base ctx
  /\ buffer_data ctx' = buffer_data ctx
  /\ texture_can_hardware_repeat ctx' = texture_can_hardware_repeat ctx
  /\ legacy_state_set ctx' = legacy_state_set ctx
  /\ enable_backface_culling ctx' = enable_backface_culling ctx.

(** Nothing but the trace differs. *)
Definition same_but_trace (ctx ctx' : CoglContext) : Prop :=
  same_world ctx ctx'
  /\ ref_counts ctx' = ref_counts ctx
  /\ pipelines ctx' = pipelines ctx
  /\ source_stack ctx' = source_stack ctx
  /\ temp_bitmask ctx' = temp_bitmask ctx
  /\ debug_wireframe ctx' = debug_wireframe ctx
  /\ seen ctx' = seen ctx
  /\ wire_pipeline ctx' = wire_pipeline ctx.

(** A context whose source pipeline, handle 2, has three layers: layer 0
    with texture 5, which the hardware can repeat, layer 3 without a
    texture, and layer 4 with texture 6, which it cannot. *)
Definition sample_layered_context : CoglContext :=
  {| ref_counts := {[ 1%nat := 1; 2%nat := 1 ]};
     pipelines :=
       {[ 2%nat :=
            {| real_blend_enable := false;
               color4ub := (0xff, 0xff, 0xff, 0xff);
               layers := [(0, Some 5%nat); (3, None); (4, Some 6%nat)];
               applied_overrides := []; applied_legacy_state := false |} ]};
     source_stack := [2%nat]; legacy_state_set := false;
     enable_backface_culling := false; temp_bitmask := 0;
     buffer_base := fun _ => 0; buffer_data := fun _ _ => 0;
     texture_can_hardware_repeat := fun texture => Nat.eqb texture 5;
     debug_wireframe := false; seen := false; wire_pipeline := None;
     trace := [] |}.

(** A context whose source pipeline, handle 2, has 33 layers, 0 to 32,
    each with texture 6, which the hardware cannot repeat. *)
Definition sample_wide_context : CoglContext :=
  {| ref_counts := {[ 1%nat := 1; 2%nat := 1 ]};
     pipelines :=
       {[ 2%nat :=
            {| real_blend_enable := false;
               color4ub := (0xff, 0xff, 0xff, 0xff);
               layers :=
                 map (fun i => (Z.of_nat i, Some 6%nat)) (seq 0 33);
               applied_overrides := []; applied_legacy_state := false |} ]};
     source_stack := [2%nat]; legacy_state_set := false;
     enable_backface_culling := false; temp_bitmask := 0;
     buffer_base := fun _ => 0; buffer_data := fun _ _ => 0;
     texture_can_hardware_repeat := fun texture => Nat.eqb texture 5;
     debug_wireframe := false; seen := false; wire_pipeline := None;
     trace := [] |}.

(** *** The source pipeline during [enable_gl_state] *)

Definition is_color_attribute (a : CoglVertexAttribute) : bool :=
  match name_id a with
  | COGL_VERTEX_ATTRIBUTE_NAME_ID_COLOR_ARRAY => true
  | _ => false
  end.

Definition is_custom_attribute (a : CoglVertexAttribute) : bool :=
  match name_id a with
  | COGL_VERTEX_ATTRIBUTE_NAME_ID_CUSTOM_ARRAY => true
  | _ => false
  end.

(** No copy was made since the context [ctx0]: the source is still
    [src] and no pipeline, nor any reference count, has changed. *)
Definition source_untouched (src : handle) (ctx0 : CoglContext)
    (l : enable_locals) (c : CoglContext) : Prop :=
  source l = src /\ copy l = COGL_INVALID_HANDLE
  /\ pipelines c = pipelines ctx0
  /\ ref_counts c = ref_counts ctx0.

(** A copy was made since [ctx0]: the source is the copy, a pipeline
    that [ctx0] did not have and that blends; every other pipeline is as
    it was. *)
Definition source_derived (src : handle) (ctx0 : CoglContext)
    (l : enable_locals) (c : CoglContext) : Prop :=
  copy l = source l /\ source l <> src
  /\ source l <> COGL_INVALID_HANDLE
  /\ pipelines ctx0 !! source l = None
  /\ (forall h, h <> source l -> pipelines c !! h = pipelines ctx0 !! h)
  /\ exists q, pipelines c !! source l = Some q
               /\ real_blend_enable q = true.

(** *** Calls of interest in the trace *)

(** The calls that [f] selects, in the order they were made. *)
Definition selected {B : Type} (f : call -> option B) (ctx : CoglContext)
    : list B :=
  rev (omap f (trace ctx)).

(** From [ctx] to [ctx'] no call that [f] selects was made, and the
    world is the same. *)
Definition adds_none {B : Type} (f : call -> option B)
    (ctx ctx' : CoglContext) : Prop :=
  same_world ctx ctx' /\ omap f (trace ctx') = omap f (trace ctx).

(** The calls on the generic vertex attribute channels. *)
Inductive generic_channel_call : Set :=
| enables (index : Z)
| points (index : Z).

Definition generic_channel_of (c : call) : option generic_channel_call :=
  match c with
  | glEnableVertexAttribArray index => Some (enables index)
  | glVertexAttribPointer index _ _ _ _ _ => Some (points index)
  | _ => None
  end.

(** What [enable_gl_state] asks of the generic channels for a set of
    attributes, [generic_index] being the value of its counter: each
    CUSTOM attribute enables the channel of the counter, and sets the
    pointer of the channel after the increment. *)
Fixpoint custom_channels (generic_index : Z)
    (attributes : list CoglVertexAttribute) : list generic_channel_call :=
  match attributes with
  | [] => []
  | a :: rest =>
      if is_custom_attribute a then
        enables generic_index :: points (wrap_u32 (generic_index + 1))
          :: custom_channels (wrap_u32 (generic_index + 1)) rest
      else custom_channels generic_index rest
  end.

Definition draw_elements_of (c : call)
    : option (CoglVerticesMode * Z * GLtype * Z) :=
  match c with
  | glDrawElements mode count type indices =>
      Some (mode, count, type, indices)
  | _ => None
  end.

Definition draw_arrays_of (c : call) : option (CoglVerticesMode * Z * Z) :=
  match c with
  | glDrawArrays mode first count => Some (mode, first, count)
  | _ => None
  end.

(** A custom attribute, a set with a position and a custom attribute,
    and the position attribute alone. *)
Definition sample_custom : CoglVertexAttribute :=
  sample_attribute "weight" COGL_VERTEX_ATTRIBUTE_NAME_ID_CUSTOM_ARRAY 1.

Definition sample_position : CoglVertexAttribute :=
  sample_attribute "cogl_position_in"
    COGL_VERTEX_ATTRIBUTE_NAME_ID_POSITION_ARRAY 3.

(** Calls that draw. *)
Definition is_draw_call (c : call) : bool :=
  match c with
  | glDrawArrays _ _ _ | glDrawElements _ _ _ _ => true
  | _ => false
  end.

(** The wireframe flag is what it was. *)
Definition same_wireframe_flag (ctx ctx' : CoglContext) : Prop :=
  debug_wireframe ctx' = debug_wireframe ctx.

(** The GL name of an index type. *)
Definition gl_indices_type (type : CoglIndicesType) : GLtype :=
  match type with
  | COGL_INDICES_TYPE_UNSIGNED_BYTE => GL_UNSIGNED_BYTE
  | COGL_INDICES_TYPE_UNSIGNED_SHORT => GL_UNSIGNED_SHORT
  | COGL_INDICES_TYPE_UNSIGNED_INT => GL_UNSIGNED_INT
  end.

(** Indices of unsigned shorts that start 6 bytes into buffer 1. *)
Definition sample_indices : CoglIndices :=
  {| indices_array := 1%nat; indices_offset := 6;
     indices_type := COGL_INDICES_TYPE_UNSIGNED_SHORT |}.

(** *** Wireframes *)

(** The topologies [get_wire_lines] reconstructs, with the arity it
    asks of the vertex count. *)
Definition wireframe_supported (mode : CoglVerticesMode) (n_vertices : Z)
    : bool :=
  match mode with
  | COGL_VERTICES_MODE_TRIANGLES => Z.rem n_vertices 3 =? 0
  | COGL_VERTICES_MODE_TRIANGLE_FAN => n_vertices >=? 3
  | COGL_VERTICES_MODE_TRIANGLE_STRIP => n_vertices >=? 3
  | GL_QUADS => Z.rem n_vertices 4 =? 0
  | _ => false
  end.

(** [*n_vertices_out] of [get_wire_lines]. *)
Definition n_vertices_out (ctx : CoglContext)
    (attribute : CoglVertexAttribute) (mode : CoglVerticesMode)
    (n_vertices_in : Z) (indices : option CoglIndices) : Z :=
  snd (result_of (get_wire_lines attribute mode n_vertices_in indices) ctx).

(** The position attribute [draw_wireframe] picks. *)
Definition position_attribute (attributes : list CoglVertexAttribute)
    : option CoglVertexAttribute :=
  List.find (fun a => strcmp_eq (name a) "cogl_position_in") attributes.

(** The sample context with the wireframe debug flag set. *)
Definition sample_debug_context : CoglContext :=
  set_debug_wireframe true (sample_context true).

(** Run from a context that has the draws of [ctx0], [m] draws
    [overlay] and nothing else. *)
Definition draws_overlay (ctx0 : CoglContext)
    (overlay : list (CoglVerticesMode * Z * Z)) {A : Type} (m : M A)
    : Prop :=
  forall c,
    adds_none draw_arrays_of ctx0 c ->
    selected draw_arrays_of (context_after m c)
    = selected draw_arrays_of ctx0 ++ overlay.


(** ** Further vocabulary *)

(** From [ctx] to [ctx'] exactly the calls [l] were made, in this
    order. *)
Definition made (ctx ctx' : CoglContext) (l : list call) : Prop :=
  trace ctx' = rev l ++ trace ctx.

(** [f] applied [n] times in a row to the attribute it returns. *)
Fixpoint times {A : Type} (n : nat) (f : A -> M A) (a : A) : M A :=
  match n with
  | O => ret a
  | S n' => a' <- f a;; times n' f a'
  end.

(** A client that pins an attribute [n] times and then unpins it [m]
    times. *)
Definition acquire_then_release (n m : nat)
    (attribute : CoglVertexAttribute) : M CoglVertexAttribute :=
  pinned <- times n _cogl_vertex_attribute_immutable_ref attribute;;
  times m _cogl_vertex_attribute_immutable_unref pinned.

(** *** Decimal numerals *)

(** The character of a decimal digit. *)
Definition digit_char (d : Z) : ascii := ascii_of_N (Z.to_N (48 + d)).

(** The numeral with the digits [ds], the most significant first,
    followed by [rest]. *)
Fixpoint digits_string (ds : list Z) (rest : string) : string :=
  match ds with
  | [] => rest
  | d :: ds' => String (digit_char d) (digits_string ds' rest)
  end.

Definition digits_value (ds : list Z) : Z :=
  fold_left (fun acc d => 10 * acc + d) ds 0.

Definition starts_with_digit (s : string) : bool :=
  match s with
  | String c _ => match digit_of c with Some _ => true | None => false end
  | EmptyString => false
  end.

(** The sample context with a second vertex array, handle 3. *)
Definition sample_arrays_context : CoglContext :=
  set_ref_counts (insert 3%nat 1) (sample_context true).

(** *** More calls of interest *)

Definition flush_of (c : call) : option (handle * bool) :=
  match c with
  | pipeline_flush_gl_state pipeline skip => Some (pipeline, skip)
  | _ => None
  end.

Definition cogl_enable_of (c : call) : option Z :=
  match c with
  | cogl_enable enable_flags => Some enable_flags
  | _ => None
  end.

Definition texcoord_mask_of (c : call) : option Z :=
  match c with
  | disable_other_texcoord_arrays mask => Some mask
  | _ => None
  end.

(** Binding and unbinding of buffers. *)
Inductive binding : Set :=
| binds (buffer : handle) (target : CoglBufferBindTarget)
| unbinds (buffer : handle).

Definition binding_of (c : call) : option binding :=
  match c with
  | buffer_bind buffer target => Some (binds buffer target)
  | buffer_unbind buffer => Some (unbinds buffer)
  | _ => None
  end.

Definition enabled_channel_of (c : call) : option Z :=
  match c with
  | glEnableVertexAttribArray index => Some index
  | _ => None
  end.

Definition disabled_channel_of (c : call) : option Z :=
  match c with
  | glDisableVertexAttribArray index => Some index
  | _ => None
  end.

Definition is_position_attribute (a : CoglVertexAttribute) : bool :=
  match name_id a with
  | COGL_VERTEX_ATTRIBUTE_NAME_ID_POSITION_ARRAY => true
  | _ => false
  end.

Definition is_texture_coord_attribute (a : CoglVertexAttribute) : bool :=
  match name_id a with
  | COGL_VERTEX_ATTRIBUTE_NAME_ID_TEXTURE_COORD_ARRAY => true
  | _ => false
  end.

(** The bit that an attribute contributes to [enable_flags]. *)
Definition enable_flag_of (a : CoglVertexAttribute) : Z :=
  match name_id a with
  | COGL_VERTEX_ATTRIBUTE_NAME_ID_POSITION_ARRAY => COGL_ENABLE_VERTEX_ARRAY
  | COGL_VERTEX_ATTRIBUTE_NAME_ID_COLOR_ARRAY => COGL_ENABLE_COLOR_ARRAY
  | _ => 0
  end.

(** The generic channels [0], [1], ... of [count] CUSTOM attributes,
    counted in a [GLuint] from [first]. *)
Definition custom_channel_indices (first count : nat) : list Z :=
  map (fun k => wrap_u32 (Z.of_nat k)) (seq first count).

Definition count_custom (attributes : list CoglVertexAttribute) : nat :=
  length (filter (fun a => is_custom_attribute a = true) attributes).

(** The mask in which the loop of [enable_gl_state] sets the bit of the
    texture unit of every texture-coordinate attribute. *)
Definition texcoord_units (attributes : list CoglVertexAttribute) : Z :=
  fold_left
    (fun m a =>
       if is_texture_coord_attribute a then Z.setbit m (texture_unit a)
       else m)
    attributes 0.

(** The flags that [enable_gl_state] hands to [_cogl_enable]. *)
Definition flags_enabled (attributes : list CoglVertexAttribute)
    (culling : bool) : Z :=
  Z.lor
    (Z.lor
       (if existsb is_position_attribute attributes
        then COGL_ENABLE_VERTEX_ARRAY else 0)
       (if existsb is_color_attribute attributes
        then COGL_ENABLE_COLOR_ARRAY else 0))
    (if culling then COGL_ENABLE_BACKFACE_CULLING else 0).

(** Each buffer of the set is bound as a vertex array and unbound again
    before the next one. *)
Definition bind_unbind_each (attributes : list CoglVertexAttribute)
    : list binding :=
  flat_map
    (fun a =>
       [binds (array a) COGL_BUFFER_BIND_TARGET_VERTEX_ARRAY;
        unbinds (array a)])
    attributes.

(** Where the references stand while [enable_gl_state] runs, against the
    context [ctx0] it started from with [src] as its source: either no
    copy was made and no count has changed, or the source is a copy that
    [ctx0] did not count and that has one reference now. *)
Definition no_copy_yet (src : handle) (ctx0 : CoglContext)
    (l : enable_locals) (c : CoglContext) : Prop :=
  source l = src /\ copy l = COGL_INVALID_HANDLE
  /\ ref_counts c = ref_counts ctx0.

Definition one_copy (src : handle) (ctx0 : CoglContext)
    (l : enable_locals) (c : CoglContext) : Prop :=
  copy l = source l /\ source l <> src
  /\ source l <> COGL_INVALID_HANDLE
  /\ ref_counts ctx0 !! source l = None
  /\ ref_counts c = <[source l := 1]> (ref_counts ctx0).

Definition references_balanced (src : handle) (ctx0 : CoglContext)
    (l : enable_locals) (c : CoglContext) : Prop :=
  is_Some (pipelines c !! src)
  /\ (no_copy_yet src ctx0 l c
      \/ (one_copy src ctx0 l c
          /\ exists q, pipelines c !! source l = Some q
                       /\ real_blend_enable q = true)).

(** What a draw leaves as it found it: the stack of sources, the debug
    flag, the pipeline of the wireframes; and every pipeline there was is
    still there. *)
Definition keeps_setup (ctx ctx' : CoglContext) : Prop :=
  source_stack ctx' = source_stack ctx
  /\ debug_wireframe ctx' = debug_wireframe ctx
  /\ wire_pipeline ctx' = wire_pipeline ctx
  /\ forall h, is_Some (pipelines ctx !! h) -> is_Some (pipelines ctx' !! h).

(** What a draw of [attributes] does to the resources of the context:
    it leaves the stack of sources, the wireframe flag and every
    reference count as they were, and removes no pipeline.  The one
    exception is the first wireframe ever drawn, which creates the
    pipeline of the wireframes and keeps its one reference. *)
Definition resource_neutral (attributes : list CoglVertexAttribute)
    (ctx ctx' : CoglContext) : Prop :=
  source_stack ctx' = source_stack ctx
  /\ debug_wireframe ctx' = debug_wireframe ctx
  /\ (forall h, is_Some (pipelines ctx !! h) ->
                is_Some (pipelines ctx' !! h))
  /\ match (if debug_wireframe ctx then position_attribute attributes
            else None), wire_pipeline ctx with
     | Some _, None =>
         exists wp,
           wire_pipeline ctx' = Some wp
           /\ ref_counts ctx !! wp = None
           /\ pipelines ctx !! wp = None
           /\ ref_counts ctx' = <[wp := 1]> (ref_counts ctx)
     | _, _ =>
         ref_counts ctx' = ref_counts ctx
         /\ wire_pipeline ctx' = wire_pipeline ctx
     end.

(** The context is fit for a draw: the current source is a pipeline, and
    so is the pipeline of the wireframes once it exists. *)
Definition ready_to_draw (ctx : CoglContext) : Prop :=
  is_Some (pipelines ctx !! hd COGL_INVALID_HANDLE (source_stack ctx))
  /\ forall wp, wire_pipeline ctx = Some wp ->
                is_Some (pipelines ctx !! wp).

(** *** The pipeline that a draw flushes *)

(** [enable_gl_state] flushes a copy of the source when a colour
    attribute asks for blending that the source does not have, when
    overrides are pending, or when legacy state is set. *)
Definition needs_copy (p : CoglPipeline)
    (attributes : list CoglVertexAttribute) (state : ValidateLayerState)
    (legacy : bool) : bool :=
  existsb is_color_attribute attributes && negb (real_blend_enable p)
  || negb (flags (state_options state) =? 0)
  || legacy.

(** What that copy of the source [p] is. *)
Definition flushed_copy (p : CoglPipeline)
    (attributes : list CoglVertexAttribute) (state : ValidateLayerState)
    (legacy : bool) : CoglPipeline :=
  {| real_blend_enable :=
       real_blend_enable p || existsb is_color_attribute attributes;
     color4ub := color4ub p;
     layers := layers p;
     applied_overrides :=
       applied_overrides p
       ++ (if flags (state_options state) =? 0 then []
           else [state_options state]);
     applied_legacy_state := applied_legacy_state p || legacy |}.

(** Where the pipelines stand in the loop of [enable_gl_state], against
    the context [ctx0] it started from with the pipeline [p] as its
    source [src], once the loop has [seen] a colour or not. *)
Definition loop_pipelines (src : handle) (ctx0 : CoglContext)
    (p : CoglPipeline) (seen : bool) (l : enable_locals)
    (c : CoglContext) : Prop :=
  if seen && negb (real_blend_enable p) then
    copy l = source l /\ source l <> COGL_INVALID_HANDLE
    /\ pipelines ctx0 !! source l = None
    /\ pipelines c
       = <[source l := with_real_blend_enable true p]> (pipelines ctx0)
  else
    source l = src /\ copy l = COGL_INVALID_HANDLE
    /\ pipelines c = pipelines ctx0.
(** * Properties *)

(** ** Running a computation *)

Lemma run_bind {A B : Type} (m : M A) (k : A -> M B) ctx :
  bind m k ctx = k (fst (m ctx)) (snd (m ctx)).
Proof. unfold bind. destruct (m ctx); reflexivity. Qed.

Lemma result_bind {A B : Type} (m : M A) (k : A -> M B) ctx :
  result_of (bind m k) ctx
  = result_of (k (result_of m ctx)) (context_after m ctx).
Proof. unfold result_of, context_after. now rewrite run_bind. Qed.

Lemma context_bind {A B : Type} (m : M A) (k : A -> M B) ctx :
  context_after (bind m k) ctx
  = context_after (k (result_of m ctx)) (context_after m ctx).
Proof. unfold result_of, context_after. now rewrite run_bind. Qed.

(** ** Construction of attributes *)

(** The status and the three out-parameters of the validation do not
    depend on the context: it is only used to log. *)
Lemma validate_cogl_attribute_result name n id nz tu ctx ctx' :
  result_of (validate_cogl_attribute name n id nz tu) ctx
  = result_of (validate_cogl_attribute name n id nz tu) ctx'.
Proof.
  unfold validate_cogl_attribute, result_of.
  repeat match goal with
         | |- context [if ?b then _ else _] => destruct b
         | |- context [match ?o with Some _ => _ | None => _ end] =>
             destruct o
         end; reflexivity.
Qed.

(** What [cogl_vertex_attribute_new] returns, from what the validation
    returns. *)
Lemma cogl_vertex_attribute_new_result array name stride offset n type ctx :
  result_of (cogl_vertex_attribute_new array name stride offset n type) ctx
  = let r :=
      if strncmp_eq name "cogl_" then
        result_of (validate_cogl_attribute name n g_slice_new_name_id
                     g_slice_new_normalized g_slice_new_texture_unit) ctx
      else (true, (COGL_VERTEX_ATTRIBUTE_NAME_ID_CUSTOM_ARRAY, false, 0)) in
    if fst r then
      Some {| array := array; name := name; stride := stride;
              offset := offset; n_components := n; type := type;
              immutable_ref := 0; name_id := fst (fst (snd r));
              normalized := snd (fst (snd r));
              texture_unit := snd (snd r) |}
    else None.
Proof.
  unfold cogl_vertex_attribute_new.
  rewrite result_bind, result_bind.
  destruct (strncmp_eq name "cogl_").
  - rewrite (validate_cogl_attribute_result _ _ _ _ _ _ ctx).
    destruct (result_of (validate_cogl_attribute _ _ _ _ _) ctx)
      as [[] [[i nz] tu]]; reflexivity.
  - reflexivity.
Qed.

(** The validation of a name, as a function of the name and the number
    of components. *)
Lemma validate_cogl_attribute_cases name n id nz tu ctx :
  let rest := string_skip 5 name in
  result_of (validate_cogl_attribute name n id nz tu) ctx
  = if strcmp_eq rest "position_in" then
      if n =? 1 then (false, (id, false, 0))
      else (true, (COGL_VERTEX_ATTRIBUTE_NAME_ID_POSITION_ARRAY, false, 0))
    else if strcmp_eq rest "color_in" then
      if negb (n =? 3) && negb (n =? 4) then (false, (id, false, 0))
      else (true, (COGL_VERTEX_ATTRIBUTE_NAME_ID_COLOR_ARRAY, false, 0))
    else if strcmp_eq rest "tex_coord_in" then
      (true, (COGL_VERTEX_ATTRIBUTE_NAME_ID_TEXTURE_COORD_ARRAY, false, 0))
    else if strncmp_eq rest "tex_coord" then
      match sscanf_tex_coord_u_in rest with
      | Some u =>
          (true, (COGL_VERTEX_ATTRIBUTE_NAME_ID_TEXTURE_COORD_ARRAY,
                  false, u))
      | None => (false, (id, false, 0))
      end
    else if strcmp_eq rest "normal" then
      if negb (n =? 3) then (false, (id, false, 0))
      else (true, (COGL_VERTEX_ATTRIBUTE_NAME_ID_NORMAL_ARRAY, true, 0))
    else (false, (id, false, 0)).
Proof.
  unfold validate_cogl_attribute, result_of; cbv zeta.
  repeat match goal with
         | |- context [if ?b then _ else _] => destruct b
         | |- context [match ?o with Some _ => _ | None => _ end] =>
             destruct o
         end; reflexivity.
Qed.

(** The colour role as this file leaves it: the attribute is built with
    [normalized] unset, where the disabled [validate_gl_attribute] sets
    it for [Color]. *)
Example color_attribute_not_normalized ctx :
  normalized
    <$> result_of (cogl_vertex_attribute_new 1%nat "cogl_color_in" 16 0 4
                     COGL_VERTEX_ATTRIBUTE_TYPE_FLOAT) ctx
  = Some false.
Proof.
  rewrite cogl_vertex_attribute_new_result.
  cbn [strncmp_eq String.prefix Ascii.eqb Bool.eqb].
  cbv zeta. rewrite validate_cogl_attribute_cases. reflexivity.
Qed.

(** C1, as stated, fails on the code: an attribute built under the
    reserved normal name, which is a role other than COLOR, comes out
    with [normalized] set. *)
Lemma normal_attribute_is_normalized :
  exists a,
    result_of (cogl_vertex_attribute_new 1%nat "cogl_normal" 12 0 3
                 COGL_VERTEX_ATTRIBUTE_TYPE_FLOAT)
      (sample_context false)
    = Some a
    /\ name_id a = COGL_VERTEX_ATTRIBUTE_NAME_ID_NORMAL_ARRAY
    /\ normalized a <> false.
Proof.
  eexists. split; [vm_compute; reflexivity|]. split; [reflexivity|].
  discriminate.
Qed.

(** C1 (amended): an attribute built under the reserved normal name (three
    components) has [normalized] set; every attribute built with the
    position or the texture-coordinate role has it unset, until
    [cogl_vertex_attribute_set_normalized] says otherwise. *)
Theorem normalized_by_role array name stride offset n type ctx a :
  result_of (cogl_vertex_attribute_new array name stride offset n type) ctx
  = Some a ->
  (name_id a = COGL_VERTEX_ATTRIBUTE_NAME_ID_NORMAL_ARRAY ->
   n = 3 /\ normalized a = true)
  /\ (name_id a = COGL_VERTEX_ATTRIBUTE_NAME_ID_POSITION_ARRAY
      \/ name_id a = COGL_VERTEX_ATTRIBUTE_NAME_ID_TEXTURE_COORD_ARRAY ->
      normalized a = false)
  /\ (forall b ctx',
        normalized
          (result_of (cogl_vertex_attribute_set_normalized a b) ctx') = b).
Proof.
  rewrite cogl_vertex_attribute_new_result.
  intros H. split; [|split].
  - revert H. destruct (strncmp_eq name "cogl_"); cbv zeta.
    + rewrite validate_cogl_attribute_cases; cbv zeta.
      repeat match goal with
             | |- context [if ?b then _ else _] => destruct b eqn:?
             | |- context [match ?o with Some _ => _ | None => _ end] =>
                 destruct o
             end; cbn; intros [= <-]; cbn; try discriminate.
      intros _. split; [lia | reflexivity].
    + cbn. intros [= <-]. discriminate.
  - revert H. destruct (strncmp_eq name "cogl_"); cbv zeta.
    + rewrite validate_cogl_attribute_cases; cbv zeta.
      repeat match goal with
             | |- context [if ?b then _ else _] => destruct b eqn:?
             | |- context [match ?o with Some _ => _ | None => _ end] =>
                 destruct o
             end; cbn; intros [= <-]; cbn; intros [|]; congruence.
    + cbn. intros [= <-]. reflexivity.
  - intros b ctx'. unfold cogl_vertex_attribute_set_normalized.
    rewrite result_bind. reflexivity.
Qed.

Lemma normalized_by_role_witness :
  let a := with_normalized true
             (sample_attribute "cogl_normal"
                COGL_VERTEX_ATTRIBUTE_NAME_ID_NORMAL_ARRAY 3) in
  result_of (cogl_vertex_attribute_new 1%nat "cogl_normal" 12 0 3
               COGL_VERTEX_ATTRIBUTE_TYPE_FLOAT) (sample_context false)
  = Some a
  /\ normalized a = true.
Proof.
  intros a.
  assert (H : result_of (cogl_vertex_attribute_new 1%nat "cogl_normal" 12 0 3
                 COGL_VERTEX_ATTRIBUTE_TYPE_FLOAT) (sample_context false)
              = Some a) by (vm_compute; reflexivity).
  split; [exact H|].
  exact (proj2 (proj1 (normalized_by_role _ _ _ _ _ _ _ _ H) eq_refl)).
Defined.

(** C8: under the reserved position name the construction fails exactly
    for one component (so 2, 3 and 4 succeed); under the reserved colour
    name exactly unless there are 3 or 4 components; under the reserved
    normal name exactly unless there are 3; and a name without the
    reserved prefix always gives a CUSTOM attribute, on texture unit 0
    and not normalized. *)
Theorem construction_fails_by_role array name stride offset n type ctx :
  let r :=
    result_of (cogl_vertex_attribute_new array name stride offset n type)
      ctx in
  (name = "cogl_position_in"%string ->
   (r = None <-> n = 1)
   /\ (forall a, r = Some a ->
         name_id a = COGL_VERTEX_ATTRIBUTE_NAME_ID_POSITION_ARRAY))
  /\ (name = "cogl_color_in"%string ->
      (r = None <-> ~ (n = 3 \/ n = 4))
      /\ (forall a, r = Some a ->
            name_id a = COGL_VERTEX_ATTRIBUTE_NAME_ID_COLOR_ARRAY))
  /\ (name = "cogl_normal"%string ->
      (r = None <-> n <> 3)
      /\ (forall a, r = Some a ->
            name_id a = COGL_VERTEX_ATTRIBUTE_NAME_ID_NORMAL_ARRAY))
  /\ (strncmp_eq name "cogl_" = false ->
      exists a,
        r = Some a
        /\ name_id a = COGL_VERTEX_ATTRIBUTE_NAME_ID_CUSTOM_ARRAY
        /\ texture_unit a = 0 /\ normalized a = false).
Proof.
  cbv zeta. rewrite cogl_vertex_attribute_new_result.
  cbv zeta. rewrite validate_cogl_attribute_cases.
  split; [|split; [|split]].
  1-3: intros ->; cbn;
    repeat match goal with
           | |- context [Z.eqb ?x ?y] => destruct (Z.eqb_spec x y)
           end; cbn;
    (split;
     [ split; intros; first [discriminate | lia | reflexivity]
     | intros a Ha; inversion Ha; reflexivity ]).
  intros ->. cbn. eexists. repeat split.
Qed.

Lemma construction_fails_by_role_witness :
  result_of (cogl_vertex_attribute_new 1%nat "cogl_position_in" 12 0 1
               COGL_VERTEX_ATTRIBUTE_TYPE_FLOAT) (sample_context false)
  = None
  /\ exists a,
       result_of (cogl_vertex_attribute_new 1%nat "weight" 4 0 1
                    COGL_VERTEX_ATTRIBUTE_TYPE_FLOAT) (sample_context false)
       = Some a
       /\ name_id a = COGL_VERTEX_ATTRIBUTE_NAME_ID_CUSTOM_ARRAY
       /\ texture_unit a = 0 /\ normalized a = false.
Proof.
  split.
  - apply (proj1 (construction_fails_by_role 1%nat "cogl_position_in" 12 0 1
                    COGL_VERTEX_ATTRIBUTE_TYPE_FLOAT (sample_context false))
             eq_refl).
    reflexivity.
  - apply (proj2 (proj2 (proj2
             (construction_fails_by_role 1%nat "weight" 4 0 1
                COGL_VERTEX_ATTRIBUTE_TYPE_FLOAT (sample_context false))))).
    reflexivity.
Defined.

(** ** The setters and the mid-scene warning *)

Lemma warn_about_midscene_changes_effect ctx :
  let ctx' := context_after warn_about_midscene_changes ctx in
  seen ctx' = true
  /\ mid_scene_warnings ctx'
     = (mid_scene_warnings ctx + if seen ctx then 0 else 1)%nat
  /\ ref_counts ctx' = ref_counts ctx.
Proof.
  unfold warn_about_midscene_changes, context_after, mid_scene_warnings,
    bind, get, modify, g_warning, GE, ret.
  destruct (seen ctx) eqn:E; cbn; rewrite ?E; repeat split; lia.
Qed.

(** ** Relations kept by every step *)

Section Preserves.
Variable R : CoglContext -> CoglContext -> Prop.
Hypothesis R_refl : forall c, R c c.
Hypothesis R_trans : forall c1 c2 c3, R c1 c2 -> R c2 c3 -> R c1 c3.

Lemma preserves_ret {A : Type} (a : A) : preserves R (ret a).
Proof. intros ctx. apply R_refl. Qed.

Lemma preserves_get {A : Type} (f : CoglContext -> A) :
  preserves R (get f).
Proof. intros ctx. apply R_refl. Qed.

Lemma preserves_bind {A B : Type} (m : M A) (k : A -> M B) :
  preserves R m -> (forall a, preserves R (k a)) ->
  preserves R (bind m k).
Proof.
  intros Hm Hk ctx. rewrite context_bind.
  eapply R_trans; [apply Hm | apply Hk].
Qed.

Lemma preserves_when (b : bool) (m : M unit) :
  preserves R m -> preserves R (when b m).
Proof. destruct b; [trivial | intros _; apply preserves_ret]. Qed.

Lemma preserves_for_each {A L : Type} (body : A -> L -> M L) elements :
  (forall x l, preserves R (body x l)) ->
  forall locals, preserves R (for_each body elements locals).
Proof.
  intros Hbody. induction elements as [|x rest IH]; intros locals; cbn.
  - apply preserves_ret.
  - apply preserves_bind; [apply Hbody | intros l; apply IH].
Qed.

Lemma preserves_modify (f : CoglContext -> CoglContext) :
  (forall c, R c (f c)) -> preserves R (modify f).
Proof. intros H ctx. apply H. Qed.
End Preserves.

(** Splits a goal [preserves R m] along the binds, branches and loops of
    [m]; [leaf] is tried on what remains. *)
Ltac preserves_step Hrefl Htrans leaf :=
  repeat first
    [ leaf
    | apply (preserves_ret _ Hrefl)
    | apply (preserves_get _ Hrefl)
    | apply (preserves_bind _ Htrans); [|intros ?]
    | apply (preserves_when _ Hrefl)
    | apply (preserves_for_each _ Hrefl Htrans); intros ? ?
    | match goal with
      | |- preserves _ (if ?b then _ else _) => destruct b
      | |- preserves _ (match ?x with _ => _ end) => destruct x
      | |- preserves _ (let '(_, _) := ?x in _) => destruct x
      end ].

Lemma warned_once_refl c : warned_once c c.
Proof. split; [destruct (seen c); reflexivity | reflexivity]. Qed.

Lemma warned_once_trans c1 c2 c3 :
  warned_once c1 c2 -> warned_once c2 c3 -> warned_once c1 c3.
Proof.
  unfold warned_once. intros [H1 E1] [H2 E2].
  split; [destruct (seen c1), (seen c2), (seen c3); auto | lia].
Qed.

Lemma warned_once_GE c :
  is_mid_scene_warning c = false -> preserves warned_once (GE c).
Proof.
  intros Hc ctx. unfold warned_once, mid_scene_warnings. cbn. rewrite Hc.
  split; [destruct (seen ctx); reflexivity | reflexivity].
Qed.

Lemma warned_once_ref_counts f :
  preserves warned_once (modify (set_ref_counts f)).
Proof.
  intros ctx. unfold warned_once, mid_scene_warnings. cbn.
  split; [destruct (seen ctx); reflexivity | reflexivity].
Qed.

Lemma warned_once_warn : preserves warned_once warn_about_midscene_changes.
Proof.
  intros ctx.
  destruct (warn_about_midscene_changes_effect ctx) as (Hs & Hw & _).
  unfold warned_once. rewrite Hs, Hw.
  split; [destruct (seen ctx); reflexivity | lia].
Qed.

Ltac warned_once_tac :=
  preserves_step warned_once_refl warned_once_trans
    ltac:(first [ apply warned_once_warn
                | apply warned_once_ref_counts
                | apply warned_once_GE; reflexivity ]).

Lemma warned_once_call c attributes :
  preserves warned_once (run_attribute_call c attributes).
Proof.
  destruct c; unfold run_attribute_call, on_attribute,
    cogl_vertex_attribute_set_normalized, cogl_vertex_attribute_set_array,
    _cogl_vertex_attribute_immutable_ref,
    _cogl_vertex_attribute_immutable_unref, cogl_object_ref,
    cogl_object_unref, _cogl_buffer_immutable_ref,
    _cogl_buffer_immutable_unref, g_critical;
    warned_once_tac.
Qed.

Lemma for_each_app {A L : Type} (body : A -> L -> M L) xs ys locals ctx :
  for_each body (xs ++ ys) locals ctx
  = (locals' <- for_each body xs locals;; for_each body ys locals') ctx.
Proof.
  revert locals ctx. induction xs as [|x xs IH]; intros locals ctx;
    cbn [app for_each].
  - reflexivity.
  - rewrite !run_bind. rewrite IH, run_bind. reflexivity.
Qed.

Lemma on_attribute_length i f attributes ctx :
  length (result_of (on_attribute i f attributes) ctx) = length attributes.
Proof.
  unfold on_attribute, result_of.
  destruct (attributes !! i) as [a|]; [|reflexivity].
  rewrite run_bind. cbn. apply length_insert.
Qed.

Lemma run_attribute_calls_length calls :
  forall attributes ctx,
    length (result_of (run_attribute_calls calls attributes) ctx)
    = length attributes.
Proof.
  unfold run_attribute_calls.
  induction calls as [|c calls IH]; intros attributes ctx; cbn [for_each].
  - reflexivity.
  - rewrite result_bind, IH.
    destruct c; apply on_attribute_length.
Qed.

(** What the entry at [i] is after a call on the attribute at [i]. *)
Lemma on_attribute_lookup i f attributes ctx :
  result_of (on_attribute i f attributes) ctx !! i
  = (fun a => result_of (f a) ctx) <$> attributes !! i.
Proof.
  unfold on_attribute, result_of.
  destruct (attributes !! i) as [a|] eqn:E; cbn [fmap option_fmap option_map].
  - rewrite run_bind. cbn [ret fst snd].
    apply list_lookup_insert_eq. now apply lookup_lt_Some in E.
  - exact E.
Qed.

(** C9: each call of a setter gives the attribute the requested value,
    whatever its [immutable_ref], and leaves its other fields alone:
    read back, [normalized] (or [array]) is the value just set.  So it
    is, too, at the end of any sequence of setter, pin and unpin calls on
    a table of attributes that ends with a setter call.  And over any
    such sequence the warning is logged at most once, exactly by the
    step that sets [seen], which is never reset. *)
Theorem setters_mutate_and_warn_once calls attributes ctx :
  let ctx' := context_after (run_attribute_calls calls attributes) ctx in
  let after c :=
    result_of (run_attribute_calls (calls ++ [c]) attributes) ctx in
  (forall a b c,
     let a' := result_of (cogl_vertex_attribute_set_normalized a b) c in
     normalized a' = b
     /\ cogl_vertex_attribute_get_normalized a' = b
     /\ array a' = array a /\ layout_of a' = layout_of a)
  /\ (forall a h c,
        let a' := result_of (cogl_vertex_attribute_set_array a h) c in
        array a' = h
        /\ cogl_vertex_attribute_get_array a' = h
        /\ normalized a' = normalized a /\ layout_of a' = layout_of a)
  /\ (forall i b,
        normalized <$> after (call_set_normalized i b) !! i
        = (fun _ => b) <$> attributes !! i)
  /\ (forall i h,
        array <$> after (call_set_array i h) !! i
        = (fun _ => h) <$> attributes !! i)
  /\ implb (seen ctx) (seen ctx') = true
  /\ (mid_scene_warnings ctx' + (if seen ctx' then 0 else 1)
      = mid_scene_warnings ctx + (if seen ctx then 0 else 1))%nat
  /\ (mid_scene_warnings ctx'
      <= mid_scene_warnings ctx + (if seen ctx then 0 else 1))%nat.
Proof.
  cbv zeta.
  assert (H : warned_once ctx
                (context_after (run_attribute_calls calls attributes) ctx)).
  { apply (preserves_for_each _ warned_once_refl warned_once_trans).
    intros c l. apply warned_once_call. }
  destruct H as [Hs Hw].
  assert (Hlast : forall c i,
            result_of (run_attribute_calls (calls ++ [c]) attributes) ctx
            !! i
            = result_of
                (run_attribute_call c
                   (result_of (run_attribute_calls calls attributes) ctx))
                (context_after (run_attribute_calls calls attributes) ctx)
              !! i).
  { intros c i. unfold run_attribute_calls, result_of, context_after.
    rewrite for_each_app, run_bind. cbn [for_each].
    rewrite run_bind. reflexivity. }
  assert (Hsome : forall i,
            is_Some
              (result_of (run_attribute_calls calls attributes) ctx !! i)
            <-> is_Some (attributes !! i)).
  { intros i. rewrite !lookup_lt_is_Some.
    now rewrite run_attribute_calls_length. }
  split; [|split; [|split; [|split; [|split; [|split]]]]]; try assumption.
  - intros a b c. unfold cogl_vertex_attribute_set_normalized.
    rewrite result_bind. repeat split.
  - intros a h c. unfold cogl_vertex_attribute_set_array.
    rewrite !result_bind. repeat split.
  - intros i b. rewrite Hlast. cbn [run_attribute_call].
    rewrite on_attribute_lookup. specialize (Hsome i).
    destruct (result_of (run_attribute_calls calls attributes) ctx !! i)
      as [a|], (attributes !! i) as [a0|]; cbn;
      try reflexivity.
    + unfold cogl_vertex_attribute_set_normalized.
      rewrite result_bind. reflexivity.
    + destruct (proj1 Hsome) as [? ?]; [eauto | discriminate].
    + destruct (proj2 Hsome) as [? ?]; [eauto | discriminate].
  - intros i h. rewrite Hlast. cbn [run_attribute_call].
    rewrite on_attribute_lookup. specialize (Hsome i).
    destruct (result_of (run_attribute_calls calls attributes) ctx !! i)
      as [a|], (attributes !! i) as [a0|]; cbn;
      try reflexivity.
    + unfold cogl_vertex_attribute_set_array.
      rewrite !result_bind. reflexivity.
    + destruct (proj1 Hsome) as [? ?]; [eauto | discriminate].
    + destruct (proj2 Hsome) as [? ?]; [eauto | discriminate].
  - lia.
Qed.

(** A pinned attribute set twice: both values arrive, one warning. *)
Example pinned_setters_warn_once :
  let calls :=
    [call_immutable_ref 0; call_set_normalized 0 true;
     call_set_array 0 2%nat] in
  let r := run_attribute_calls calls [sample_custom] (sample_context true) in
  (fun a => (array a, normalized a, immutable_ref a)) <$> fst r
  = [(2%nat, true, 1)]
  /\ mid_scene_warnings (snd r) = 1%nat.
Proof. split; vm_compute; reflexivity. Qed.

(** ** Re-setting the array of an attribute *)

Lemma context_after_when_warn_ref_counts b ctx :
  ref_counts (context_after (when b warn_about_midscene_changes) ctx)
  = ref_counts ctx.
Proof.
  destruct b; [|reflexivity].
  apply (warn_about_midscene_changes_effect ctx).
Qed.

Lemma cogl_object_ref_live object n ctx :
  ref_count ctx object = Some n ->
  ref_counts (context_after (cogl_object_ref object) ctx)
  = <[object := n + 1]> (ref_counts ctx).
Proof. unfold ref_count. intros H. cbn. now rewrite H. Qed.


(** The last reference: the object is released. *)
Lemma cogl_object_unref_last object ctx :
  ref_count ctx object = Some 1 ->
  ref_count (context_after (cogl_object_unref object) ctx) object = None.
Proof.
  unfold ref_count. intros H. cbn. rewrite H. cbn. apply lookup_delete_eq.
Qed.




(** ** Machine integers *)

Lemma wrap_int_small x : - 2 ^ 31 <= x < 2 ^ 31 -> wrap_int x = x.
Proof.
  intros H. unfold wrap_int. rewrite Z.mod_small; lia.
Qed.

Lemma wrap_int_mod x : wrap_int x mod 2 ^ 32 = x mod 2 ^ 32.
Proof.
  unfold wrap_int. rewrite Zminus_mod_idemp_l. f_equal. lia.
Qed.

Lemma testbit_wrap_int x k :
  0 <= k < 32 -> Z.testbit (wrap_int x) k = Z.testbit x k.
Proof.
  intros Hk.
  rewrite <- (Z.mod_pow2_bits_low (wrap_int x) 32 k) by lia.
  rewrite wrap_int_mod. apply Z.mod_pow2_bits_low. lia.
Qed.

Lemma testbit_wrap_u32 x k :
  0 <= k -> Z.testbit (wrap_u32 x) k = (k <? 32) && Z.testbit x k.
Proof.
  intros Hk. unfold wrap_u32. destruct (Z.ltb_spec k 32).
  - apply Z.mod_pow2_bits_low. lia.
  - apply Z.mod_pow2_bits_high. lia.
Qed.

(** ** Layer validation *)

Lemma same_but_trace_refl c : same_but_trace c c.
Proof. repeat split. Qed.

Lemma same_but_trace_trans c1 c2 c3 :
  same_but_trace c1 c2 -> same_but_trace c2 c3 -> same_but_trace c1 c3.
Proof.
  unfold same_but_trace, same_world. intros H1 H2.
  decompose [and] H1. decompose [and] H2.
  repeat split; congruence.
Qed.

Lemma same_but_trace_GE c : preserves same_but_trace (GE c).
Proof. intros ctx. repeat split. Qed.

Ltac same_but_trace_tac :=
  preserves_step same_but_trace_refl same_but_trace_trans
    ltac:(apply same_but_trace_GE).

Lemma validate_layer_cb_same_but_trace pipeline layer_index state :
  preserves same_but_trace (validate_layer_cb pipeline layer_index state).
Proof.
  unfold validate_layer_cb, _cogl_pipeline_get_layer_texture,
    _cogl_texture_ensure_non_quad_rendering,
    _cogl_pipeline_pre_paint_for_layer, _cogl_texture_can_hardware_repeat,
    g_warning.
  same_but_trace_tac.
Qed.

Lemma layer_cannot_repeat_same ctx ctx' pipeline layer_index :
  same_but_trace ctx ctx' ->
  layer_cannot_repeat ctx' pipeline layer_index
  = layer_cannot_repeat ctx pipeline layer_index.
Proof.
  intros ((_ & _ & Ht & _) & _ & Hp & _).
  unfold layer_cannot_repeat, layer_texture, result_of,
    _cogl_pipeline_get_layer_texture, get. cbn [fst].
  now rewrite Hp, Ht.
Qed.

(** One call of the callback: it returns [TRUE], counts the layer, and
    flags it when its texture cannot be repeated. *)
Lemma validate_layer_cb_result pipeline layer_index state ctx :
  result_of (validate_layer_cb pipeline layer_index state) ctx
  = (true,
     if layer_cannot_repeat ctx pipeline layer_index then
       {| state_unit := wrap_int (state_unit state + 1);
          state_options :=
            {| flags := Z.lor (flags (state_options state))
                          COGL_PIPELINE_FLUSH_FALLBACK_MASK |};
          state_fallback_layers :=
            wrap_u32 (Z.lor (state_fallback_layers state)
                        (wrap_int (Z.shiftl 1 (state_unit state)))) |}
     else
       {| state_unit := wrap_int (state_unit state + 1);
          state_options := state_options state;
          state_fallback_layers := state_fallback_layers state |}).
Proof.
  unfold layer_cannot_repeat, layer_texture, validate_layer_cb, result_of,
    _cogl_pipeline_get_layer_texture, bind, get.
  cbn [fst snd].
  match goal with
  | |- context [Nat.eqb ?t COGL_INVALID_HANDLE] =>
      destruct (Nat.eqb t COGL_INVALID_HANDLE); cbn;
        [reflexivity | destruct (texture_can_hardware_repeat ctx t)]
  end; reflexivity.
Qed.

Lemma foreach_validate_cons pipeline layer_index rest state ctx :
  exists ctx',
    same_but_trace ctx ctx'
    /\ result_of
         (foreach_layer_index validate_layer_cb pipeline
            (layer_index :: rest) state) ctx
       = result_of
           (foreach_layer_index validate_layer_cb pipeline rest
              (snd (result_of
                      (validate_layer_cb pipeline layer_index state) ctx)))
           ctx'.
Proof.
  exists (context_after (validate_layer_cb pipeline layer_index state) ctx).
  split; [apply validate_layer_cb_same_but_trace|].
  cbn [foreach_layer_index]. rewrite result_bind.
  rewrite validate_layer_cb_result at 1. reflexivity.
Qed.

Lemma testbit_u32_high f k :
  0 <= f < 2 ^ 32 -> 32 <= k -> Z.testbit f k = false.
Proof.
  intros Hf Hk. rewrite <- (Z.mod_small f (2 ^ 32)) by lia.
  apply Z.mod_pow2_bits_high. lia.
Qed.

Lemma wrap_u32_range x : 0 <= wrap_u32 x < 2 ^ 32.
Proof. unfold wrap_u32. apply Z.mod_pos_bound. lia. Qed.

(** The bit the callback sets for the layer at position [u]. *)
Lemma testbit_fallback_bit f u k :
  0 <= f < 2 ^ 32 -> 0 <= u < 32 -> 0 <= k ->
  Z.testbit (wrap_u32 (Z.lor f (wrap_int (Z.shiftl 1 u)))) k
  = Z.testbit f k || (k =? u).
Proof.
  intros Hf Hu Hk. rewrite testbit_wrap_u32 by lia.
  destruct (Z.ltb_spec k 32); cbn [andb].
  - rewrite Z.lor_spec, testbit_wrap_int by lia.
    rewrite Z.shiftl_1_l, Z.pow2_bits_eqb by lia.
    now rewrite (Z.eqb_sym u k).
  - rewrite (testbit_u32_high f k) by lia.
    destruct (Z.eqb_spec k u); [lia | reflexivity].
Qed.

Lemma existsb_pointwise {A : Type} (f g : A -> bool) l :
  (forall x, f x = g x) -> existsb f l = existsb g l.
Proof.
  intros H. induction l as [|x l IH]; cbn; [reflexivity|].
  now rewrite H, IH.
Qed.

(** The run of the callback over the layers at positions [u], [u + 1],
    ... *)
Lemma foreach_validate_spec pipeline layer_indices :
  forall state ctx,
    0 <= state_unit state ->
    state_unit state + Z.of_nat (length layer_indices) <= 32 ->
    0 <= state_fallback_layers state < 2 ^ 32 ->
    let state' :=
      result_of (foreach_layer_index validate_layer_cb pipeline
                   layer_indices state) ctx in
    state_unit state'
    = state_unit state + Z.of_nat (length layer_indices)
    /\ 0 <= state_fallback_layers state' < 2 ^ 32
    /\ (forall k, 0 <= k ->
          Z.testbit (state_fallback_layers state') k
          = Z.testbit (state_fallback_layers state) k
            || match layer_indices !! Z.to_nat (k - state_unit state) with
               | Some layer_index =>
                   (state_unit state <=? k)
                   && layer_cannot_repeat ctx pipeline layer_index
               | None => false
               end)
    /\ flags (state_options state')
       = if existsb (layer_cannot_repeat ctx pipeline) layer_indices
         then Z.lor (flags (state_options state))
                COGL_PIPELINE_FLUSH_FALLBACK_MASK
         else flags (state_options state).
Proof.
  induction layer_indices as [|layer_index rest IH];
    intros state ctx Hu Hlen Hf; cbv zeta.
  - cbn. repeat split; try lia.
    intros k Hk. now rewrite orb_false_r.
  - destruct (foreach_validate_cons pipeline layer_index rest state ctx)
      as (ctx' & Hsame & ->).
    rewrite validate_layer_cb_result. cbn [snd].
    cbn [length] in Hlen.
    set (bad := layer_cannot_repeat ctx pipeline layer_index).
    match goal with
    | |- context [foreach_layer_index _ _ _ ?s] => set (state1 := s)
    end.
    assert (Hu1 : state_unit state1 = state_unit state + 1).
    { unfold state1. destruct bad; cbn; apply wrap_int_small; lia. }
    assert (Hf1 : 0 <= state_fallback_layers state1 < 2 ^ 32).
    { unfold state1. destruct bad; cbn; [apply wrap_u32_range | exact Hf]. }
    assert (Hb1 : forall k, 0 <= k ->
              Z.testbit (state_fallback_layers state1) k
              = Z.testbit (state_fallback_layers state) k
                || ((k =? state_unit state) && bad)).
    { intros k Hk. unfold state1. destruct bad; cbn.
      - rewrite testbit_fallback_bit by lia. now rewrite andb_true_r.
      - now rewrite andb_false_r, orb_false_r. }
    assert (Ho1 : flags (state_options state1)
                  = if bad
                    then Z.lor (flags (state_options state))
                           COGL_PIPELINE_FLUSH_FALLBACK_MASK
                    else flags (state_options state)).
    { unfold state1. destruct bad; reflexivity. }
    destruct (IH state1 ctx') as (IHu & IHf & IHb & IHo); try lia.
    split; [|split; [|split]].
    + rewrite IHu, Hu1. cbn [length]. lia.
    + exact IHf.
    + intros k Hk. rewrite (IHb k Hk), (Hb1 k Hk), Hu1.
      destruct (Z.eqb_spec k (state_unit state)) as [->|Hne].
      * rewrite Z.sub_diag. cbn [Z.to_nat lookup list_lookup].
        rewrite Z.leb_refl.
        replace (Z.to_nat (state_unit state - (state_unit state + 1)))
          with O by lia.
        destruct rest as [|i rest']; cbn [lookup list_lookup];
          [|destruct (Z.leb_spec (state_unit state + 1) (state_unit state));
            [lia|]];
          cbn [andb]; now rewrite ?orb_false_r.
      * cbn [andb]. rewrite orb_false_r.
        destruct (Z.leb_spec (state_unit state) k) as [Hle|Hgt].
        -- replace (Z.to_nat (k - state_unit state))
             with (S (Z.to_nat (k - (state_unit state + 1)))) by lia.
           cbn [lookup list_lookup].
           destruct (Z.leb_spec (state_unit state + 1) k); [|lia].
           destruct (rest !! _); [|reflexivity].
           now rewrite (layer_cannot_repeat_same _ _ _ _ Hsame).
        -- replace (Z.to_nat (k - state_unit state)) with O by lia.
           replace (Z.to_nat (k - (state_unit state + 1))) with O by lia.
           cbn [lookup list_lookup andb].
           destruct rest; cbn [lookup list_lookup]; [reflexivity|].
           destruct (Z.leb_spec (state_unit state + 1) k); [lia|].
           reflexivity.
    + rewrite IHo, Ho1. cbn [existsb]. fold bad.
      rewrite (existsb_pointwise (layer_cannot_repeat ctx' pipeline)
                 (layer_cannot_repeat ctx pipeline)) by
        (intros i; apply (layer_cannot_repeat_same _ _ _ _ Hsame)).
      destruct (existsb (layer_cannot_repeat ctx pipeline) rest);
        destruct bad; cbn [orb]; try reflexivity.
      rewrite <- Z.lor_assoc, Z.lor_diag. reflexivity.
Qed.

(** C5, as stated, fails on the code: validated in order, the layer at
    position 32 of a pipeline of 33 layers has a texture that cannot be
    repeated by the hardware, yet no bit at position 32 is set in
    [fallback_layers], a [guint32] whose bits are those of the layers 0
    to 31. *)
Lemma layer_32_gets_no_bit :
  let state' :=
    result_of
      (cogl_pipeline_foreach_layer 2%nat validate_layer_cb initial_state)
      sample_wide_context in
  layer_cannot_repeat sample_wide_context 2%nat 32 = true
  /\ state_unit state' = 33
  /\ state_fallback_layers state' = 2 ^ 32 - 1
  /\ Z.testbit (state_fallback_layers state') 32 = false.
Proof. repeat split; vm_compute; reflexivity. Qed.

(** C5 (amended): validating up to 32 layers in order (the width of
    [fallback_layers]) from the state the draw entry points start with:
    every call returns [TRUE] and counts one layer; a layer without a
    texture leaves the options and the bits as they are; at the end the
    counter is the number of layers, bit [k] of [fallback_layers] is set
    exactly when the layer at position [k] has a texture that cannot be
    repeated by the hardware, and the fallback flag is set exactly when
    there is such a layer. *)
Theorem validate_layers_in_order ctx pipeline layer_indices :
  (length layer_indices <= 32)%nat ->
  let state' :=
    result_of (foreach_layer_index validate_layer_cb pipeline layer_indices
                 initial_state) ctx in
  (forall layer_index state c,
     fst (result_of (validate_layer_cb pipeline layer_index state) c) = true)
  /\ (forall layer_index state c,
        - 2 ^ 31 <= state_unit state < 2 ^ 31 - 1 ->
        state_unit
          (snd (result_of (validate_layer_cb pipeline layer_index state) c))
        = state_unit state + 1)
  /\ (forall layer_index state c,
        layer_texture c pipeline layer_index = COGL_INVALID_HANDLE ->
        let s :=
          snd (result_of (validate_layer_cb pipeline layer_index state) c) in
        state_options s = state_options state
        /\ state_fallback_layers s = state_fallback_layers state)
  /\ state_unit state' = Z.of_nat (length layer_indices)
  /\ (forall k layer_index,
        layer_indices !! k = Some layer_index ->
        Z.testbit (state_fallback_layers state') (Z.of_nat k)
        = layer_cannot_repeat ctx pipeline layer_index)
  /\ (forall k, (length layer_indices <= k)%nat ->
        Z.testbit (state_fallback_layers state') (Z.of_nat k) = false)
  /\ flags (state_options state')
     = if existsb (layer_cannot_repeat ctx pipeline) layer_indices
       then COGL_PIPELINE_FLUSH_FALLBACK_MASK else 0.
Proof.
  intros Hlen state'.
  destruct (foreach_validate_spec pipeline layer_indices initial_state ctx)
    as (Hu & Hf & Hb & Ho); cbn [initial_state state_unit
      state_fallback_layers]; try lia.
  fold state' in Hu, Hf, Hb, Ho.
  cbn [initial_state state_unit state_fallback_layers state_options flags]
    in Hu, Hb, Ho.
  split; [|split; [|split; [|split; [|split; [|split]]]]].
  - intros. now rewrite validate_layer_cb_result.
  - intros layer_index state c Hr. rewrite validate_layer_cb_result.
    destruct (layer_cannot_repeat c pipeline layer_index); cbn;
      apply wrap_int_small; lia.
  - intros layer_index state c Ht. cbv zeta.
    rewrite validate_layer_cb_result.
    unfold layer_cannot_repeat. rewrite Ht. cbn. split; reflexivity.
  - exact Hu.
  - intros k layer_index Hk. rewrite Hb by lia.
    rewrite Z.testbit_0_l, Z.sub_0_r, Nat2Z.id, Hk. cbn [orb].
    destruct (Z.leb_spec 0 (Z.of_nat k)); [reflexivity | lia].
  - intros k Hk. rewrite Hb by lia.
    rewrite Z.testbit_0_l, Z.sub_0_r, Nat2Z.id.
    rewrite (proj2 (lookup_ge_None layer_indices k)) by lia. reflexivity.
  - rewrite Ho. now rewrite Z.lor_0_l.
Qed.

Lemma validate_layers_in_order_witness :
  let state' :=
    result_of (foreach_layer_index validate_layer_cb 2%nat [0; 3; 4]
                 initial_state) sample_layered_context in
  state_unit state' = 3
  /\ Z.testbit (state_fallback_layers state') 2 = true
  /\ Z.testbit (state_fallback_layers state') 1 = false
  /\ flags (state_options state') = COGL_PIPELINE_FLUSH_FALLBACK_MASK.
Proof.
  intros state'.
  assert (Hlen : (length [0; 3; 4] <= 32)%nat) by (cbn; lia).
  destruct (validate_layers_in_order sample_layered_context 2%nat [0; 3; 4]
              Hlen) as (_ & _ & _ & Hu & Hb & _ & Ho).
  fold state' in Hu, Hb, Ho.
  split; [exact Hu|]. split; [|split].
  - exact (Hb 2%nat 4 eq_refl).
  - exact (Hb 1%nat 3 eq_refl).
  - exact Ho.
Defined.

(** The draw entry points validate the layers of the source pipeline in
    layer order. *)
Lemma cogl_pipeline_foreach_layer_layers pipeline p state ctx :
  pipelines ctx !! pipeline = Some p ->
  cogl_pipeline_foreach_layer pipeline validate_layer_cb state ctx
  = foreach_layer_index validate_layer_cb pipeline (map fst (layers p))
      state ctx.
Proof.
  intros H. unfold cogl_pipeline_foreach_layer.
  rewrite run_bind. cbn [get fst snd]. now rewrite H.
Qed.

(** ** Flushing the vertex state: the pipeline *)

Lemma fresh_handle_spec ctx :
  fresh_handle ctx <> COGL_INVALID_HANDLE
  /\ pipelines ctx !! fresh_handle ctx = None
  /\ ref_counts ctx !! fresh_handle ctx = None.
Proof.
  unfold fresh_handle.
  set (X := {[COGL_INVALID_HANDLE]} ∪ dom (ref_counts ctx)
            ∪ dom (pipelines ctx)).
  pose proof (is_fresh X) as H.
  repeat split.
  - intros E. apply H. rewrite E. unfold X. set_solver.
  - apply not_elem_of_dom. intros E. apply H. unfold X. set_solver.
  - apply not_elem_of_dom. intros E. apply H. unfold X. set_solver.
Qed.

Lemma fresh_handle_set_trace f c :
  fresh_handle (set_trace f c) = fresh_handle c.
Proof. reflexivity. Qed.

Ltac run_monad :=
  unfold _cogl_buffer_bind, _cogl_buffer_unbind,
    _cogl_pipeline_get_real_blend_enabled, cogl_pipeline_copy,
    _cogl_pipeline_set_blend_enabled, _cogl_pipeline_apply_overrides,
    _cogl_pipeline_apply_legacy_state, _cogl_pipeline_flush_gl_state,
    _cogl_disable_other_texcoord_arrays, _cogl_enable,
    _cogl_flush_face_winding, _cogl_bitmask_set, _cogl_bitmask_clear_all,
    cogl_get_source, update_pipeline, cogl_object_unref, cogl_object_ref;
  unfold when, GE; unfold bind, get, modify, ret.

(** An attribute that is not a colour leaves the pipelines alone. *)
Lemma enable_attribute_not_color a l c :
  name_id a <> COGL_VERTEX_ATTRIBUTE_NAME_ID_COLOR_ARRAY ->
  let r := enable_attribute a l c in
  source (fst r) = source l /\ copy (fst r) = copy l
  /\ skip_gl_color (fst r) = skip_gl_color l
  /\ pipelines (snd r) = pipelines c
  /\ ref_counts (snd r) = ref_counts c.
Proof.
  intros Ha. unfold enable_attribute. run_monad.
  destruct (name_id a); try congruence; cbn; repeat split.
Qed.

(** A colour on a source that blends already: no copy. *)
Lemma enable_attribute_color_blending a l c q :
  name_id a = COGL_VERTEX_ATTRIBUTE_NAME_ID_COLOR_ARRAY ->
  pipelines c !! source l = Some q -> real_blend_enable q = true ->
  let r := enable_attribute a l c in
  source (fst r) = source l /\ copy (fst r) = copy l
  /\ skip_gl_color (fst r) = true
  /\ pipelines (snd r) = pipelines c
  /\ ref_counts (snd r) = ref_counts c.
Proof.
  intros Ha Hq Hb. unfold enable_attribute. rewrite Ha. run_monad.
  cbn. rewrite Hq, Hb. cbn. repeat split.
Qed.

(** A colour on a source that does not blend: the source becomes a new
    copy of it with blending on. *)
Lemma enable_attribute_color_copies a l c p :
  name_id a = COGL_VERTEX_ATTRIBUTE_NAME_ID_COLOR_ARRAY ->
  pipelines c !! source l = Some p -> real_blend_enable p = false ->
  let r := enable_attribute a l c in
  let h := fresh_handle c in
  source (fst r) = h /\ copy (fst r) = h
  /\ skip_gl_color (fst r) = true
  /\ pipelines (snd r)
     = <[h := with_real_blend_enable true p]> (pipelines c)
  /\ ref_counts (snd r) = <[h := 1]> (ref_counts c).
Proof.
  intros Ha Hp Hb. unfold enable_attribute. rewrite Ha. run_monad.
  cbn. rewrite Hp, Hb. cbn. rewrite Hp. cbn.
  rewrite !fresh_handle_set_trace, lookup_insert_eq, insert_insert_eq.
  repeat split.
Qed.

Lemma is_color_attribute_spec a :
  is_color_attribute a = true
  <-> name_id a = COGL_VERTEX_ATTRIBUTE_NAME_ID_COLOR_ARRAY.
Proof.
  unfold is_color_attribute. destruct (name_id a); split; congruence.
Qed.

Lemma is_color_attribute_false a :
  is_color_attribute a = false
  -> name_id a <> COGL_VERTEX_ATTRIBUTE_NAME_ID_COLOR_ARRAY.
Proof. unfold is_color_attribute. destruct (name_id a); congruence. Qed.

(** Once derived, always derived: no later attribute copies again. *)
Lemma enable_attribute_keeps_derived src ctx0 a l c :
  source_derived src ctx0 l c ->
  source_derived src ctx0 (fst (enable_attribute a l c))
    (snd (enable_attribute a l c)).
Proof.
  intros (Hc & Hs & Hi & Hn & Hf & q & Hq & Hb).
  assert (H : source (fst (enable_attribute a l c)) = source l
              /\ copy (fst (enable_attribute a l c)) = copy l
              /\ pipelines (snd (enable_attribute a l c)) = pipelines c).
  { destruct (is_color_attribute a) eqn:E.
    - apply is_color_attribute_spec in E.
      destruct (enable_attribute_color_blending a l c q E Hq Hb)
        as (? & ? & _ & ? & _); auto.
    - apply is_color_attribute_false in E.
      destruct (enable_attribute_not_color a l c E) as (? & ? & _ & ? & _);
        auto. }
  destruct H as (Hs' & Hc' & Hp').
  unfold source_derived. rewrite Hs', Hc', Hp'.
  repeat split; try assumption. exists q. auto.
Qed.

Lemma for_each_keeps_derived src ctx0 attributes :
  forall l c,
    source_derived src ctx0 l c ->
    source_derived src ctx0
      (fst (for_each enable_attribute attributes l c))
      (snd (for_each enable_attribute attributes l c)).
Proof.
  induction attributes as [|a rest IH]; intros l c H; cbn [for_each].
  - exact H.
  - rewrite run_bind. apply IH. now apply enable_attribute_keeps_derived.
Qed.

(** The first colour derives the source, when the source does not blend. *)
Lemma for_each_derives src ctx0 p attributes :
  pipelines ctx0 !! src = Some p -> real_blend_enable p = false ->
  forall l c,
    source_untouched src ctx0 l c ->
    let r := for_each enable_attribute attributes l c in
    if existsb is_color_attribute attributes
    then source_derived src ctx0 (fst r) (snd r)
    else source_untouched src ctx0 (fst r) (snd r).
Proof.
  intros Hp Hb. induction attributes as [|a rest IH];
    intros l c H; cbn [for_each existsb]; cbv zeta.
  - exact H.
  - rewrite run_bind. destruct H as (Hs & Hc & Hps & Hrc).
    destruct (is_color_attribute a) eqn:E; cbn [orb].
    + apply is_color_attribute_spec in E.
      apply for_each_keeps_derived.
      assert (Hp' : pipelines c !! source l = Some p)
        by (rewrite Hs, Hps; exact Hp).
      destruct (enable_attribute_color_copies a l c p E Hp' Hb)
        as (Hs' & Hc' & _ & Hps' & _).
      destruct (fresh_handle_spec c) as (Hi & Hn & _).
      unfold source_derived. rewrite Hs', Hc', Hps'.
      repeat split.
      * intros Eq. rewrite Eq, Hps, Hp in Hn. discriminate.
      * exact Hi.
      * now rewrite <- Hps.
      * intros h Hh. rewrite lookup_insert_ne by congruence. now rewrite Hps.
      * eexists. split; [apply lookup_insert_eq | reflexivity].
    + apply is_color_attribute_false in E.
      destruct (enable_attribute_not_color a l c E)
        as (Hs' & Hc' & _ & Hps' & Hrc').
      apply IH. unfold source_untouched.
      rewrite Hs', Hc', Hps', Hrc'. auto.
Qed.

(** Nothing is derived from a source that blends. *)
Lemma for_each_keeps_untouched src ctx0 p attributes :
  pipelines ctx0 !! src = Some p -> real_blend_enable p = true ->
  forall l c,
    source_untouched src ctx0 l c ->
    source_untouched src ctx0
      (fst (for_each enable_attribute attributes l c))
      (snd (for_each enable_attribute attributes l c)).
Proof.
  intros Hp Hb. induction attributes as [|a rest IH];
    intros l c H; cbn [for_each].
  - exact H.
  - rewrite run_bind. apply IH. destruct H as (Hs & Hc & Hps & Hrc).
    assert (Hp' : pipelines c !! source l = Some p)
      by (rewrite Hs, Hps; exact Hp).
    assert (H : source (fst (enable_attribute a l c)) = source l
                /\ copy (fst (enable_attribute a l c)) = copy l
                /\ pipelines (snd (enable_attribute a l c)) = pipelines c
                /\ ref_counts (snd (enable_attribute a l c))
                   = ref_counts c).
    { destruct (is_color_attribute a) eqn:E.
      - apply is_color_attribute_spec in E.
        destruct (enable_attribute_color_blending a l c p E Hp' Hb)
          as (? & ? & _ & ? & ?); auto.
      - apply is_color_attribute_false in E.
        destruct (enable_attribute_not_color a l c E)
          as (? & ? & _ & ? & ?); auto. }
    destruct H as (Hs' & Hc' & Hps' & Hrc').
    unfold source_untouched. rewrite Hs', Hc', Hps', Hrc'. auto.
Qed.

Lemma same_world_refl c : same_world c c.
Proof. repeat split. Qed.

Lemma same_world_trans c1 c2 c3 :
  same_world c1 c2 -> same_world c2 c3 -> same_world c1 c3.
Proof.
  unfold same_world. intros H1 H2.
  decompose [and] H1. decompose [and] H2. repeat split; congruence.
Qed.

Lemma same_world_copy source : preserves same_world (cogl_pipeline_copy source).
Proof.
  intros ctx. unfold context_after, cogl_pipeline_copy.
  destruct (pipelines ctx !! source); repeat split.
Qed.

Lemma same_world_new : preserves same_world cogl_pipeline_new.
Proof. intros ctx. repeat split. Qed.

Lemma same_world_array_new n : preserves same_world (cogl_vertex_array_new n).
Proof. intros ctx. repeat split. Qed.

Ltac same_world_leaf :=
  first [ apply same_world_copy
        | apply same_world_new
        | apply same_world_array_new
        | lazymatch goal with
          | |- preserves _ (modify _) =>
              apply preserves_modify; intros ?; repeat split
          end ].

Ltac same_world_tac :=
  preserves_step same_world_refl same_world_trans ltac:(same_world_leaf).

Lemma enable_attribute_same_world a l :
  preserves same_world (enable_attribute a l).
Proof.
  unfold enable_attribute, _cogl_buffer_bind, _cogl_buffer_unbind, GE,
    _cogl_pipeline_get_real_blend_enabled, _cogl_pipeline_set_blend_enabled,
    update_pipeline, _cogl_bitmask_set.
  same_world_tac.
Qed.

Lemma for_each_enable_same_world attributes l :
  preserves same_world (for_each enable_attribute attributes l).
Proof.
  apply (preserves_for_each _ same_world_refl same_world_trans).
  intros a l'. apply enable_attribute_same_world.
Qed.

(** C4: when the source pipeline blends already, no override flag is
    pending and no legacy state is set, [enable_gl_state] returns the
    source pipeline itself and creates nothing: the pipelines and the
    reference counts of the context are what they were.  (This holds for
    every attribute set, with a colour or without.) *)
Theorem enable_gl_state_blending_source attributes state ctx src rest p :
  source_stack ctx = src :: rest ->
  pipelines ctx !! src = Some p ->
  real_blend_enable p = true ->
  existsb is_color_attribute attributes = true ->
  flags (state_options state) = 0 ->
  legacy_state_set ctx = false ->
  let r := enable_gl_state attributes state ctx in
  fst r = src
  /\ pipelines (snd r) = pipelines ctx
  /\ ref_counts (snd r) = ref_counts ctx.
Proof.
  intros Hst Hp Hb _ Hfl Hleg.
  unfold enable_gl_state. run_monad. cbv beta iota. rewrite Hst. cbn [hd].
  match goal with
  | |- context [for_each enable_attribute attributes ?l ?c] =>
      pose proof (for_each_keeps_untouched src ctx p attributes Hp Hb l c)
        as Hinv;
      pose proof (for_each_enable_same_world attributes l c) as Hw;
      unfold context_after in Hw;
      destruct (for_each enable_attribute attributes l c) as [l' c']
  end.
  cbn [fst snd] in Hinv, Hw.
  destruct Hinv as (Hs & Hc & Hps & Hrc); [repeat split|].
  destruct Hw as (_ & _ & _ & Hl & _). cbn in Hl.
  rewrite Hfl. cbn. rewrite Hl, Hleg. cbn. auto.
Qed.

Lemma enable_gl_state_blending_source_witness :
  let attributes :=
    [sample_attribute "cogl_position_in"
       COGL_VERTEX_ATTRIBUTE_NAME_ID_POSITION_ARRAY 3;
     sample_attribute "cogl_color_in"
       COGL_VERTEX_ATTRIBUTE_NAME_ID_COLOR_ARRAY 4] in
  fst (enable_gl_state attributes initial_state (sample_context true))
  = 2%nat.
Proof.
  intros attributes.
  exact (proj1 (enable_gl_state_blending_source attributes initial_state
                  (sample_context true) 2%nat [] (sample_pipeline true)
                  eq_refl eq_refl eq_refl eq_refl eq_refl eq_refl)).
Defined.

(** C3: when the source pipeline does not blend and the attribute set
    has a colour, [enable_gl_state] returns a pipeline that is not the
    source: an object the context did not have before, with blending on;
    the source pipeline, like every pipeline the context had, is what it
    was. *)
Theorem enable_gl_state_derives_blending attributes state ctx src rest p :
  source_stack ctx = src :: rest ->
  pipelines ctx !! src = Some p ->
  real_blend_enable p = false ->
  existsb is_color_attribute attributes = true ->
  let r := enable_gl_state attributes state ctx in
  fst r <> src
  /\ pipelines ctx !! fst r = None
  /\ (exists q, pipelines (snd r) !! fst r = Some q
               /\ real_blend_enable q = true)
  /\ pipelines (snd r) !! src = Some p
  /\ (forall h, h <> fst r -> pipelines (snd r) !! h = pipelines ctx !! h).
Proof.
  intros Hst Hp Hb Hcol.
  unfold enable_gl_state. run_monad. cbv beta iota. rewrite Hst. cbn [hd].
  match goal with
  | |- context [for_each enable_attribute attributes ?l ?c] =>
      pose proof (for_each_derives src ctx p attributes Hp Hb l c) as Hinv;
      destruct (for_each enable_attribute attributes l c) as [l' c']
  end.
  cbv zeta in Hinv. rewrite Hcol in Hinv. cbn [fst snd] in Hinv.
  destruct Hinv as (Hc & Hs & Hi & Hn & Hf & q & Hq & Hqb);
    [repeat split|].
  apply Nat.eqb_neq in Hi as Hi'. rewrite Hc, Hi'.
  assert (Hsrc : pipelines c' !! src = Some p)
    by (rewrite Hf by congruence; exact Hp).
  destruct (negb (flags (state_options state) =? 0)); cbn;
    rewrite ?Hi', ?Hq; cbn;
    match goal with
    | |- context [if legacy_state_set ?c then _ else _] =>
        destruct (legacy_state_set c)
    end; cbn; rewrite ?Hi', ?Hq, ?lookup_insert_eq; cbn;
    (split; [exact Hs|]); (split; [exact Hn|]);
    (split; [eexists; split; [reflexivity | exact Hqb]|]);
    (split; [rewrite ?lookup_insert_ne by congruence; exact Hsrc|]);
    intros h Hh; rewrite ?lookup_insert_ne by congruence; now apply Hf.
Qed.

Lemma enable_gl_state_derives_blending_witness :
  let attributes :=
    [sample_attribute "cogl_position_in"
       COGL_VERTEX_ATTRIBUTE_NAME_ID_POSITION_ARRAY 3;
     sample_attribute "cogl_color_in"
       COGL_VERTEX_ATTRIBUTE_NAME_ID_COLOR_ARRAY 4] in
  fst (enable_gl_state attributes initial_state (sample_context false))
  <> 2%nat.
Proof.
  intros attributes.
  exact (proj1 (enable_gl_state_derives_blending attributes initial_state
                  (sample_context false) 2%nat [] (sample_pipeline false)
                  eq_refl eq_refl eq_refl eq_refl)).
Defined.

(** ** Flushing the vertex state: the generic channels *)

Lemma enable_attribute_generic_channels a l c :
  let r := enable_attribute a l c in
  omap generic_channel_of (trace (snd r))
  = rev (custom_channels (generic_index l) [a])
    ++ omap generic_channel_of (trace c)
  /\ generic_index (fst r)
     = if is_custom_attribute a then wrap_u32 (generic_index l + 1)
       else generic_index l.
Proof.
  unfold enable_attribute, is_custom_attribute, custom_channels. run_monad.
  unfold is_custom_attribute.
  destruct (name_id a); cbn; try (split; reflexivity).
  destruct (pipelines c !! source l) as [p|] eqn:E; cbn;
    [destruct (real_blend_enable p); cbn|]; rewrite ?E; cbn;
    split; reflexivity.
Qed.

Lemma custom_channels_cons k a rest :
  custom_channels k (a :: rest)
  = custom_channels k [a]
    ++ custom_channels
         (if is_custom_attribute a then wrap_u32 (k + 1) else k) rest.
Proof. cbn. destruct (is_custom_attribute a); reflexivity. Qed.

Lemma for_each_enable_generic_channels attributes :
  forall l c,
    omap generic_channel_of
      (trace (snd (for_each enable_attribute attributes l c)))
    = rev (custom_channels (generic_index l) attributes)
      ++ omap generic_channel_of (trace c).
Proof.
  induction attributes as [|a rest IH]; intros l c; cbn [for_each].
  - reflexivity.
  - rewrite run_bind, IH.
    destruct (enable_attribute_generic_channels a l c) as (Ht & Hg).
    rewrite Ht, Hg, (custom_channels_cons _ a rest), rev_app_distr.
    now rewrite app_assoc.
Qed.

(** The generic channels that [enable_gl_state] touches, for every
    attribute set: the CUSTOM attribute that finds the counter at [k]
    enables channel [k] and sets the pointer of channel [k + 1]. *)
Lemma enable_gl_state_generic_channels attributes state ctx :
  selected generic_channel_of (snd (enable_gl_state attributes state ctx))
  = selected generic_channel_of ctx ++ custom_channels 0 attributes.
Proof.
  unfold selected, enable_gl_state. run_monad. cbv beta iota.
  match goal with
  | |- context [for_each enable_attribute attributes ?l ?c] =>
      pose proof (for_each_enable_generic_channels attributes l c) as H;
      destruct (for_each enable_attribute attributes l c) as [l' c']
  end.
  cbn [snd generic_index trace set_temp_bitmask] in H.
  destruct (negb (flags (state_options state) =? 0)); cbn;
    repeat match goal with
           | |- context [if ?b then _ else _] => destruct b; cbn
           | |- context [match ?o with Some _ => _ | None => _ end] =>
               destruct o; cbn
           end;
    rewrite H, rev_app_distr, rev_involutive; reflexivity.
Qed.

(** C2, on the code: for a set of one CUSTOM attribute, the channel
    enabled is 0 and the channel whose pointer is set is 1. *)
Theorem custom_attribute_pointer_channel :
  selected generic_channel_of
    (snd (enable_gl_state [sample_custom] initial_state
            (sample_context true)))
  = [enables 0; points 1].
Proof.
  rewrite enable_gl_state_generic_channels. reflexivity.
Qed.

(** ** What the steps of a draw add to the trace *)

Lemma adds_none_refl {B : Type} (f : call -> option B) c : adds_none f c c.
Proof. split; [apply same_world_refl | reflexivity]. Qed.

Lemma adds_none_trans {B : Type} (f : call -> option B) c1 c2 c3 :
  adds_none f c1 c2 -> adds_none f c2 c3 -> adds_none f c1 c3.
Proof.
  intros [W1 T1] [W2 T2].
  split; [eapply same_world_trans; eassumption | congruence].
Qed.

Lemma adds_none_GE {B : Type} (f : call -> option B) c :
  f c = None -> preserves (adds_none f) (GE c).
Proof.
  intros Hc ctx. split; [repeat split|]. cbn. now rewrite Hc.
Qed.

Lemma adds_none_copy {B : Type} (f : call -> option B) source :
  preserves (adds_none f) (cogl_pipeline_copy source).
Proof.
  intros ctx. split; [apply same_world_copy|].
  unfold context_after, cogl_pipeline_copy.
  destruct (pipelines ctx !! source); reflexivity.
Qed.

Lemma adds_none_selected {B : Type} (f : call -> option B) c c' :
  adds_none f c c' -> selected f c' = selected f c.
Proof. intros [_ H]. unfold selected. now rewrite H. Qed.

Lemma same_wireframe_flag_refl c : same_wireframe_flag c c.
Proof. reflexivity. Qed.

Lemma same_wireframe_flag_trans c1 c2 c3 :
  same_wireframe_flag c1 c2 -> same_wireframe_flag c2 c3 ->
  same_wireframe_flag c1 c3.
Proof. unfold same_wireframe_flag. congruence. Qed.

Lemma same_wireframe_flag_copy source :
  preserves same_wireframe_flag (cogl_pipeline_copy source).
Proof.
  intros ctx. unfold same_wireframe_flag, context_after, cogl_pipeline_copy.
  destruct (pipelines ctx !! source); reflexivity.
Qed.

(** Unfolds the functions of the file down to [bind], [get], [modify],
    [GE] and the loops. *)
Ltac unfold_steps :=
  unfold enable_gl_state, disable_gl_state, enable_attribute,
    disable_attribute, get_wire_lines, cogl_vertex_attribute_new,
    validate_cogl_attribute, _cogl_vertex_attribute_free,
    cogl_buffer_map, cogl_buffer_unmap, _cogl_buffer_bind,
    _cogl_buffer_unbind, _cogl_pipeline_get_real_blend_enabled,
    _cogl_pipeline_set_blend_enabled, _cogl_pipeline_apply_overrides,
    _cogl_pipeline_apply_legacy_state, _cogl_pipeline_flush_gl_state,
    _cogl_disable_other_texcoord_arrays, _cogl_enable,
    _cogl_flush_face_winding, _cogl_bitmask_set, _cogl_bitmask_clear_all,
    cogl_get_source, cogl_push_source, cogl_pop_source,
    cogl_pipeline_set_color4ub, update_pipeline, cogl_object_unref,
    cogl_object_ref, g_warning, g_critical.

Section NoDraw.
Context {B : Type} (f : call -> option B).
Hypothesis f_draws : forall c, is_draw_call c = false -> f c = None.

Ltac no_draw_leaf :=
  first [ apply adds_none_copy
        | lazymatch goal with
          | |- preserves _ (GE _) =>
              apply adds_none_GE; apply f_draws; reflexivity
          | |- preserves _ (modify _) =>
              apply preserves_modify; intros ?; repeat split
          | |- preserves _ cogl_pipeline_new =>
              intros ?; repeat split
          | |- preserves _ (cogl_vertex_array_new _) =>
              intros ?; repeat split
          end ].

Ltac no_draw_tac :=
  preserves_step (adds_none_refl f) (adds_none_trans f) ltac:(no_draw_leaf).

Lemma enable_gl_state_adds_no_draw attributes state :
  preserves (adds_none f) (enable_gl_state attributes state).
Proof. unfold_steps. no_draw_tac. Qed.

Lemma disable_gl_state_adds_no_draw attributes source :
  preserves (adds_none f) (disable_gl_state attributes source).
Proof. unfold_steps. no_draw_tac. Qed.

Lemma get_wire_lines_adds_no_draw attribute mode n indices :
  preserves (adds_none f) (get_wire_lines attribute mode n indices).
Proof. unfold_steps. cbv zeta. no_draw_tac. Qed.

Lemma cogl_vertex_attribute_new_adds_no_draw array name stride offset n t :
  preserves (adds_none f)
    (cogl_vertex_attribute_new array name stride offset n t).
Proof. unfold_steps. cbv zeta. no_draw_tac. Qed.

Lemma validate_layer_cb_adds_no_draw pipeline layer_index state :
  preserves (adds_none f) (validate_layer_cb pipeline layer_index state).
Proof.
  unfold validate_layer_cb, _cogl_pipeline_get_layer_texture,
    _cogl_texture_ensure_non_quad_rendering,
    _cogl_pipeline_pre_paint_for_layer, _cogl_texture_can_hardware_repeat,
    g_warning.
  no_draw_tac.
Qed.

Lemma foreach_validate_adds_no_draw pipeline layer_indices :
  forall state,
    preserves (adds_none f)
      (foreach_layer_index validate_layer_cb pipeline layer_indices state).
Proof.
  induction layer_indices as [|layer_index rest IH]; intros state;
    cbn [foreach_layer_index].
  - apply (preserves_ret _ (adds_none_refl f)).
  - apply (preserves_bind _ (adds_none_trans f));
      [apply validate_layer_cb_adds_no_draw | intros r].
    destruct (fst r); [apply IH | apply (preserves_ret _ (adds_none_refl f))].
Qed.

Lemma cogl_pipeline_foreach_layer_adds_no_draw pipeline state :
  preserves (adds_none f)
    (cogl_pipeline_foreach_layer pipeline validate_layer_cb state).
Proof.
  unfold cogl_pipeline_foreach_layer.
  apply (preserves_bind _ (adds_none_trans f));
    [apply (preserves_get _ (adds_none_refl f)) | intros ps].
  destruct (ps !! pipeline);
    [apply foreach_validate_adds_no_draw
    | apply (preserves_ret _ (adds_none_refl f))].
Qed.

(** [draw_wireframe] adds what its nested draw adds. *)
Lemma draw_wireframe_adds_no_draw draw_array mode first n attributes indices :
  (forall mode first n attributes,
     preserves (adds_none f) (draw_array mode first n attributes)) ->
  preserves (adds_none f)
    (draw_wireframe draw_array mode first n attributes indices).
Proof.
  intros Hdraw. unfold draw_wireframe.
  preserves_step (adds_none_refl f) (adds_none_trans f)
    ltac:(first [ apply get_wire_lines_adds_no_draw
                | apply cogl_vertex_attribute_new_adds_no_draw
                | apply Hdraw
                | progress unfold_steps
                | no_draw_leaf ]).
Qed.
End NoDraw.

(** ** The indexed draw *)

Lemma draw_elements_of_draws c :
  is_draw_call c = false -> draw_elements_of c = None.
Proof. destruct c; cbn; congruence. Qed.

Lemma draw_arrays_of_draws c :
  is_draw_call c = false -> draw_arrays_of c = None.
Proof. destruct c; cbn; congruence. Qed.

Lemma draw_array_adds_no_draw_elements nesting :
  forall mode first n attributes state,
    preserves (adds_none draw_elements_of)
      (_cogl_draw_vertex_attributes_array_real nesting mode first n
         attributes state).
Proof.
  induction nesting as [|nesting IH]; intros mode first n attributes state;
    cbn [_cogl_draw_vertex_attributes_array_real];
    preserves_step (adds_none_refl draw_elements_of)
      (adds_none_trans draw_elements_of)
      ltac:(first
        [ apply (enable_gl_state_adds_no_draw _ draw_elements_of_draws)
        | apply (disable_gl_state_adds_no_draw _ draw_elements_of_draws)
        | apply (draw_wireframe_adds_no_draw _ draw_elements_of_draws);
            intros; apply IH
        | lazymatch goal with
          | |- preserves _ (GE _) => apply adds_none_GE; reflexivity
          end ]).
Qed.

(** Pointer arithmetic in [size_t]: the sum, reduced once. *)
Lemma index_pointer_wrap base array_offset index_size first_vertex :
  pointer_add (pointer_add base (wrap_size_t array_offset))
    (wrap_size_t (index_size * wrap_size_t first_vertex))
  = wrap_size_t (base + array_offset + index_size * first_vertex).
Proof.
  unfold pointer_add, wrap_size_t.
  rewrite Zplus_mod_idemp_l, Zplus_mod_idemp_r.
  set (M := 2 ^ size_t_bits).
  assert (HM : M <> 0) by (unfold M, size_t_bits; lia).
  rewrite (Z.mod_eq array_offset M), (Z.mod_eq first_vertex M) by exact HM.
  replace (base + (array_offset - M * (array_offset / M))
           + index_size * (first_vertex - M * (first_vertex / M)))
    with (base + array_offset + index_size * first_vertex
          + (- (array_offset / M) - index_size * (first_vertex / M)) * M)
    by ring.
  apply Z_mod_plus_full.
Qed.

(** The one [glDrawElements] call of the indexed draw, with the pointer
    as [size_t] arithmetic gives it. *)
Lemma indexed_draw_elements mode first_vertex n_vertices indices attributes
    state ctx :
  selected draw_elements_of
    (context_after
       (_cogl_draw_indexed_vertex_attributes_array_real mode first_vertex
          n_vertices indices attributes state) ctx)
  = selected draw_elements_of ctx
    ++ [(mode, n_vertices, gl_indices_type (indices_type indices),
         wrap_size_t
           (buffer_base ctx (indices_array indices) + indices_offset indices
            + sizeof_index_type (indices_type indices) * first_vertex))].
Proof.
  unfold _cogl_draw_indexed_vertex_attributes_array_real.
  rewrite context_bind.
  pose proof (enable_gl_state_adds_no_draw _ draw_elements_of_draws
                attributes state ctx) as [Hw1 Ht1].
  set (c1 := context_after (enable_gl_state attributes state) ctx) in *.
  cbv zeta. rewrite context_bind.
  unfold cogl_indices_get_array, cogl_indices_get_offset,
    cogl_indices_get_type.
  assert (Hbase : result_of
                    (_cogl_buffer_bind (indices_array indices)
                       COGL_BUFFER_BIND_TARGET_INDEX_ARRAY) c1
                  = buffer_base ctx (indices_array indices)).
  { destruct Hw1 as (Hb & _). unfold _cogl_buffer_bind.
    rewrite result_bind. cbn. now rewrite Hb. }
  rewrite Hbase, index_pointer_wrap.
  set (c2 := context_after (_cogl_buffer_bind _ _) c1).
  assert (Ht2 : omap draw_elements_of (trace c2)
                = omap draw_elements_of (trace ctx))
    by (rewrite <- Ht1; reflexivity).
  rewrite context_bind.
  set (call := glDrawElements _ _ _ _).
  set (c3 := context_after (GE call) c2).
  match goal with
  | |- selected _ (context_after ?m c3) = _ =>
      assert (Hrest : preserves (adds_none draw_elements_of) m)
  end.
  { preserves_step (adds_none_refl draw_elements_of)
      (adds_none_trans draw_elements_of)
      ltac:(first
        [ apply (disable_gl_state_adds_no_draw _ draw_elements_of_draws)
        | apply (draw_wireframe_adds_no_draw _ draw_elements_of_draws);
            intros; apply draw_array_adds_no_draw_elements
        | lazymatch goal with
          | |- preserves _ (_cogl_buffer_unbind _) =>
              apply adds_none_GE; reflexivity
          end ]). }
  rewrite (adds_none_selected _ _ _ (Hrest c3)).
  unfold selected, c3, call. cbn [context_after GE modify snd trace
    set_trace omap list_omap draw_elements_of].
  rewrite Ht2. reflexivity.
Qed.

(** What the public entry point does before it draws adds no draw and
    leaves the buffers where they are. *)
Lemma indexed_draw_preparation :
  preserves (adds_none draw_elements_of)
    (_cogl_journal_flush;;;
     current <- cogl_get_source;;
     state <- cogl_pipeline_foreach_layer current validate_layer_cb
                initial_state;;
     _cogl_framebuffer_flush_state;;;
     ret state).
Proof.
  preserves_step (adds_none_refl draw_elements_of)
    (adds_none_trans draw_elements_of)
    ltac:(first
      [ apply (cogl_pipeline_foreach_layer_adds_no_draw _
                 draw_elements_of_draws)
      | lazymatch goal with
        | |- preserves _ _cogl_journal_flush =>
            apply adds_none_GE; reflexivity
        | |- preserves _ _cogl_framebuffer_flush_state =>
            apply adds_none_GE; reflexivity
        | |- preserves _ cogl_get_source =>
            apply (preserves_get _ (adds_none_refl draw_elements_of))
        end ]).
Qed.

Lemma cogl_draw_indexed_vertex_attributes_array_steps mode first_vertex
    n_vertices indices attributes ctx :
  let prepare :=
    _cogl_journal_flush;;;
    current <- cogl_get_source;;
    state <- cogl_pipeline_foreach_layer current validate_layer_cb
               initial_state;;
    _cogl_framebuffer_flush_state;;;
    ret state in
  context_after
    (cogl_draw_indexed_vertex_attributes_array mode first_vertex n_vertices
       indices attributes) ctx
  = context_after
      (_cogl_draw_indexed_vertex_attributes_array_real mode first_vertex
         n_vertices indices attributes (result_of prepare ctx))
      (context_after prepare ctx).
Proof.
  cbv zeta. unfold cogl_draw_indexed_vertex_attributes_array.
  repeat (rewrite context_bind || rewrite result_bind). reflexivity.
Qed.

(** C6: every indexed draw, through the public entry point, the internal
    one or directly, makes exactly one [glDrawElements] call; the pointer
    it passes is the base of the index array (where the buffer is bound,
    plus the offset of the indices) plus the width of an index times
    [first_vertex], computed in [size_t], hence that very sum when it
    fits; the width is 1, 2 or 4 bytes for byte, short and int
    indices. *)
Theorem indexed_draw_byte_offset mode first_vertex n_vertices indices
    attributes state ctx :
  let base :=
    buffer_base ctx (indices_array indices) + indices_offset indices in
  let element_width := sizeof_index_type (indices_type indices) in
  let drawn m :=
    selected draw_elements_of (context_after m ctx)
    = selected draw_elements_of ctx
      ++ [(mode, n_vertices, gl_indices_type (indices_type indices),
           base + element_width * first_vertex)] in
  0 <= base + element_width * first_vertex < 2 ^ size_t_bits ->
  drawn (_cogl_draw_indexed_vertex_attributes_array_real mode first_vertex
           n_vertices indices attributes state)
  /\ drawn (_cogl_draw_indexed_vertex_attributes_array mode first_vertex
              n_vertices indices attributes)
  /\ drawn (cogl_draw_indexed_vertex_attributes_array mode first_vertex
              n_vertices indices attributes)
  /\ drawn (cogl_draw_indexed_vertex_attributes mode first_vertex
              n_vertices indices attributes)
  /\ element_width
     = match indices_type indices with
       | COGL_INDICES_TYPE_UNSIGNED_BYTE => 1
       | COGL_INDICES_TYPE_UNSIGNED_SHORT => 2
       | COGL_INDICES_TYPE_UNSIGNED_INT => 4
       end.
Proof.
  intros base element_width drawn Hrange.
  assert (Hfit : wrap_size_t (base + element_width * first_vertex)
                 = base + element_width * first_vertex)
    by (apply Z.mod_small; exact Hrange).
  assert (Hpublic :
            drawn (cogl_draw_indexed_vertex_attributes_array mode
                     first_vertex n_vertices indices attributes)).
  { unfold drawn.
    rewrite cogl_draw_indexed_vertex_attributes_array_steps. cbv zeta.
    destruct (indexed_draw_preparation ctx) as [(Hb & _) Ht].
    rewrite indexed_draw_elements. unfold selected.
    rewrite Ht, Hb. fold base element_width. now rewrite Hfit. }
  split; [|split; [|split; [|split]]].
  - unfold drawn. rewrite indexed_draw_elements.
    fold base element_width. now rewrite Hfit.
  - unfold drawn, _cogl_draw_indexed_vertex_attributes_array.
    rewrite indexed_draw_elements. fold base element_width.
    now rewrite Hfit.
  - exact Hpublic.
  - exact Hpublic.
  - reflexivity.
Qed.

Lemma indexed_draw_byte_offset_witness :
  selected draw_elements_of
    (context_after
       (_cogl_draw_indexed_vertex_attributes_array_real
          COGL_VERTICES_MODE_TRIANGLES 3 6 sample_indices [sample_position]
          initial_state) (sample_context true))
  = [(COGL_VERTICES_MODE_TRIANGLES, 6, GL_UNSIGNED_SHORT, 12)].
Proof.
  refine (proj1 (indexed_draw_byte_offset COGL_VERTICES_MODE_TRIANGLES 3 6
                   sample_indices [sample_position] initial_state
                   (sample_context true) _)).
  vm_compute. split; [intros H; discriminate H | reflexivity].
Defined.

(** ** The wireframe *)

(** The loop bound is enough: the loop ends because its condition fails,
    not because the bound is used up. *)
Lemma for_loop_upto_exits {L : Type} (body : Z -> L -> L) limit step :
  1 <= step -> limit + step <= 2 ^ 31 ->
  forall bound i locals,
    - 2 ^ 31 <= i -> (Z.to_nat (limit - i) <= bound)%nat ->
    limit <= fst (for_loop_upto bound i limit step body locals).
Proof.
  intros Hstep Hlimit. induction bound as [|bound IH]; intros i locals Hi Hb.
  - cbn. lia.
  - cbn [for_loop_upto]. destruct (Z.ltb_spec i limit); [|cbn; lia].
    assert (Hw : wrap_int (i + step) = i + step)
      by (apply wrap_int_small; lia).
    apply IH; rewrite Hw; lia.
Qed.

Lemma add_line_count vertices indices indices_type attribute start end_ w :
  n_line_vertices
    (add_line vertices indices indices_type attribute start end_ w)
  = wrap_int (n_line_vertices w + 2).
Proof.
  unfold add_line.
  destruct (add_line_vertex _ _ _ _ (lines w)) as [o out].
  destruct (add_line_vertex _ _ _ _ out) as [o' out'].
  reflexivity.
Qed.

Lemma get_wire_lines_unsupported ctx attribute mode n indices :
  wireframe_supported mode n = false ->
  result_of (get_wire_lines attribute mode n indices) ctx = (None, 0).
Proof.
  intros H. unfold get_wire_lines, result_of, cogl_buffer_map,
    cogl_buffer_unmap, GE. unfold bind, get, modify, ret.
  destruct indices as [ix|]; cbv beta iota zeta;
    destruct mode; cbn [wireframe_supported] in H; rewrite ?H;
    reflexivity.
Qed.

Lemma get_wire_lines_triangles_6 ctx attribute indices :
  n_vertices_out ctx attribute COGL_VERTICES_MODE_TRIANGLES 6 indices = 12.
Proof.
  unfold n_vertices_out, get_wire_lines, result_of, cogl_buffer_map,
    cogl_buffer_unmap, GE. unfold bind, get, modify, ret.
  destruct indices as [ix|]; cbv -[add_line n_line_vertices];
    rewrite !add_line_count; reflexivity.
Qed.

Lemma get_wire_lines_fan_5 ctx attribute indices :
  n_vertices_out ctx attribute COGL_VERTICES_MODE_TRIANGLE_FAN 5 indices
  = 14.
Proof.
  unfold n_vertices_out, get_wire_lines, result_of, cogl_buffer_map,
    cogl_buffer_unmap, GE. unfold bind, get, modify, ret.
  destruct indices as [ix|]; cbv -[add_line n_line_vertices];
    rewrite !add_line_count; reflexivity.
Qed.

Ltac same_flag_tac :=
  preserves_step same_wireframe_flag_refl same_wireframe_flag_trans
    ltac:(first
      [ apply same_wireframe_flag_copy
      | lazymatch goal with
        | |- preserves _ (GE _) => intros ?; reflexivity
        | |- preserves _ (modify _) => intros ?; reflexivity
        end ]).

Lemma enable_gl_state_same_flag attributes state :
  preserves same_wireframe_flag (enable_gl_state attributes state).
Proof. unfold_steps. same_flag_tac. Qed.

Lemma disable_gl_state_same_flag attributes source :
  preserves same_wireframe_flag (disable_gl_state attributes source).
Proof. unfold_steps. same_flag_tac. Qed.

(** With the wireframe flag down, a draw is one [glDrawArrays] call, at
    any depth of nesting: the depth is not consulted. *)
Lemma draw_array_without_wireframe nesting mode first n attributes state c :
  debug_wireframe c = false ->
  let c' :=
    context_after
      (_cogl_draw_vertex_attributes_array_real nesting mode first n
         attributes state) c in
  omap draw_arrays_of (trace c')
  = (mode, first, n) :: omap draw_arrays_of (trace c)
  /\ same_world c c'
  /\ debug_wireframe c' = false
  /\ c' = context_after
            (_cogl_draw_vertex_attributes_array_real 0 mode first n
               attributes state) c.
Proof.
  intros Hflag.
  assert (Hsame : forall k,
            context_after
              (_cogl_draw_vertex_attributes_array_real k mode first n
                 attributes state) c
            = context_after
                (disable_gl_state attributes
                   (result_of (enable_gl_state attributes state) c))
                (context_after (GE (glDrawArrays mode first n))
                   (context_after (enable_gl_state attributes state) c))).
  { intros k.
    pose proof (enable_gl_state_same_flag attributes state c) as F1.
    set (c1 := context_after (enable_gl_state attributes state) c) in *.
    set (c2 := context_after (GE (glDrawArrays mode first n)) c1).
    pose proof (disable_gl_state_same_flag attributes
                  (result_of (enable_gl_state attributes state) c) c2) as F3.
    set (c3 := context_after (disable_gl_state _ _) c2) in *.
    assert (F : debug_wireframe c3 = false).
    { unfold same_wireframe_flag in F1, F3. rewrite F3. unfold c2. cbn.
      now rewrite F1. }
    destruct k; cbn [_cogl_draw_vertex_attributes_array_real];
      rewrite !context_bind; fold c1; fold c2; fold c3;
      unfold result_of at 1; cbn [get fst]; rewrite F; reflexivity. }
  cbv zeta. rewrite (Hsame nesting), (Hsame O).
  pose proof (enable_gl_state_adds_no_draw _ draw_arrays_of_draws
                attributes state c) as [W1 T1].
  pose proof (enable_gl_state_same_flag attributes state c) as F1.
  set (c1 := context_after (enable_gl_state attributes state) c) in *.
  set (c2 := context_after (GE (glDrawArrays mode first n)) c1).
  pose proof (disable_gl_state_adds_no_draw _ draw_arrays_of_draws
                attributes
                (result_of (enable_gl_state attributes state) c) c2)
    as [W3 T3].
  pose proof (disable_gl_state_same_flag attributes
                (result_of (enable_gl_state attributes state) c) c2) as F3.
  set (c3 := context_after (disable_gl_state _ _) c2) in *.
  split; [|split; [|split]].
  - rewrite T3. unfold c2. cbn. now rewrite T1.
  - eapply same_world_trans; [exact W1|].
    eapply same_world_trans; [|exact W3]. repeat split.
  - unfold same_wireframe_flag in F1, F3. rewrite F3. unfold c2. cbn.
    now rewrite F1.
  - reflexivity.
Qed.

Lemma draws_overlay_bind ctx0 overlay {A B : Type} (m : M A)
    (k : A -> M B) :
  preserves (adds_none draw_arrays_of) m ->
  (forall a, draws_overlay ctx0 overlay (k a)) ->
  draws_overlay ctx0 overlay (bind m k).
Proof.
  intros Hm Hk c Hc. rewrite context_bind. apply Hk.
  eapply adds_none_trans; [exact Hc | apply Hm].
Qed.

Ltac quiet_leaf :=
  first [ apply adds_none_copy
        | apply (cogl_vertex_attribute_new_adds_no_draw _
                   draw_arrays_of_draws)
        | lazymatch goal with
          | |- preserves _ (GE _) => apply adds_none_GE; reflexivity
          | |- preserves _ (modify _) =>
              apply preserves_modify; intros ?; repeat split
          | |- preserves _ cogl_pipeline_new => intros ?; repeat split
          | |- preserves _ (cogl_vertex_array_new _) =>
              intros ?; repeat split
          end
        | progress unfold_steps ].

Ltac quiet_tac :=
  preserves_step (adds_none_refl draw_arrays_of)
    (adds_none_trans draw_arrays_of) ltac:(quiet_leaf).

(** The overlay: when the attributes have a position, [draw_wireframe]
    makes one draw, of the line vertices that [get_wire_lines] counted,
    however few; without a position it does nothing. *)
Lemma draw_wireframe_overlay ctx mode first n attributes indices :
  let ctx' :=
    context_after
      (draw_wireframe _cogl_draw_vertex_attributes_array mode first n
         attributes indices) ctx in
  match position_attribute attributes with
  | Some position =>
      selected draw_arrays_of ctx'
      = selected draw_arrays_of ctx
        ++ [(COGL_VERTICES_MODE_LINES, 0,
             n_vertices_out ctx position mode n indices)]
  | None => ctx' = ctx
  end.
Proof.
  cbv zeta. unfold draw_wireframe.
  change (List.find _ attributes) with (position_attribute attributes).
  destruct (position_attribute attributes) as [position|]; [|reflexivity].
  rewrite context_bind. fold (n_vertices_out ctx position mode n indices).
  change (snd (result_of (get_wire_lines position mode n indices) ctx))
    with (n_vertices_out ctx position mode n indices).
  set (k := n_vertices_out ctx position mode n indices).
  pose proof (get_wire_lines_adds_no_draw _ draw_arrays_of_draws
                position mode n indices ctx) as H1.
  revert H1. generalize (context_after
                           (get_wire_lines position mode n indices) ctx).
  cbv zeta.
  match goal with
  | |- forall c, _ -> selected _ (context_after ?m c) = _ ++ ?o =>
      change (draws_overlay ctx o m)
  end.
  do 6 (apply draws_overlay_bind; [quiet_tac | intros ?]).
  intros c Hc. rewrite context_bind.
  set (c1 := context_after (modify (set_debug_wireframe false)) c).
  assert (H1 : adds_none draw_arrays_of ctx c1).
  { eapply adds_none_trans; [exact Hc|]. repeat split. }
  rewrite context_bind.
  destruct (draw_array_without_wireframe wireframe_nesting
              COGL_VERTICES_MODE_LINES 0 k (option_list a0) initial_state
              c1 eq_refl) as (T2 & W2 & _).
  change (_cogl_draw_vertex_attributes_array COGL_VERTICES_MODE_LINES 0 k
            (option_list a0))
    with (_cogl_draw_vertex_attributes_array_real wireframe_nesting
            COGL_VERTICES_MODE_LINES 0 k (option_list a0) initial_state).
  set (c2 := context_after
               (_cogl_draw_vertex_attributes_array_real _ _ _ _ _ _) c1)
    in *.
  match goal with
  | |- selected _ (context_after ?m c2) = _ =>
      assert (Hrest : preserves (adds_none draw_arrays_of) m) by quiet_tac
  end.
  rewrite (adds_none_selected _ _ _ (Hrest c2)).
  unfold selected. rewrite T2. cbn [rev].
  destruct H1 as [_ T1]. now rewrite T1.
Qed.

(** C7, as stated, fails on the code: a 5-vertex TRIANGLES draw has no
    wireframe, yet with the wireframe flag set the draw is followed by
    an overlay draw, a [glDrawArrays] of lines over no vertices. *)
Lemma overlay_draw_without_segments :
  wireframe_supported COGL_VERTICES_MODE_TRIANGLES 5 = false
  /\ selected draw_arrays_of
       (context_after
          (cogl_draw_vertex_attributes_array COGL_VERTICES_MODE_TRIANGLES
             0 5 [sample_position]) sample_debug_context)
     = [(COGL_VERTICES_MODE_TRIANGLES, 0, 5);
        (COGL_VERTICES_MODE_LINES, 0, 0)].
Proof. split; vm_compute; reflexivity. Qed.

(** C7 (amended): the wireframe of a 6-vertex TRIANGLES draw has 6 line
    segments and that of a 5-vertex TRIANGLE_FAN has 7; for a topology
    that is not supported, or a vertex count that does not fit the
    topology, it has none, and the overlay draw that [draw_wireframe]
    makes all the same is one draw of lines over zero vertices. *)
Theorem wireframe_segments ctx attributes position indices mode first n :
  position_attribute attributes = Some position ->
  n_segments
    (n_vertices_out ctx position COGL_VERTICES_MODE_TRIANGLES 6 indices)
  = 6
  /\ n_segments
       (n_vertices_out ctx position COGL_VERTICES_MODE_TRIANGLE_FAN 5
          indices)
     = 7
  /\ (wireframe_supported mode n = false ->
      n_segments (n_vertices_out ctx position mode n indices) = 0
      /\ selected draw_arrays_of
           (context_after
              (draw_wireframe _cogl_draw_vertex_attributes_array mode first
                 n attributes indices) ctx)
         = selected draw_arrays_of ctx
           ++ [(COGL_VERTICES_MODE_LINES, 0, 0)]).
Proof.
  intros Hpos. split; [|split].
  - now rewrite get_wire_lines_triangles_6.
  - now rewrite get_wire_lines_fan_5.
  - intros Hmode.
    assert (H0 : n_vertices_out ctx position mode n indices = 0)
      by (unfold n_vertices_out;
          now rewrite (get_wire_lines_unsupported _ _ _ _ _ Hmode)).
    split; [now rewrite H0|].
    pose proof (draw_wireframe_overlay ctx mode first n attributes indices)
      as H.
    cbv zeta in H. rewrite Hpos, H0 in H. exact H.
Qed.

Lemma wireframe_segments_witness :
  n_segments
    (n_vertices_out sample_debug_context sample_position
       COGL_VERTICES_MODE_TRIANGLES 5 None)
  = 0
  /\ selected draw_arrays_of
       (context_after
          (draw_wireframe _cogl_draw_vertex_attributes_array
             COGL_VERTICES_MODE_TRIANGLES 0 5 [sample_position] None)
          sample_debug_context)
     = selected draw_arrays_of sample_debug_context
       ++ [(COGL_VERTICES_MODE_LINES, 0, 0)].
Proof.
  exact (proj2 (proj2 (wireframe_segments sample_debug_context
                         [sample_position] sample_position None
                         COGL_VERTICES_MODE_TRIANGLES 0 5 eq_refl))
           eq_refl).
Defined.

(** ** The depth of nesting *)

Lemma unit_run_eq (m m' : M unit) c :
  context_after m c = context_after m' c -> m c = m' c.
Proof.
  unfold context_after. destruct (m c) as [[] c1], (m' c) as [[] c2].
  cbn. now intros ->.
Qed.

(** The nested draw of [draw_wireframe] runs with the wireframe flag
    down: two draw functions that agree there give the same wireframe. *)
Lemma draw_wireframe_nested_draw draw_array draw_array' :
  (forall mode first n attributes c,
     debug_wireframe c = false ->
     draw_array mode first n attributes c
     = draw_array' mode first n attributes c) ->
  forall mode first n attributes indices ctx,
    draw_wireframe draw_array mode first n attributes indices ctx
    = draw_wireframe draw_array' mode first n attributes indices ctx.
Proof.
  intros Hagree mode first n attributes indices ctx.
  unfold draw_wireframe.
  destruct (List.find _ attributes) as [position|]; [|reflexivity].
  rewrite !run_bind. cbv zeta.
  repeat match goal with
         | |- (_ <- ?m;; _) ?c = (_ <- ?m;; _) ?c =>
             rewrite !(run_bind m); cbv beta
         | |- (?m;;; _) ?c = (?m;;; _) ?c =>
             rewrite !(run_bind m); cbv beta
         end.
  rewrite Hagree by reflexivity. reflexivity.
Qed.

(** One level of nesting is all a draw uses. *)
Lemma one_level_of_nesting nesting mode first n attributes state ctx :
  _cogl_draw_vertex_attributes_array_real (S nesting) mode first n
    attributes state ctx
  = _cogl_draw_vertex_attributes_array_real 1 mode first n attributes
      state ctx.
Proof.
  cbn [_cogl_draw_vertex_attributes_array_real].
  rewrite !(run_bind (enable_gl_state attributes state)).
  rewrite !(run_bind (GE _)). rewrite !(run_bind (disable_gl_state _ _)).
  rewrite !(run_bind (get _)).
  match goal with
  | |- (if ?b then _ else _) _ = _ => destruct b; [|reflexivity]
  end.
  apply draw_wireframe_nested_draw.
  intros mode' first' n' attributes' c Hc. apply unit_run_eq.
  destruct (draw_array_without_wireframe nesting mode' first' n'
              attributes' initial_state c Hc) as (_ & _ & _ & ->).
  reflexivity.
Qed.

(** ** The number of lines of a wireframe, in general *)

Lemma for_loop_upto_invariant {L : Type} (P : Z -> L -> Prop)
    (body : Z -> L -> L) limit step :
  (forall i l, i < limit -> P i l -> P (wrap_int (i + step)) (body i l)) ->
  forall bound i l,
    P i l ->
    P (fst (for_loop_upto bound i limit step body l))
      (snd (for_loop_upto bound i limit step body l)).
Proof.
  intros Hstep. induction bound as [|bound IH]; intros i l H; cbn.
  - exact H.
  - destruct (Z.ltb_spec i limit); [|exact H].
    apply IH. now apply Hstep.
Qed.

(** A loop from [first] that counts lines: [per_step] line vertices are
    added each time round, and the loop stops at [limit] exactly. *)
Lemma counting_loop body first limit step per_step (w : wire_lines) :
  1 <= step -> 0 <= first <= limit -> limit + step <= 2 ^ 31 ->
  (limit - first) mod step = 0 ->
  0 <= per_step ->
  0 <= n_line_vertices w ->
  n_line_vertices w + per_step * ((limit - first) / step) < 2 ^ 31 ->
  (forall i w',
     0 <= n_line_vertices w' -> n_line_vertices w' + per_step < 2 ^ 31 ->
     n_line_vertices (body i w') = n_line_vertices w' + per_step) ->
  n_line_vertices (snd (for_loop first limit step body w))
  = n_line_vertices w + per_step * ((limit - first) / step).
Proof.
  intros Hstep Hfirst Hlimit Hmod Hper Hw Hfit Hbody.
  unfold for_loop.
  set (P := fun i w' =>
              first <= i <= limit /\ (i - first) mod step = 0
              /\ n_line_vertices w'
                 = n_line_vertices w + per_step * ((i - first) / step)).
  assert (Hdiv : forall i, (i - first) mod step = 0 ->
                   (i + step - first) / step = (i - first) / step + 1).
  { intros i _. replace (i + step - first) with (i - first + 1 * step)
      by ring. apply Z.div_add. lia. }
  assert (Hinv : P (fst (for_loop_upto (loop_bound first limit) first limit
                           step body w))
                   (snd (for_loop_upto (loop_bound first limit) first limit
                           step body w))).
  { apply for_loop_upto_invariant.
    - intros i l Hi (Hr & Hm & Hn).
      assert (Hle : i + step <= limit).
      { assert (Hm' : (limit - i) mod step = 0).
        { replace (limit - i) with ((limit - first) - (i - first)) by ring.
          rewrite Zminus_mod, Hmod, Hm. reflexivity. }
        apply Z.mod_divide in Hm'; [|lia]. destruct Hm' as [q Hq].
        assert (0 < q) by nia.
        assert (step * 1 <= q * step) by nia. lia. }
      rewrite wrap_int_small by lia.
      assert (Hm2 : (i + step - first) mod step = 0).
      { replace (i + step - first) with (i - first + 1 * step) by ring.
        now rewrite Z.mod_add by lia. }
      assert (Hq : (i - first) / step + 1 <= (limit - first) / step).
      { rewrite <- (Hdiv i Hm). apply Z.div_le_mono; lia. }
      assert (Hq0 : 0 <= (i - first) / step) by (apply Z.div_pos; lia).
      assert (Hp : per_step * ((i - first) / step + 1)
                   <= per_step * ((limit - first) / step))
        by (apply Z.mul_le_mono_nonneg_l; lia).
      assert (Hp0 : 0 <= per_step * ((i - first) / step))
        by (apply Z.mul_nonneg_nonneg; lia).
      split; [lia|]. split; [exact Hm2|].
      rewrite Hbody, Hn, (Hdiv i Hm) by lia. ring.
    - unfold P. rewrite Z.sub_diag, Z.mod_0_l, Z.div_0_l by lia.
      split; [lia|]. split; [reflexivity | lia]. }
  pose proof (for_loop_upto_exits body limit step Hstep Hlimit
                (loop_bound first limit) first w) as Hexit.
  destruct Hinv as (Hr & _ & Hn).
  assert (Hend : fst (for_loop_upto (loop_bound first limit) first limit
                        step body w) = limit).
  { apply Z.le_antisymm; [apply Hr|]. apply Hexit; [lia|].
    unfold loop_bound. lia. }
  rewrite Hn, Hend. reflexivity.
Qed.

Lemma add_line_count_small vertices indices indices_type attribute start
    end_ w :
  0 <= n_line_vertices w -> n_line_vertices w + 2 < 2 ^ 31 ->
  n_line_vertices
    (add_line vertices indices indices_type attribute start end_ w)
  = n_line_vertices w + 2.
Proof.
  intros H0 H1. rewrite add_line_count. apply wrap_int_small. lia.
Qed.

Ltac count_lines :=
  repeat (rewrite add_line_count_small;
          [| repeat (rewrite add_line_count_small; try lia); lia
           | repeat (rewrite add_line_count_small; try lia); lia ]).

(** Three lines a triangle, four a quad, and [2 n - 3] lines for a fan
    or a strip of [n] vertices. *)
Lemma wire_lines_count ctx attribute mode n indices :
  0 <= n < 2 ^ 28 ->
  wireframe_supported mode n = true ->
  n_segments (n_vertices_out ctx attribute mode n indices)
  = match mode with
    | COGL_VERTICES_MODE_TRIANGLES | GL_QUADS => n
    | COGL_VERTICES_MODE_TRIANGLE_FAN
    | COGL_VERTICES_MODE_TRIANGLE_STRIP => 2 * n - 3
    | _ => 0
    end.
Proof.
  intros Hn Hmode.
  unfold n_segments, n_vertices_out, get_wire_lines, result_of,
    cogl_buffer_map, cogl_buffer_unmap, GE. unfold bind, get, modify, ret.
  destruct indices as [ix|]; cbv beta iota zeta;
    destruct mode; cbn [wireframe_supported] in Hmode; try discriminate;
    rewrite Hmode; cbn [fst snd].
  all: try (apply Z.eqb_eq in Hmode; rewrite Z.rem_mod_nonneg in Hmode
              by lia).
  all: try (apply Z.geb_le in Hmode).
  all: lazymatch goal with
       | |- context [for_loop 0 _ 3] =>
           rewrite counting_loop with (per_step := 6)
       | |- context [for_loop 0 _ 4] =>
           rewrite counting_loop with (per_step := 8)
       | |- _ => rewrite counting_loop with (per_step := 4)
       end.
  all: try (intros; count_lines; lia).
  all: rewrite ?add_line_count; cbn [n_line_vertices];
    change (wrap_int (wrap_int (wrap_int (0 + 2) + 2) + 2)) with 6;
    rewrite ?Z.sub_0_r, ?Z.div_1_r, ?Z.mod_1_r;
    pose proof (Z.div_mod n 3 ltac:(lia));
    pose proof (Z.div_mod n 4 ltac:(lia));
    first [ lia | symmetry; apply Z.div_unique_exact; lia ].
Qed.

(** * Further properties of the code *)

(** ** Calls made *)

Lemma made_refl c : made c c [].
Proof. reflexivity. Qed.

Lemma made_trans c1 c2 c3 l1 l2 :
  made c1 c2 l1 -> made c2 c3 l2 -> made c1 c3 (l1 ++ l2).
Proof.
  unfold made. intros H1 H2.
  now rewrite H2, H1, rev_app_distr, app_assoc.
Qed.

Lemma made_GE c ctx : made ctx (context_after (GE c) ctx) [c].
Proof. reflexivity. Qed.

Lemma made_bind {A B : Type} (m : M A) (k : A -> M B) ctx l1 l2 :
  made ctx (context_after m ctx) l1 ->
  made (context_after m ctx)
    (context_after (k (result_of m ctx)) (context_after m ctx)) l2 ->
  made ctx (context_after (bind m k) ctx) (l1 ++ l2).
Proof. rewrite context_bind. apply made_trans. Qed.

Lemma with_immutable_ref_same a : with_immutable_ref (immutable_ref a) a = a.
Proof. destruct a; reflexivity. Qed.

Lemma with_immutable_ref_twice x y a :
  with_immutable_ref x (with_immutable_ref y a) = with_immutable_ref x a.
Proof. reflexivity. Qed.

(** ** Pinning an attribute *)

Lemma times_immutable_ref n :
  forall a ctx,
    - 2 ^ 31 <= immutable_ref a ->
    immutable_ref a + Z.of_nat n < 2 ^ 31 ->
    let r := times n _cogl_vertex_attribute_immutable_ref a ctx in
    fst r = with_immutable_ref (immutable_ref a + Z.of_nat n) a
    /\ made ctx (snd r) (replicate n (buffer_immutable_ref (array a))).
Proof.
  induction n as [|n IH]; intros a ctx Hlo Hhi; cbv zeta.
  - cbn. rewrite Z.add_0_r, with_immutable_ref_same. split; reflexivity.
  - cbn [times]. rewrite run_bind.
    set (a1 := with_immutable_ref (immutable_ref a + 1) a).
    assert (H1 : _cogl_vertex_attribute_immutable_ref a ctx
                 = (a1, context_after
                          (GE (buffer_immutable_ref (array a))) ctx)).
    { unfold _cogl_vertex_attribute_immutable_ref.
      rewrite wrap_int_small by lia. reflexivity. }
    rewrite H1. cbn [fst snd].
    destruct (IH a1 (context_after (GE (buffer_immutable_ref (array a)))
                       ctx)) as (Hr & Hm).
    + unfold a1. cbn. lia.
    + unfold a1. cbn. lia.
    + split.
      * rewrite Hr. unfold a1. cbn [immutable_ref with_immutable_ref].
        rewrite with_immutable_ref_twice. f_equal. lia.
      * change (replicate (S n) (buffer_immutable_ref (array a)))
          with ([buffer_immutable_ref (array a)]
                ++ replicate n (buffer_immutable_ref (array a))).
        eapply made_trans; [apply made_GE | exact Hm].
Qed.

Lemma times_immutable_unref n :
  forall a ctx,
    Z.of_nat n <= immutable_ref a < 2 ^ 31 ->
    let r := times n _cogl_vertex_attribute_immutable_unref a ctx in
    fst r = with_immutable_ref (immutable_ref a - Z.of_nat n) a
    /\ made ctx (snd r) (replicate n (buffer_immutable_unref (array a))).
Proof.
  induction n as [|n IH]; intros a ctx Hr; cbv zeta.
  - cbn. rewrite Z.sub_0_r, with_immutable_ref_same. split; reflexivity.
  - cbn [times]. rewrite run_bind.
    set (a1 := with_immutable_ref (immutable_ref a - 1) a).
    assert (H1 : _cogl_vertex_attribute_immutable_unref a ctx
                 = (a1, context_after
                          (GE (buffer_immutable_unref (array a))) ctx)).
    { unfold _cogl_vertex_attribute_immutable_unref.
      destruct (Z.gtb_spec (immutable_ref a) 0); [|lia]. cbn [negb].
      rewrite wrap_int_small by lia. reflexivity. }
    rewrite H1. cbn [fst snd].
    destruct (IH a1 (context_after (GE (buffer_immutable_unref (array a)))
                       ctx)) as (Hr1 & Hm).
    + unfold a1. cbn. lia.
    + split.
      * rewrite Hr1. unfold a1. cbn [immutable_ref with_immutable_ref].
        rewrite with_immutable_ref_twice. f_equal. lia.
      * change (replicate (S n) (buffer_immutable_unref (array a)))
          with ([buffer_immutable_unref (array a)]
                ++ replicate n (buffer_immutable_unref (array a))).
        eapply made_trans; [apply made_GE | exact Hm].
Qed.

(** Unpinning what is not pinned: the precondition fails, nothing
    changes. *)
Lemma times_immutable_unref_unpinned n :
  forall a ctx,
    immutable_ref a <= 0 ->
    let r := times n _cogl_vertex_attribute_immutable_unref a ctx in
    fst r = a
    /\ made ctx (snd r) (replicate n (g_log critical_immutable_unref)).
Proof.
  induction n as [|n IH]; intros a ctx Hr; cbv zeta.
  - split; reflexivity.
  - cbn [times]. rewrite run_bind.
    assert (H1 : _cogl_vertex_attribute_immutable_unref a ctx
                 = (a, context_after
                         (GE (g_log critical_immutable_unref)) ctx)).
    { unfold _cogl_vertex_attribute_immutable_unref.
      destruct (Z.gtb_spec (immutable_ref a) 0); [lia|]. reflexivity. }
    rewrite H1. cbn [fst snd].
    destruct (IH a (context_after (GE (g_log critical_immutable_unref))
                      ctx) Hr) as (Hr1 & Hm).
    split; [exact Hr1|].
    change (replicate (S n) (g_log critical_immutable_unref))
      with ([g_log critical_immutable_unref]
            ++ replicate n (g_log critical_immutable_unref)).
    eapply made_trans; [apply made_GE | exact Hm].
Qed.

Lemma times_add {A : Type} (f : A -> M A) n m a ctx :
  times (n + m) f a ctx = (a' <- times n f a;; times m f a') ctx.
Proof.
  revert a ctx. induction n as [|n IH]; intros a ctx; cbn [times Nat.add].
  - reflexivity.
  - rewrite !run_bind. rewrite IH, run_bind. reflexivity.
Qed.

(** X1: an attribute pinned [n] times and then unpinned [m] times, from
    a count [r >= 0]: the first [min m (r + n)] releases succeed and are
    forwarded to the buffer, one for one like the acquisitions; the
    releases beyond that are refused with a critical message and change
    nothing; the count ends at [r + n] less the releases that
    succeeded, the attribute being otherwise untouched. *)
Theorem acquire_release_balance n m a ctx :
  0 <= immutable_ref a ->
  immutable_ref a + Z.of_nat n < 2 ^ 31 ->
  let r := acquire_then_release n m a ctx in
  let released := Nat.min m (Z.to_nat (immutable_ref a) + n) in
  fst r
  = with_immutable_ref
      (immutable_ref a + Z.of_nat n - Z.of_nat released) a
  /\ made ctx (snd r)
       (replicate n (buffer_immutable_ref (array a))
        ++ replicate released (buffer_immutable_unref (array a))
        ++ replicate (m - released) (g_log critical_immutable_unref)).
Proof.
  intros Hlo Hhi r released. unfold r, acquire_then_release.
  rewrite run_bind.
  destruct (times_immutable_ref n a ctx ltac:(lia) Hhi) as (Ha1 & Hm1).
  set (a1 := fst (times n _cogl_vertex_attribute_immutable_ref a ctx)) in *.
  set (c1 := snd (times n _cogl_vertex_attribute_immutable_ref a ctx)) in *.
  assert (Hc : immutable_ref a1 = immutable_ref a + Z.of_nat n)
    by (rewrite Ha1; reflexivity).
  assert (Harr : array a1 = array a) by (rewrite Ha1; reflexivity).
  replace m with (released + (m - released))%nat at 1 2 by lia.
  rewrite times_add, run_bind.
  destruct (times_immutable_unref released a1 c1 ltac:(lia)) as (Ha2 & Hm2).
  set (a2 := fst (times released _cogl_vertex_attribute_immutable_unref
                    a1 c1)) in *.
  set (c2 := snd (times released _cogl_vertex_attribute_immutable_unref
                    a1 c1)) in *.
  assert (Ha2' : a2 = with_immutable_ref
                        (immutable_ref a + Z.of_nat n - Z.of_nat released)
                        a).
  { rewrite Ha2, Hc, Ha1. reflexivity. }
  destruct (Nat.le_gt_cases m (Z.to_nat (immutable_ref a) + n))
    as [Hle|Hgt].
  - replace (m - released)%nat with O by lia. cbn [times ret fst snd].
    split; [exact Ha2'|].
    rewrite app_nil_r. rewrite Harr in Hm2.
    eapply made_trans; eassumption.
  - destruct (times_immutable_unref_unpinned (m - released) a2 c2)
      as (Ha3 & Hm3).
    { rewrite Ha2'. cbn. lia. }
    split; [rewrite Ha3; exact Ha2'|].
    rewrite Harr in Hm2.
    eapply made_trans; [exact Hm1|]. eapply made_trans; eassumption.
Qed.

Lemma acquire_release_balance_witness :
  fst (acquire_then_release 2 3 sample_custom (sample_context true))
  = sample_custom.
Proof.
  refine (eq_trans
            (proj1 (acquire_release_balance 2 3 sample_custom
                      (sample_context true) _ _)) _).
  - cbn. lia.
  - cbn. lia.
  - reflexivity.
Defined.

(** ** Construction, destruction and the references on the array *)

(** The validation either accepts and leaves the context alone, or
    refuses and logs one diagnostic. *)
Lemma validate_cogl_attribute_outcome name n id nz tu ctx :
  let r := validate_cogl_attribute name n id nz tu ctx in
  (fst (fst r) = true /\ snd r = ctx)
  \/ (fst (fst r) = false
      /\ exists d, snd r = context_after (GE (g_log d)) ctx).
Proof.
  unfold validate_cogl_attribute, g_critical, g_warning. cbv zeta.
  repeat match goal with
         | |- context [if ?b then _ else _] => destruct b
         | |- context [match ?o with Some _ => _ | None => _ end] =>
             destruct o
         end;
    first [ left; split; reflexivity
          | right; split; [reflexivity | eexists; reflexivity] ].
Qed.

Lemma cogl_object_ref_context object n ctx :
  ref_count ctx object = Some n ->
  context_after (cogl_object_ref object) ctx
  = set_ref_counts (fun _ => <[object := n + 1]> (ref_counts ctx)) ctx.
Proof.
  unfold ref_count. intros H. unfold cogl_object_ref, context_after, modify.
  cbn [snd]. unfold set_ref_counts. now rewrite H.
Qed.

(** X2: building an attribute on a live array either succeeds, and then
    the array has exactly one more reference, nothing is logged, the
    attribute holds the layout it was given with an [immutable_ref] of
    zero, and freeing the attribute gives the reference back; or it
    fails, and then one diagnostic is logged and every reference count
    is what it was. *)
Theorem construction_takes_one_reference array0 name0 stride0 offset0 n type0
    ctx k :
  ref_count ctx array0 = Some k -> 1 <= k ->
  let r := cogl_vertex_attribute_new array0 name0 stride0 offset0 n type0 ctx in
  match fst r with
  | Some a =>
      ref_counts (snd r) = <[array0 := k + 1]> (ref_counts ctx)
      /\ made ctx (snd r) []
      /\ array a = array0 /\ name a = name0
      /\ stride a = stride0 /\ offset a = offset0
      /\ n_components a = n /\ type a = type0
      /\ immutable_ref a = 0
      /\ ref_counts (context_after (_cogl_vertex_attribute_free a) (snd r))
         = ref_counts ctx
  | None =>
      ref_counts (snd r) = ref_counts ctx
      /\ exists d, made ctx (snd r) [g_log d]
  end.
Proof.
  intros Hk Hpos. cbv zeta. unfold cogl_vertex_attribute_new.
  rewrite run_bind.
  change (snd (cogl_object_ref array0 ctx))
    with (context_after (cogl_object_ref array0) ctx).
  rewrite (cogl_object_ref_context _ _ _ Hk).
  set (c1 := set_ref_counts _ ctx).
  assert (Hback : match <[array0 := k + 1]> (ref_counts ctx) !! array0 with
                  | Some n0 =>
                      if n0 - 1 <=? 0
                      then delete array0 (<[array0 := k + 1]> (ref_counts ctx))
                      else <[array0 := n0 - 1]>
                             (<[array0 := k + 1]> (ref_counts ctx))
                  | None => <[array0 := k + 1]> (ref_counts ctx)
                  end = ref_counts ctx).
  { unfold ref_count in Hk. rewrite lookup_insert_eq.
    destruct (Z.leb_spec (k + 1 - 1) 0); [lia|].
    rewrite insert_insert_eq. replace (k + 1 - 1) with k by lia.
    now apply insert_id. }
  rewrite run_bind.
  destruct (strncmp_eq name0 "cogl_").
  - destruct (validate_cogl_attribute_outcome name0 n g_slice_new_name_id
                g_slice_new_normalized g_slice_new_texture_unit c1)
      as [(Hs & Hc)|(Hs & d & Hc)];
      destruct (validate_cogl_attribute _ _ _ _ _ c1)
        as [[status [[id nz] tu]] c2]; cbn [fst snd] in Hs, Hc; subst.
    + cbn. repeat split. apply Hback.
    + cbn. rewrite Hback.
      split; [reflexivity|]. exists d. reflexivity.
  - cbn. repeat split. apply Hback.
Qed.

Lemma construction_takes_one_reference_witness :
  ref_counts
    (snd (cogl_vertex_attribute_new 1%nat "cogl_normal_in" 12 0 3
            COGL_VERTEX_ATTRIBUTE_TYPE_FLOAT (sample_context true)))
  = ref_counts (sample_context true).
Proof.
  exact (proj1 (construction_takes_one_reference 1%nat "cogl_normal_in" 12
                  0 3 COGL_VERTEX_ATTRIBUTE_TYPE_FLOAT
                  (sample_context true) 1 eq_refl (Z.le_refl 1))).
Defined.

(** X3: setting the array of an attribute to another live array moves
    one reference: the new array has one more, the old one has one
    less, and is released when the attribute held its last reference. *)
Theorem set_array_moves_reference a array' ctx k m :
  array' <> array a ->
  ref_count ctx (array a) = Some k -> 1 <= k ->
  ref_count ctx array' = Some m -> 1 <= m ->
  let r := cogl_vertex_attribute_set_array a array' ctx in
  fst r = with_array array' a
  /\ ref_count (snd r) array' = Some (m + 1)
  /\ ref_count (snd r) (array a) = (if k =? 1 then None else Some (k - 1))
  /\ (forall object,
        object <> array' -> object <> array a ->
        ref_count (snd r) object = ref_count ctx object).
Proof.
  intros Hne Hk Hkpos Hm Hmpos. cbv zeta.
  unfold cogl_vertex_attribute_set_array.
  rewrite run_bind.
  set (c1 := snd (when _ warn_about_midscene_changes ctx)).
  assert (H1 : ref_counts c1 = ref_counts ctx)
    by apply context_after_when_warn_ref_counts.
  rewrite run_bind.
  assert (Hm1 : ref_count c1 array' = Some m)
    by (unfold ref_count; rewrite H1; exact Hm).
  change (snd (cogl_object_ref array' c1))
    with (context_after (cogl_object_ref array') c1).
  set (c2 := context_after (cogl_object_ref array') c1).
  assert (H2 : ref_counts c2 = <[array' := m + 1]> (ref_counts ctx))
    by (unfold c2; rewrite (cogl_object_ref_live _ _ _ Hm1), H1;
        reflexivity).
  rewrite run_bind. cbn [ret fst snd].
  assert (H3 : ref_counts (snd (cogl_object_unref (array a) c2))
               = if k =? 1
                 then delete (array a) (<[array' := m + 1]> (ref_counts ctx))
                 else <[array a := k - 1]>
                        (<[array' := m + 1]> (ref_counts ctx))).
  { unfold cogl_object_unref, modify. cbn [snd set_ref_counts ref_counts].
    rewrite H2, lookup_insert_ne by exact Hne.
    unfold ref_count in Hk. rewrite Hk.
    destruct (Z.eqb_spec k 1) as [->|Hk1]; [reflexivity|].
    destruct (Z.leb_spec (k - 1) 0); [lia | reflexivity]. }
  unfold ref_count. rewrite H3.
  split; [reflexivity|]. split; [|split].
  - destruct (k =? 1).
    + rewrite lookup_delete_ne by congruence. apply lookup_insert_eq.
    + rewrite lookup_insert_ne by congruence. apply lookup_insert_eq.
  - destruct (k =? 1);
      [apply lookup_delete_eq | apply lookup_insert_eq].
  - intros object Ho1 Ho2. destruct (k =? 1).
    + rewrite lookup_delete_ne, lookup_insert_ne by congruence. reflexivity.
    + rewrite !lookup_insert_ne by congruence. reflexivity.
Qed.

Lemma set_array_moves_reference_witness :
  ref_count
    (snd (cogl_vertex_attribute_set_array sample_custom 3%nat
            sample_arrays_context)) 1%nat
  = None.
Proof.
  exact (proj1 (proj2 (proj2 (set_array_moves_reference sample_custom 3%nat
                                sample_arrays_context 1 1
                                ltac:(discriminate) eq_refl (Z.le_refl 1)
                                eq_refl (Z.le_refl 1))))).
Defined.

(** ** Texture-coordinate names *)

Ltac digit_cases d H :=
  let H' := fresh in
  assert (H' : d = 0 \/ d = 1 \/ d = 2 \/ d = 3 \/ d = 4 \/ d = 5
               \/ d = 6 \/ d = 7 \/ d = 8 \/ d = 9) by lia;
  clear H;
  destruct H' as [->|[->|[->|[->|[->|[->|[->|[->|[->| ->]]]]]]]]].

Lemma digit_of_digit_char d : 0 <= d <= 9 -> digit_of (digit_char d) = Some d.
Proof. intros H. digit_cases d H; reflexivity. Qed.

Lemma scan_digits_no_digit rest acc :
  starts_with_digit rest = false -> scan_digits rest acc = acc.
Proof.
  destruct rest as [|c rest]; [reflexivity|]. cbn.
  destruct (digit_of c); [discriminate | reflexivity].
Qed.

Lemma scan_digits_numeral ds rest :
  Forall (fun d => 0 <= d <= 9) ds ->
  starts_with_digit rest = false ->
  forall v,
    scan_digits (digits_string ds rest) (Some v)
    = Some (fold_left (fun acc d => 10 * acc + d) ds v).
Proof.
  intros Hds Hrest. induction Hds as [|d ds Hd _ IH]; intros v.
  - cbn. now apply scan_digits_no_digit.
  - cbn [digits_string scan_digits fold_left].
    rewrite (digit_of_digit_char d Hd). cbn [default]. apply IH.
Qed.

(** The [%u] conversion reads a numeral, whatever follows it. *)
Lemma scan_unsigned_numeral d ds rest :
  Forall (fun d => 0 <= d <= 9) (d :: ds) ->
  starts_with_digit rest = false ->
  scan_unsigned (digits_string (d :: ds) rest)
  = Some (wrap_u32 (strtoul_value false (digits_value (d :: ds)))).
Proof.
  intros Hds Hrest. inversion Hds as [|? ? Hd Hds']; subst.
  pose proof (scan_digits_numeral ds rest Hds' Hrest d) as Hscan.
  unfold digits_value. cbn [fold_left digits_string].
  replace (10 * 0 + d) with d by lia.
  transitivity ((fun v => wrap_u32 (strtoul_value false v))
                  <$> scan_digits (digits_string ds rest) (Some d));
    [|rewrite Hscan; reflexivity].
  generalize (digits_string ds rest). intros t.
  digit_cases d Hd; reflexivity.
Qed.

Lemma fold_digits_nonneg ds :
  Forall (fun d => 0 <= d <= 9) ds ->
  forall acc, 0 <= acc -> 0 <= fold_left (fun acc d => 10 * acc + d) ds acc.
Proof.
  induction 1 as [|d ds Hd _ IH]; intros acc Hacc; cbn [fold_left].
  - exact Hacc.
  - apply IH. lia.
Qed.

(** A numeral that fits an [unsigned int] is stored as it is. *)
Lemma stored_numeral v :
  0 <= v < 2 ^ 32 -> wrap_u32 (strtoul_value false v) = v.
Proof.
  intros Hv. unfold strtoul_value, ULONG_MAX, size_t_bits.
  destruct (Z.gtb_spec v (2 ^ 64 - 1)); [lia|].
  unfold wrap_u32. apply Z.mod_small. exact Hv.
Qed.

(** X4: a name made of the reserved texture-coordinate prefix and a
    decimal numeral that fits an [unsigned int] gives an attribute of
    the texture-coordinate role on the unit the numeral denotes, not
    normalized, for any number of components and whatever follows the
    numeral: the [_in] that the format asks for is not checked. *)
Theorem texture_unit_from_name array0 ds rest stride0 offset0 n type0 ctx :
  ds <> [] ->
  Forall (fun d => 0 <= d <= 9) ds ->
  starts_with_digit rest = false ->
  digits_value ds < 2 ^ 32 ->
  let name0 := ("cogl_tex_coord" ++ digits_string ds rest)%string in
  result_of
    (cogl_vertex_attribute_new array0 name0 stride0 offset0 n type0) ctx
  = Some {| array := array0; name := name0;
            stride := stride0; offset := offset0;
            n_components := n; type := type0; immutable_ref := 0;
            name_id := COGL_VERTEX_ATTRIBUTE_NAME_ID_TEXTURE_COORD_ARRAY;
            normalized := false;
            texture_unit := digits_value ds |}.
Proof.
  intros Hne Hds Hrest Hfit name0.
  destruct ds as [|d ds]; [congruence|].
  rewrite cogl_vertex_attribute_new_result. cbv zeta.
  rewrite validate_cogl_attribute_cases. cbv zeta.
  assert (Hscan : sscanf_tex_coord_u_in
                    ("tex_coord" ++ digits_string (d :: ds) rest)
                  = Some (digits_value (d :: ds))).
  { assert (Hv : wrap_u32 (strtoul_value false (digits_value (d :: ds)))
                 = digits_value (d :: ds)).
    { apply stored_numeral. split; [|exact Hfit].
      unfold digits_value. apply fold_digits_nonneg; [exact Hds | lia]. }
    rewrite <- Hv.
    unfold sscanf_tex_coord_u_in. cbn [strncmp_eq String.prefix append
      Ascii.eqb Bool.eqb string_skip].
    now apply scan_unsigned_numeral. }
  assert (Hin : strcmp_eq ("tex_coord" ++ digits_string (d :: ds) rest)
                  "tex_coord_in" = false).
  { inversion Hds as [|? ? Hd _]; subst. digit_cases d Hd; reflexivity. }
  unfold name0.
  change (string_skip 5 ("cogl_tex_coord" ++ digits_string (d :: ds) rest))
    with ("tex_coord" ++ digits_string (d :: ds) rest)%string.
  change (strncmp_eq ("cogl_tex_coord" ++ digits_string (d :: ds) rest)
            "cogl_") with true.
  rewrite Hin, Hscan.
  change (strcmp_eq ("tex_coord" ++ digits_string (d :: ds) rest)
            "position_in") with false.
  change (strcmp_eq ("tex_coord" ++ digits_string (d :: ds) rest)
            "color_in") with false.
  change (strncmp_eq ("tex_coord" ++ digits_string (d :: ds) rest)
            "tex_coord") with true.
  reflexivity.
Qed.

Lemma texture_unit_from_name_witness :
  texture_unit
    <$> result_of (cogl_vertex_attribute_new 1%nat "cogl_tex_coord12" 8 0 2
                     COGL_VERTEX_ATTRIBUTE_TYPE_FLOAT) (sample_context true)
  = Some 12.
Proof.
  assert (Hne : [1; 2] <> []) by discriminate.
  assert (Hds : Forall (fun d => 0 <= d <= 9) [1; 2])
    by (repeat constructor; lia).
  exact (f_equal (fmap texture_unit)
           (texture_unit_from_name 1%nat [1; 2] "" 8 0 2
              COGL_VERTEX_ATTRIBUTE_TYPE_FLOAT (sample_context true)
              Hne Hds eq_refl eq_refl)).
Defined.

(** ** What [enable_gl_state] hands to GL and to the pipeline *)

(** One turn of the loop of [enable_gl_state], seen through its locals,
    the mask of texture units and the calls of interest. *)
Lemma enable_attribute_effects a l c :
  let r := enable_attribute a l c in
  enable_flags (fst r) = Z.lor (enable_flags l) (enable_flag_of a)
  /\ skip_gl_color (fst r) = skip_gl_color l || is_color_attribute a
  /\ temp_bitmask (snd r)
     = (if is_texture_coord_attribute a
        then Z.setbit (temp_bitmask c) (texture_unit a)
        else temp_bitmask c)
  /\ source_stack (snd r) = source_stack c
  /\ omap binding_of (trace (snd r))
     = unbinds (array a)
       :: binds (array a) COGL_BUFFER_BIND_TARGET_VERTEX_ARRAY
       :: omap binding_of (trace c)
  /\ omap enabled_channel_of (trace (snd r))
     = (if is_custom_attribute a then [generic_index l] else [])
       ++ omap enabled_channel_of (trace c)
  /\ omap flush_of (trace (snd r)) = omap flush_of (trace c)
  /\ omap cogl_enable_of (trace (snd r)) = omap cogl_enable_of (trace c)
  /\ omap texcoord_mask_of (trace (snd r))
     = omap texcoord_mask_of (trace c).
Proof.
  unfold enable_attribute, enable_flag_of, is_color_attribute,
    is_texture_coord_attribute, is_custom_attribute,
    cogl_vertex_attribute_get_array.
  run_monad.
  destruct (name_id a); cbn; rewrite ?Z.lor_0_r, ?orb_false_r, ?orb_true_r;
    try (repeat split; reflexivity).
  destruct (pipelines c !! source l) as [p|] eqn:E; cbn;
    [destruct (real_blend_enable p); cbn|]; rewrite ?E; cbn;
    repeat split; reflexivity.
Qed.

Lemma wrap_u32_succ k :
  wrap_u32 (wrap_u32 (Z.of_nat k) + 1) = wrap_u32 (Z.of_nat (S k)).
Proof.
  unfold wrap_u32. rewrite Zplus_mod_idemp_l. f_equal. lia.
Qed.

(** The loop of [enable_gl_state] as a whole. *)
Lemma for_each_enable_effects attributes :
  forall l c first,
    generic_index l = wrap_u32 (Z.of_nat first) ->
    let r := for_each enable_attribute attributes l c in
    enable_flags (fst r)
    = fold_left (fun f a => Z.lor f (enable_flag_of a)) attributes
        (enable_flags l)
    /\ skip_gl_color (fst r)
       = skip_gl_color l || existsb is_color_attribute attributes
    /\ temp_bitmask (snd r)
       = fold_left
           (fun m a =>
              if is_texture_coord_attribute a
              then Z.setbit m (texture_unit a) else m)
           attributes (temp_bitmask c)
    /\ source_stack (snd r) = source_stack c
    /\ omap binding_of (trace (snd r))
       = rev (flat_map
                (fun a =>
                   [binds (array a) COGL_BUFFER_BIND_TARGET_VERTEX_ARRAY;
                    unbinds (array a)])
                attributes)
         ++ omap binding_of (trace c)
    /\ omap enabled_channel_of (trace (snd r))
       = rev (custom_channel_indices first (count_custom attributes))
         ++ omap enabled_channel_of (trace c)
    /\ omap flush_of (trace (snd r)) = omap flush_of (trace c)
    /\ omap cogl_enable_of (trace (snd r)) = omap cogl_enable_of (trace c)
    /\ omap texcoord_mask_of (trace (snd r))
       = omap texcoord_mask_of (trace c).
Proof.
  induction attributes as [|a rest IH]; intros l c first Hg; cbv zeta.
  - cbn. rewrite orb_false_r. repeat split.
  - cbn [for_each]. rewrite run_bind.
    destruct (enable_attribute_effects a l c)
      as (Hf & Hs & Hm & Hst & Hb & He & Hfl & Hen & Hmk).
    pose proof (enable_attribute_generic_channels a l c) as [_ Hgi].
    set (l1 := fst (enable_attribute a l c)) in *.
    set (c1 := snd (enable_attribute a l c)) in *.
    destruct (IH l1 c1
                (if is_custom_attribute a then S first else first))
      as (IHf & IHs & IHm & IHst & IHb & IHe & IHfl & IHen & IHmk).
    { rewrite Hgi. destruct (is_custom_attribute a); [|exact Hg].
      rewrite Hg. apply wrap_u32_succ. }
    rewrite IHf, IHs, IHm, IHst, IHb, IHe, IHfl, IHen, IHmk.
    rewrite Hf, Hs, Hm, Hst, Hb, He, Hfl, Hen, Hmk.
    cbn [fold_left existsb flat_map].
    repeat split.
    + now rewrite orb_assoc.
    + cbn [app rev]. now rewrite <- !app_assoc.
    + unfold count_custom, custom_channel_indices. rewrite filter_cons.
      destruct (decide (is_custom_attribute a = true)) as [E|E].
      * rewrite E. cbn [length seq map rev].
        rewrite <- app_assoc. cbn [app]. now rewrite Hg.
      * apply not_true_is_false in E. now rewrite E.
Qed.

(** Runs [enable_gl_state] up to the end of its loop, leaving the loop's
    effects as a hypothesis, and then through every branch of the rest. *)
Ltac enable_gl_state_tail H W :=
  unfold selected, enable_gl_state; run_monad; cbv beta iota;
  match goal with
  | |- context [for_each enable_attribute ?attributes ?l ?c] =>
      pose proof (for_each_enable_effects attributes l c 0 eq_refl) as H;
      pose proof (for_each_enable_same_world attributes l c) as W;
      unfold context_after in W;
      destruct (for_each enable_attribute attributes l c) as [l' c']
  end;
  unfold same_world in W;
  cbn [snd legacy_state_set enable_backface_culling set_temp_bitmask]
    in W;
  destruct W as (_ & _ & _ & Wl & Wc);
  cbv zeta in H;
  cbn [fst snd generic_index enable_flags skip_gl_color trace
         temp_bitmask source_stack set_temp_bitmask] in H;
  destruct H as (Hf & Hs & Hm & Hst & Hb & He & Hfl & Hen & Hmk).

Ltac settled t :=
  lazymatch t with
  | context [fst _] => fail
  | context [snd _] => fail
  | _ => idtac
  end.

Ltac enable_gl_state_branches :=
  repeat match goal with
         | |- context [if ?b then _ else _] =>
             settled b; destruct b eqn:?; cbn
         | |- context [match ?o with Some _ => _ | None => _ end] =>
             settled o; destruct o eqn:?; cbn
         end.

Lemma fold_enable_flags attributes :
  forall init,
    fold_left (fun f a => Z.lor f (enable_flag_of a)) attributes init
    = Z.lor init
        (Z.lor
           (if existsb is_position_attribute attributes
            then COGL_ENABLE_VERTEX_ARRAY else 0)
           (if existsb is_color_attribute attributes
            then COGL_ENABLE_COLOR_ARRAY else 0)).
Proof.
  induction attributes as [|a rest IH]; intros init; cbn [fold_left existsb].
  - now rewrite !Z.lor_0_r.
  - rewrite IH. unfold enable_flag_of, is_position_attribute at 2,
      is_color_attribute at 2.
    apply Z.bits_inj'. intros k _. rewrite !Z.lor_spec.
    destruct (name_id a); cbn [orb];
      destruct (existsb is_position_attribute rest),
        (existsb is_color_attribute rest);
      rewrite ?Z.lor_spec, ?Z.bits_0;
      destruct (Z.testbit init k), (Z.testbit COGL_ENABLE_VERTEX_ARRAY k),
        (Z.testbit COGL_ENABLE_COLOR_ARRAY k); reflexivity.
Qed.

Lemma testbit_setbit a n (k : nat) :
  Z.testbit (Z.setbit a n) (Z.of_nat k)
  = (n =? Z.of_nat k) || Z.testbit a (Z.of_nat k).
Proof.
  destruct (Z.le_gt_cases 0 n) as [H|H].
  - now apply Z.setbit_eqb.
  - rewrite Z.setbit_spec'. destruct n as [|p|p]; try lia.
    cbn [Z.pow]. rewrite Z.lor_0_r.
    destruct (Z.eqb_spec (Z.neg p) (Z.of_nat k)); [lia | reflexivity].
Qed.

Lemma testbit_texcoord_fold attributes (k : nat) :
  forall init,
    Z.testbit
      (fold_left
         (fun m a =>
            if is_texture_coord_attribute a
            then Z.setbit m (texture_unit a) else m)
         attributes init)
      (Z.of_nat k)
    = Z.testbit init (Z.of_nat k)
      || existsb
           (fun a =>
              is_texture_coord_attribute a
              && (texture_unit a =? Z.of_nat k))
           attributes.
Proof.
  induction attributes as [|a rest IH]; intros init; cbn [fold_left existsb].
  - now rewrite orb_false_r.
  - rewrite IH. destruct (is_texture_coord_attribute a); cbn [andb orb].
    + rewrite testbit_setbit.
      now rewrite orb_assoc, (orb_comm (_ =? _)).
    + reflexivity.
Qed.

(** X5: [enable_gl_state] flushes one pipeline, the one it returns, and
    asks it to leave the fixed-function colour alone exactly when the set
    has a COLOR attribute; and it calls [_cogl_enable] once, with the
    vertex-array flag when the set has a POSITION attribute, the
    colour-array flag when it has a COLOR attribute, the culling flag
    when the context culls back faces, and nothing else. *)
Theorem enable_gl_state_flush attributes state ctx :
  let r := enable_gl_state attributes state ctx in
  selected flush_of (snd r)
  = selected flush_of ctx
    ++ [(fst r, existsb is_color_attribute attributes)]
  /\ selected cogl_enable_of (snd r)
     = selected cogl_enable_of ctx
       ++ [flags_enabled attributes (enable_backface_culling ctx)].
Proof.
  cbv zeta. enable_gl_state_tail H W.
  unfold flags_enabled. rewrite fold_enable_flags, Z.lor_0_l in Hf.
  rewrite <- Wc.
  destruct (negb (flags (state_options state) =? 0)); cbn;
    enable_gl_state_branches; try congruence;
    rewrite ?Hfl, ?Hen, ?Hs, ?Hf, ?Z.lor_0_r; split; reflexivity.
Qed.

(** X6: whatever mask of texture units an earlier draw left behind,
    [enable_gl_state] tells [_cogl_disable_other_texcoord_arrays], once,
    a mask whose bit [k] is set exactly when the set has a
    texture-coordinate attribute of texture unit [k]. *)
Theorem enable_gl_state_texcoord_mask attributes state ctx :
  selected texcoord_mask_of (snd (enable_gl_state attributes state ctx))
  = selected texcoord_mask_of ctx ++ [texcoord_units attributes]
  /\ forall k : nat,
       Z.testbit (texcoord_units attributes) (Z.of_nat k)
       = existsb
           (fun a =>
              is_texture_coord_attribute a
              && (texture_unit a =? Z.of_nat k))
           attributes.
Proof.
  split.
  - enable_gl_state_tail H W. unfold texcoord_units.
    destruct (negb (flags (state_options state) =? 0)); cbn;
      enable_gl_state_branches; rewrite ?Hmk, ?Hm; reflexivity.
  - intros k. unfold texcoord_units.
    now rewrite testbit_texcoord_fold, Z.bits_0.
Qed.

(** X7: [enable_gl_state] binds the buffer of each attribute as a vertex
    array and unbinds it before it turns to the next attribute, in the
    order of the set, and binds nothing else. *)
Theorem enable_gl_state_bindings attributes state ctx :
  selected binding_of (snd (enable_gl_state attributes state ctx))
  = selected binding_of ctx ++ bind_unbind_each attributes.
Proof.
  enable_gl_state_tail H W. unfold bind_unbind_each.
  destruct (negb (flags (state_options state) =? 0)); cbn;
    enable_gl_state_branches;
    rewrite ?Hb, ?rev_app_distr, ?rev_involutive; reflexivity.
Qed.

(** ** [disable_gl_state] undoes [enable_gl_state] *)

Lemma disable_attribute_effects a g c :
  let r := disable_attribute a g c in
  fst r = (if is_custom_attribute a then wrap_u32 (g + 1) else g)
  /\ same_but_trace c (snd r)
  /\ omap disabled_channel_of (trace (snd r))
     = (if is_custom_attribute a then [g] else [])
       ++ omap disabled_channel_of (trace c).
Proof.
  unfold disable_attribute, is_custom_attribute. run_monad.
  destruct (name_id a); cbn; repeat split.
Qed.

Lemma for_each_disable_effects attributes :
  forall g c first,
    g = wrap_u32 (Z.of_nat first) ->
    let r := for_each disable_attribute attributes g c in
    same_but_trace c (snd r)
    /\ omap disabled_channel_of (trace (snd r))
       = rev (custom_channel_indices first (count_custom attributes))
         ++ omap disabled_channel_of (trace c).
Proof.
  induction attributes as [|a rest IH]; intros g c first Hg; cbv zeta.
  - cbn. split; [apply same_but_trace_refl | reflexivity].
  - cbn [for_each]. rewrite run_bind.
    destruct (disable_attribute_effects a g c) as (Hi & Hw & Hd).
    set (g1 := fst (disable_attribute a g c)) in *.
    set (c1 := snd (disable_attribute a g c)) in *.
    destruct (IH g1 c1 (if is_custom_attribute a then S first else first))
      as (IHw & IHd).
    { rewrite Hi. destruct (is_custom_attribute a); [|exact Hg].
      rewrite Hg. apply wrap_u32_succ. }
    split; [eapply same_but_trace_trans; eassumption|].
    rewrite IHd, Hd.
    unfold count_custom, custom_channel_indices. rewrite filter_cons.
    destruct (decide (is_custom_attribute a = true)) as [E|E].
    + rewrite E. cbn [length seq map rev].
      rewrite <- app_assoc. cbn [app]. now rewrite Hg.
    + apply not_true_is_false in E. now rewrite E.
Qed.

(** X8: the generic channels that [disable_gl_state] disables are the
    ones that [enable_gl_state] enabled for the same set: one for each
    CUSTOM attribute, counted from 0 in a [GLuint], in the same order. *)
Theorem disable_gl_state_channels attributes state source ctx ctx' :
  selected enabled_channel_of (snd (enable_gl_state attributes state ctx))
  = selected enabled_channel_of ctx
    ++ custom_channel_indices 0 (count_custom attributes)
  /\ selected disabled_channel_of
       (snd (disable_gl_state attributes source ctx'))
     = selected disabled_channel_of ctx'
       ++ custom_channel_indices 0 (count_custom attributes).
Proof.
  split.
  - enable_gl_state_tail H W.
    destruct (negb (flags (state_options state) =? 0)); cbn;
      enable_gl_state_branches;
      rewrite ?He, ?rev_app_distr, ?rev_involutive; reflexivity.
  - unfold selected, disable_gl_state. run_monad. cbv beta iota.
    destruct (negb (source =? hd COGL_INVALID_HANDLE (source_stack ctx')))%nat;
      cbv beta iota;
      match goal with
      | |- context [for_each disable_attribute attributes ?g ?c] =>
          destruct (for_each_disable_effects attributes g c 0 eq_refl)
            as [_ H];
          destruct (for_each disable_attribute attributes g c) as [g' c']
      end;
      cbn [snd trace set_ref_counts] in *;
      rewrite H, rev_app_distr, rev_involutive; reflexivity.
Qed.

Lemma enable_attribute_balanced src ctx0 a l c :
  references_balanced src ctx0 l c ->
  references_balanced src ctx0
    (fst (enable_attribute a l c)) (snd (enable_attribute a l c)).
Proof.
  intros [Hsrc H].
  destruct (is_color_attribute a) eqn:E.
  - apply is_color_attribute_spec in E.
    destruct H as [(Hs & Hc & Hr)|[(Hc & Hn & Hi & Hf & Hr) (q & Hq & Hb)]].
    + destruct Hsrc as [p Hp].
      assert (Hp' : pipelines c !! source l = Some p) by now rewrite Hs.
      destruct (real_blend_enable p) eqn:Hb.
      * destruct (enable_attribute_color_blending a l c p E Hp' Hb)
          as (Hs' & Hc' & _ & Hps' & Hr').
        split; [rewrite Hps'; eauto|]. left.
        unfold no_copy_yet. rewrite Hs', Hc', Hr'. auto.
      * destruct (enable_attribute_color_copies a l c p E Hp' Hb)
          as (Hs' & Hc' & _ & Hps' & Hr').
        destruct (fresh_handle_spec c) as (Fi & Fp & Fr).
        assert (Fs : fresh_handle c <> src) by congruence.
        split.
        { rewrite Hps', lookup_insert_ne by exact Fs. eauto. }
        right. split.
        { unfold one_copy. rewrite Hs', Hc', Hr', Hr.
          repeat split; auto. now rewrite <- Hr. }
        rewrite Hs', Hps', lookup_insert_eq. eauto.
    + destruct (enable_attribute_color_blending a l c q E Hq Hb)
        as (Hs' & Hc' & _ & Hps' & Hr').
      split; [rewrite Hps'; exact Hsrc|]. right.
      unfold one_copy. rewrite Hs', Hc', Hr', Hps'. eauto 10.
  - assert (Ha : name_id a <> COGL_VERTEX_ATTRIBUTE_NAME_ID_COLOR_ARRAY).
    { intros Ha. apply is_color_attribute_spec in Ha. congruence. }
    destruct (enable_attribute_not_color a l c Ha)
      as (Hs' & Hc' & _ & Hps' & Hr').
    unfold references_balanced, no_copy_yet, one_copy.
    rewrite Hs', Hc', Hr', Hps'. split; assumption.
Qed.

Lemma for_each_enable_balanced src ctx0 attributes :
  forall l c,
    references_balanced src ctx0 l c ->
    references_balanced src ctx0
      (fst (for_each enable_attribute attributes l c))
      (snd (for_each enable_attribute attributes l c)).
Proof.
  induction attributes as [|a rest IH]; intros l c H; cbn [for_each].
  - exact H.
  - rewrite run_bind. apply IH. now apply enable_attribute_balanced.
Qed.

Lemma enable_gl_state_balance attributes state ctx p :
  let src := hd COGL_INVALID_HANDLE (source_stack ctx) in
  pipelines ctx !! src = Some p ->
  let r := enable_gl_state attributes state ctx in
  source_stack (snd r) = source_stack ctx
  /\ ((fst r = src /\ ref_counts (snd r) = ref_counts ctx)
      \/ (fst r <> src /\ ref_counts ctx !! fst r = None
          /\ ref_counts (snd r) = <[fst r := 1]> (ref_counts ctx))).
Proof.
  intros src Hp. cbv zeta. unfold enable_gl_state. run_monad.
  cbv beta iota. fold src.
  match goal with
  | |- context [for_each enable_attribute attributes ?l ?c] =>
      pose proof (for_each_enable_effects attributes l c 0 eq_refl) as H;
      assert (B : references_balanced src ctx l c)
        by (split; [exists p; exact Hp | left; repeat split]);
      apply (for_each_enable_balanced src ctx attributes) in B;
      destruct (for_each enable_attribute attributes l c) as [l' c']
  end.
  cbv zeta in H.
  cbn [fst snd source_stack set_temp_bitmask] in H, B.
  destruct H as (_ & _ & _ & Hst & _).
  destruct B as
    [[p' Hp'] [(Hs & Hc & Hr)|[(Hc & Hn & Hi & Hf & Hr) (q & Hq & Hb)]]].
  - destruct (fresh_handle_spec c') as (Fi & Fp & Fr).
    assert (Fs : fresh_handle c' <> src) by congruence.
    rewrite Hs, Hc.
    destruct (negb (flags (state_options state) =? 0)); cbn;
      enable_gl_state_branches;
      try rewrite !fresh_handle_set_trace in *;
      try match goal with
          | E : (fresh_handle _ =? _)%nat = true |- _ =>
              apply Nat.eqb_eq in E; contradiction
          end;
      try congruence;
      (split; [exact Hst|]);
      first [ left; split; [reflexivity | exact Hr]
            | right; rewrite Hr; rewrite Hr in Fr; repeat split;
              assumption ].
  - rewrite Hc.
    destruct (negb (flags (state_options state) =? 0)); cbn;
      enable_gl_state_branches;
      try match goal with
          | E : (source l' =? _)%nat = true |- _ =>
              apply Nat.eqb_eq in E; contradiction
          end;
      (split; [exact Hst|]); right; repeat split; assumption.
Qed.

(** Disabling, on the pipeline that enabling returned and from a context
    with the counts and the stack that enabling left, gives back the
    reference counts and the stack of sources of before. *)
Lemma disable_after_enable attributes state ctx p c1 :
  pipelines ctx !! hd COGL_INVALID_HANDLE (source_stack ctx) = Some p ->
  let r := enable_gl_state attributes state ctx in
  ref_counts c1 = ref_counts (snd r) ->
  source_stack c1 = source_stack (snd r) ->
  let ctx' := snd (disable_gl_state attributes (fst r) c1) in
  ref_counts ctx' = ref_counts ctx
  /\ source_stack ctx' = source_stack ctx.
Proof.
  intros Hp. cbv zeta.
  destruct (enable_gl_state_balance attributes state ctx p Hp)
    as (Hst & H).
  destruct (enable_gl_state attributes state ctx) as [h c0].
  cbn [fst snd] in *. intros Hr1 Hs1.
  unfold disable_gl_state. run_monad. cbv beta iota. rewrite Hs1, Hst.
  destruct H as [[Hh Hr]|(Hh & Hn & Hr)].
  - rewrite Hh, Nat.eqb_refl. cbn [negb].
    match goal with
    | |- context [for_each disable_attribute attributes ?g ?c] =>
        destruct (for_each_disable_effects attributes g c 0 eq_refl)
          as [(_ & Wr & _ & Ws & _) _];
        destruct (for_each disable_attribute attributes g c) as [g' c']
    end.
    cbn [snd] in *. split; congruence.
  - apply Nat.eqb_neq in Hh. rewrite Hh. cbn [negb].
    match goal with
    | |- context [for_each disable_attribute attributes ?g ?c] =>
        destruct (for_each_disable_effects attributes g c 0 eq_refl)
          as [(_ & Wr & _ & Ws & _) _];
        destruct (for_each disable_attribute attributes g c) as [g' c']
    end.
    cbn [snd ref_counts source_stack set_ref_counts] in *.
    rewrite Hr1, Hr, lookup_insert_eq in Wr.
    change (1 - 1 <=? 0) with true in Wr. cbv iota in Wr.
    rewrite delete_insert_eq, delete_id in Wr by exact Hn.
    split; congruence.
Qed.

(** X9: a draw does not leak pipelines.  When the current source is a
    pipeline of the context, [enable_gl_state] followed by
    [disable_gl_state] on the pipeline it returned leaves every reference
    count, and the stack of sources, as they were: the one copy that
    [enable_gl_state] may have made (for a colour attribute, pending
    overrides or legacy state) is released again. *)
Theorem enable_disable_releases attributes state ctx p :
  pipelines ctx !! hd COGL_INVALID_HANDLE (source_stack ctx) = Some p ->
  let r := enable_gl_state attributes state ctx in
  let ctx' := snd (disable_gl_state attributes (fst r) (snd r)) in
  ref_counts ctx' = ref_counts ctx
  /\ source_stack ctx' = source_stack ctx.
Proof.
  intros Hp.
  exact (disable_after_enable attributes state ctx p _ Hp eq_refl eq_refl).
Qed.

Lemma enable_disable_releases_witness :
  let attributes :=
    [sample_attribute "cogl_color_in"
       COGL_VERTEX_ATTRIBUTE_NAME_ID_COLOR_ARRAY 4] in
  let r := enable_gl_state attributes initial_state (sample_context false) in
  let ctx' := snd (disable_gl_state attributes (fst r) (snd r)) in
  ref_counts ctx' = ref_counts (sample_context false)
  /\ source_stack ctx' = source_stack (sample_context false).
Proof.
  exact (enable_disable_releases _ initial_state (sample_context false)
           (sample_pipeline false) eq_refl).
Defined.

(** ** A draw leaves the context as it found it *)

Lemma keeps_setup_refl c : keeps_setup c c.
Proof. repeat split; auto. Qed.

Lemma keeps_setup_trans c1 c2 c3 :
  keeps_setup c1 c2 -> keeps_setup c2 c3 -> keeps_setup c1 c3.
Proof.
  intros (S1 & D1 & W1 & P1) (S2 & D2 & W2 & P2).
  repeat split; try congruence. auto.
Qed.

Lemma keeps_setup_copy source :
  preserves keeps_setup (cogl_pipeline_copy source).
Proof.
  intros c. unfold context_after, cogl_pipeline_copy.
  destruct (pipelines c !! source) as [p|]; [|apply keeps_setup_refl].
  repeat split. cbn. intros h Hh.
  destruct (fresh_handle_spec c) as (_ & Fp & _).
  rewrite lookup_insert_ne; [exact Hh|].
  intros E. rewrite <- E, Fp in Hh. now destruct Hh.
Qed.

Lemma keeps_setup_update pipeline f :
  preserves keeps_setup (update_pipeline pipeline f).
Proof.
  intros c. unfold context_after, update_pipeline, modify. cbn.
  repeat split. cbn. intros h Hh.
  destruct (pipelines c !! pipeline) as [p|] eqn:E; [|exact Hh].
  apply lookup_insert_is_Some. destruct (decide (pipeline = h)); auto.
Qed.

Ltac keeps_setup_tac :=
  preserves_step keeps_setup_refl keeps_setup_trans
    ltac:(first
      [ apply keeps_setup_copy
      | apply keeps_setup_update
      | lazymatch goal with
        | |- preserves _ (GE _) => intros ?; repeat split; auto
        | |- preserves _ (modify _) => intros ?; repeat split; auto
        end ]).

Ltac unfold_pipeline_steps :=
  unfold enable_gl_state, disable_gl_state, enable_attribute,
    disable_attribute, _cogl_buffer_bind, _cogl_buffer_unbind,
    _cogl_pipeline_get_real_blend_enabled,
    _cogl_pipeline_set_blend_enabled, _cogl_pipeline_apply_overrides,
    _cogl_pipeline_apply_legacy_state, _cogl_pipeline_flush_gl_state,
    _cogl_disable_other_texcoord_arrays, _cogl_enable,
    _cogl_flush_face_winding, _cogl_bitmask_set, _cogl_bitmask_clear_all,
    cogl_get_source, cogl_object_unref, cogl_object_ref.

Lemma enable_gl_state_keeps_setup attributes state :
  preserves keeps_setup (enable_gl_state attributes state).
Proof. unfold_pipeline_steps. keeps_setup_tac. Qed.

Lemma disable_gl_state_keeps_setup attributes source :
  preserves keeps_setup (disable_gl_state attributes source).
Proof. unfold_pipeline_steps. keeps_setup_tac. Qed.

Lemma context_ret {A : Type} (a : A) c : context_after (ret a) c = c.
Proof. reflexivity. Qed.

Lemma draw_array_resources nesting mode first n attributes state c p :
  debug_wireframe c = false ->
  pipelines c !! hd COGL_INVALID_HANDLE (source_stack c) = Some p ->
  let c' :=
    context_after
      (_cogl_draw_vertex_attributes_array_real nesting mode first n
         attributes state) c in
  ref_counts c' = ref_counts c /\ keeps_setup c c'.
Proof.
  intros Hflag Hp.
  destruct (draw_array_without_wireframe nesting mode first n attributes
              state c Hflag) as (_ & _ & _ & E).
  cbv zeta in *. rewrite E. clear E.
  cbn [_cogl_draw_vertex_attributes_array_real].
  rewrite context_bind.
  pose proof (enable_gl_state_keeps_setup attributes state c) as K1.
  pose proof (fun c1 => disable_after_enable attributes state c p c1 Hp)
    as B.
  cbv zeta in B.
  unfold result_of, context_after in *.
  destruct (enable_gl_state attributes state c) as [h c1].
  cbn [fst snd] in *.
  rewrite !run_bind.
  set (c2 := snd (GE (glDrawArrays mode first n) c1)).
  pose proof (disable_gl_state_keeps_setup attributes h c2) as K2.
  unfold context_after in K2.
  destruct (B c2 eq_refl eq_refl) as [Hr _].
  set (c3 := snd (disable_gl_state attributes h c2)) in *.
  assert (E : forall b : bool,
            snd ((if b then ret tt else ret tt) c3) = c3)
    by (intros []; reflexivity).
  unfold get. cbn [fst snd]. rewrite E.
  split; [exact Hr|].
  eapply keeps_setup_trans; [exact K1|].
  eapply keeps_setup_trans; [|exact K2]. repeat split; auto.
Qed.

Lemma get_wire_lines_same_but_trace attribute mode n indices :
  preserves same_but_trace (get_wire_lines attribute mode n indices).
Proof.
  unfold get_wire_lines, cogl_buffer_map, cogl_buffer_unmap. cbv zeta.
  same_but_trace_tac.
Qed.

(** The attribute of the wireframe is well formed. *)
Lemma wire_attribute_new array c :
  cogl_vertex_attribute_new array "cogl_position_in" sizeof_CoglP3Vertex
    0 3 COGL_VERTEX_ATTRIBUTE_TYPE_FLOAT c
  = (Some {| array := array; name := "cogl_position_in";
             stride := sizeof_CoglP3Vertex; offset := 0;
             n_components := 3;
             type := COGL_VERTEX_ATTRIBUTE_TYPE_FLOAT;
             immutable_ref := 0;
             name_id := COGL_VERTEX_ATTRIBUTE_NAME_ID_POSITION_ARRAY;
             normalized := false; texture_unit := 0 |},
     context_after (cogl_object_ref array) c).
Proof. reflexivity. Qed.

Section WireframeResources.
(** The nested draw of a wireframe, as [draw_wireframe] sees it: a draw
    function that, with the wireframe flag down, is neutral on the
    resources. *)
Variable draw_array :
  CoglVerticesMode -> Z -> Z -> list CoglVertexAttribute -> M unit.
Hypothesis draw_array_neutral :
  forall mode first n attributes c,
    debug_wireframe c = false ->
    is_Some (pipelines c !! hd COGL_INVALID_HANDLE (source_stack c)) ->
    ref_counts (context_after (draw_array mode first n attributes) c)
    = ref_counts c
    /\ keeps_setup c (context_after (draw_array mode first n attributes) c).

(** The nested draw of a wireframe, between pushing the pipeline of the
    wireframes and releasing the attribute of the lines. *)
Lemma wire_draw_resources wp attribute n c :
  is_Some (pipelines c !! wp) ->
  ref_counts c !! array attribute = Some 1 ->
  let c' :=
    context_after
      (cogl_push_source wp;;;
       modify (set_debug_wireframe false);;;
       draw_array COGL_VERTICES_MODE_LINES 0 n [attribute];;;
       modify (set_debug_wireframe true);;;
       cogl_pop_source;;;
       _cogl_vertex_attribute_free attribute) c in
  source_stack c' = source_stack c
  /\ debug_wireframe c' = true
  /\ wire_pipeline c' = wire_pipeline c
  /\ (forall h, is_Some (pipelines c !! h) -> is_Some (pipelines c' !! h))
  /\ ref_counts c' = delete (array attribute) (ref_counts c).
Proof.
  intros Hp Ha. cbv zeta.
  rewrite !context_bind.
  set (c1 := context_after (modify (set_debug_wireframe false))
               (context_after (cogl_push_source wp) c)).
  destruct (draw_array_neutral COGL_VERTICES_MODE_LINES 0 n [attribute] c1
              eq_refl Hp)
    as (Hr & Hs & _ & Hw & Hps).
  set (c2 := context_after
               (draw_array COGL_VERTICES_MODE_LINES 0 n [attribute]) c1)
    in *.
  unfold _cogl_vertex_attribute_free, cogl_object_unref, cogl_pop_source,
    context_after, modify. cbn.
  rewrite Hr, Hs, Hw. cbn. rewrite Ha.
  change (1 - 1 <=? 0) with true. cbv iota.
  repeat split; auto.
Qed.

Lemma draw_wireframe_resources_with mode first n attributes indices ctx :
  (forall wp, wire_pipeline ctx = Some wp ->
              is_Some (pipelines ctx !! wp)) ->
  let ctx' :=
    context_after
      (draw_wireframe draw_array mode first n attributes indices) ctx in
  source_stack ctx' = source_stack ctx
  /\ (debug_wireframe ctx = true -> debug_wireframe ctx' = true)
  /\ (forall h, is_Some (pipelines ctx !! h) ->
                is_Some (pipelines ctx' !! h))
  /\ match position_attribute attributes, wire_pipeline ctx with
     | None, _ => ctx' = ctx
     | Some _, Some wp =>
         ref_counts ctx' = ref_counts ctx /\ wire_pipeline ctx' = Some wp
     | Some _, None =>
         exists wp,
           wire_pipeline ctx' = Some wp
           /\ ref_counts ctx !! wp = None
           /\ pipelines ctx !! wp = None
           /\ ref_counts ctx' = <[wp := 1]> (ref_counts ctx)
     end.
Proof.
  intros Hwp. cbv zeta.
  remember (context_after
              (draw_wireframe draw_array mode first n attributes indices)
              ctx) as ctx' eqn:E.
  unfold draw_wireframe in E.
  change (List.find _ attributes) with (position_attribute attributes) in E.
  destruct (position_attribute attributes) as [position|];
    [|subst ctx'; repeat split; auto].
  unfold context_after in E. rewrite run_bind in E.
  pose proof (get_wire_lines_same_but_trace position mode n indices ctx)
    as T1.
  unfold context_after in T1.
  destruct (get_wire_lines position mode n indices ctx) as [r c1].
  cbn [fst snd] in E, T1. cbv zeta in E.
  rewrite run_bind in E. unfold cogl_vertex_array_new in E.
  cbn [fst snd] in E.
  rewrite run_bind, wire_attribute_new in E. cbn [fst snd option_list] in E.
  set (a := fresh_handle c1) in *.
  rewrite run_bind in E.
  destruct (fresh_handle_spec c1) as (Fi & Fp & Fr). fold a in Fi, Fp, Fr.
  destruct T1 as (_ & Tr & Tp & Ts & _ & Td & _ & Tw).
  assert (Hc2 : snd (cogl_object_unref a
                       (context_after (cogl_object_ref a)
                          (set_ref_counts <[a:=1]> c1)))
                = set_ref_counts (fun rc => <[a:=1]> rc) c1).
  { unfold cogl_object_unref, cogl_object_ref, context_after, modify.
    cbn. unfold set_ref_counts. cbn.
    rewrite lookup_insert_eq, lookup_insert_eq.
    change (1 + 1 - 1 <=? 0) with false. cbv iota.
    now rewrite !insert_insert_eq. }
  rewrite Hc2 in E. clear Hc2.
  set (c2 := set_ref_counts (fun rc => <[a:=1]> rc) c1) in *.
  rewrite run_bind in E. cbn [get fst snd] in E.
  change (wire_pipeline c2) with (wire_pipeline c1) in E. rewrite Tw in E.
  destruct (wire_pipeline ctx) as [wp|] eqn:Ew.
  - rewrite run_bind in E. cbn [ret fst snd] in E.
    match type of E with
    | _ = snd (?m c2) =>
        destruct (wire_draw_resources wp
                    {| array := a; name := "cogl_position_in";
                       stride := sizeof_CoglP3Vertex; offset := 0;
                       n_components := 3;
                       type := COGL_VERTEX_ATTRIBUTE_TYPE_FLOAT;
                       immutable_ref := 0;
                       name_id :=
                         COGL_VERTEX_ATTRIBUTE_NAME_ID_POSITION_ARRAY;
                       normalized := false; texture_unit := 0 |}
                    (snd r) c2)
          as (Hs & Hd & Hw & Hps & Hr)
    end.
    + change (pipelines c2) with (pipelines c1). rewrite Tp. auto.
    + cbn. apply lookup_insert_eq.
    + unfold context_after in *.
      change (option_list (Some ?x)) with [x] in E.
      rewrite <- E in Hs, Hd, Hw, Hps, Hr.
      cbn in Hs, Hw, Hr. rewrite delete_insert_eq, delete_id in Hr by exact Fr.
      repeat split; try congruence.
      intros h Hh. apply Hps. change (pipelines c2) with (pipelines c1).
      now rewrite Tp.
  - rewrite run_bind in E.
    destruct (fresh_handle_spec c2) as (Gi & Gp & Gr).
    set (wp := fresh_handle c2) in *.
    assert (Hnew :
              (p <- cogl_pipeline_new;;
               cogl_pipeline_set_color4ub p 0 255 0 255;;;
               modify (set_wire_pipeline (Some p));;; ret p) c2
              = (wp,
                 set_wire_pipeline (Some wp)
                   (set_pipelines
                      (fun ps =>
                         match ps !! wp with
                         | Some p =>
                             <[wp := with_color4ub (0, 255, 0, 255) p]> ps
                         | None => ps
                         end)
                      (set_ref_counts (insert wp 1)
                         (set_pipelines
                            (insert wp
                               {| real_blend_enable := false;
                                  color4ub := (255, 255, 255, 255);
                                  layers := []; applied_overrides := [];
                                  applied_legacy_state := false |})
                            c2))))) by reflexivity.
    rewrite Hnew in E. clear Hnew. cbn [fst snd] in E.
    match type of E with
    | _ = snd (_ ?c) => set (c3 := c) in *
    end.
    change (ref_counts c2) with (<[a:=1]> (ref_counts c1)) in Gr.
    change (pipelines c2) with (pipelines c1) in Gp.
    apply lookup_insert_None in Gr as [Gr Ga].
    assert (P3 : pipelines c3
                 = <[wp := with_color4ub (0, 255, 0, 255)
                             {| real_blend_enable := false;
                                color4ub := (255, 255, 255, 255);
                                layers := []; applied_overrides := [];
                                applied_legacy_state := false |}]>
                     (<[wp := {| real_blend_enable := false;
                                 color4ub := (255, 255, 255, 255);
                                 layers := []; applied_overrides := [];
                                 applied_legacy_state := false |}]>
                        (pipelines c1))).
    { unfold c3. cbn. now rewrite lookup_insert_eq. }
    destruct (wire_draw_resources wp
                {| array := a; name := "cogl_position_in";
                   stride := sizeof_CoglP3Vertex; offset := 0;
                   n_components := 3;
                   type := COGL_VERTEX_ATTRIBUTE_TYPE_FLOAT;
                   immutable_ref := 0;
                   name_id := COGL_VERTEX_ATTRIBUTE_NAME_ID_POSITION_ARRAY;
                   normalized := false; texture_unit := 0 |}
                (snd r) c3)
      as (Hs & Hd & Hw & Hps & Hr).
    + rewrite P3, lookup_insert_eq. eauto.
    + cbn. rewrite lookup_insert_ne by congruence. apply lookup_insert_eq.
    + unfold context_after in *.
      change (option_list (Some ?x)) with [x] in E.
      rewrite <- E in Hs, Hd, Hw, Hps, Hr.
      cbn in Hs, Hw, Hr.
      rewrite delete_insert_ne, delete_insert_eq, delete_id in Hr
        by (exact Fr || congruence).
      repeat split; try congruence.
      * intros h Hh. apply Hps. rewrite P3, !lookup_insert_is_Some.
        rewrite Tp. destruct (decide (wp = h)); auto.
      * exists wp. repeat split; congruence.
Qed.

End WireframeResources.

Lemma draw_wireframe_resources mode first n attributes indices ctx :
  (forall wp, wire_pipeline ctx = Some wp ->
              is_Some (pipelines ctx !! wp)) ->
  let ctx' :=
    context_after
      (draw_wireframe _cogl_draw_vertex_attributes_array mode first n
         attributes indices) ctx in
  source_stack ctx' = source_stack ctx
  /\ (debug_wireframe ctx = true -> debug_wireframe ctx' = true)
  /\ (forall h, is_Some (pipelines ctx !! h) ->
                is_Some (pipelines ctx' !! h))
  /\ match position_attribute attributes, wire_pipeline ctx with
     | None, _ => ctx' = ctx
     | Some _, Some wp =>
         ref_counts ctx' = ref_counts ctx /\ wire_pipeline ctx' = Some wp
     | Some _, None =>
         exists wp,
           wire_pipeline ctx' = Some wp
           /\ ref_counts ctx !! wp = None
           /\ pipelines ctx !! wp = None
           /\ ref_counts ctx' = <[wp := 1]> (ref_counts ctx)
     end.
Proof.
  apply draw_wireframe_resources_with.
  intros mode' first' n' attributes' c Hflag [p Hp].
  exact (draw_array_resources wireframe_nesting mode' first' n' attributes'
           initial_state c p Hflag Hp).
Qed.


(** The draw proper: enable, draw, disable. *)
Lemma draw_core_resources mode first n attributes state c :
  is_Some (pipelines c !! hd COGL_INVALID_HANDLE (source_stack c)) ->
  let c' :=
    context_after
      (_cogl_draw_vertex_attributes_array_real 0 mode first n attributes
         state) c in
  ref_counts c' = ref_counts c /\ keeps_setup c c'.
Proof.
  intros [p Hp]. cbv zeta.
  cbn [_cogl_draw_vertex_attributes_array_real].
  rewrite context_bind.
  pose proof (enable_gl_state_keeps_setup attributes state c) as K1.
  pose proof (fun c1 => disable_after_enable attributes state c p c1 Hp)
    as B.
  cbv zeta in B.
  unfold result_of, context_after in *.
  destruct (enable_gl_state attributes state c) as [h c1].
  cbn [fst snd] in *.
  rewrite !run_bind.
  set (c2 := snd (GE (glDrawArrays mode first n) c1)).
  pose proof (disable_gl_state_keeps_setup attributes h c2) as K2.
  unfold context_after in K2.
  destruct (B c2 eq_refl eq_refl) as [Hr _].
  set (c3 := snd (disable_gl_state attributes h c2)) in *.
  assert (E : forall b : bool,
            snd ((if b then ret tt else ret tt) c3) = c3)
    by (intros []; reflexivity).
  unfold get. cbn [fst snd]. rewrite E.
  split; [exact Hr|].
  eapply keeps_setup_trans; [exact K1|].
  eapply keeps_setup_trans; [|exact K2]. repeat split; auto.
Qed.

(** A draw with one more level of nesting is the draw proper and then,
    when the wireframe flag is up, the wireframe. *)
Lemma draw_array_unfold nesting mode first n attributes state c :
  let c1 :=
    context_after
      (_cogl_draw_vertex_attributes_array_real 0 mode first n attributes
         state) c in
  context_after
    (_cogl_draw_vertex_attributes_array_real (S nesting) mode first n
       attributes state) c
  = if debug_wireframe c1 then
      context_after
        (draw_wireframe
           (fun mode first n attributes =>
              _cogl_draw_vertex_attributes_array_real nesting mode first n
                attributes initial_state)
           mode first n attributes None) c1
    else c1.
Proof.
  cbv zeta. cbn [_cogl_draw_vertex_attributes_array_real].
  unfold context_after. rewrite !run_bind. unfold get. cbn [fst snd].
  match goal with
  | |- context [disable_gl_state ?a ?s ?c0] =>
      set (c3 := snd (disable_gl_state a s c0))
  end.
  destruct (debug_wireframe c3) eqn:E; cbn [ret snd]; rewrite E;
    reflexivity.
Qed.

Lemma draw_wireframe_any_nesting nesting mode first n attributes indices c :
  draw_wireframe
    (fun mode first n attributes =>
       _cogl_draw_vertex_attributes_array_real nesting mode first n
         attributes initial_state)
    mode first n attributes indices c
  = draw_wireframe _cogl_draw_vertex_attributes_array mode first n
      attributes indices c.
Proof.
  apply draw_wireframe_nested_draw.
  intros mode' first' n' attributes' c' Hc. apply unit_run_eq.
  unfold _cogl_draw_vertex_attributes_array.
  destruct (draw_array_without_wireframe nesting mode' first' n'
              attributes' initial_state c' Hc) as (_ & _ & _ & ->).
  destruct (draw_array_without_wireframe wireframe_nesting mode' first' n'
              attributes' initial_state c' Hc) as (_ & _ & _ & ->).
  reflexivity.
Qed.

(** From the draw proper on: the wireframe, when the flag is up. *)
Lemma wireframe_step_neutral mode first n attributes indices c c1 :
  ready_to_draw c ->
  ref_counts c1 = ref_counts c -> keeps_setup c c1 ->
  resource_neutral attributes c
    (if debug_wireframe c1 then
       context_after
         (draw_wireframe _cogl_draw_vertex_attributes_array mode first n
            attributes indices) c1
     else c1).
Proof.
  intros [_ Hwp] Hr (Ks & Kd & Kw & Kp).
  unfold resource_neutral. rewrite <- Kd.
  destruct (debug_wireframe c1) eqn:Ed.
  - destruct (draw_wireframe_resources mode first n attributes indices c1)
      as (Hs & Hd & Hps & H).
    { intros wp E. apply Kp, Hwp. congruence. }
    cbv zeta in *. rewrite <- Kw.
    split; [congruence|]. split; [auto|]. split; [auto|].
    destruct (position_attribute attributes) as [position|].
    + destruct (wire_pipeline c1) as [wp|].
      * destruct H as [H1 H2]. split; congruence.
      * destruct H as (wp & H1 & H2 & H3 & H4). exists wp.
        repeat split; try congruence.
        destruct (pipelines c !! wp) eqn:E; [|reflexivity].
        destruct (Kp wp) as [q Hq]; [eauto | congruence].
    + rewrite H. destruct (wire_pipeline c1); split; congruence.
  - repeat split; auto.
Qed.

Lemma draw_array_real_neutral mode first n attributes state c :
  ready_to_draw c ->
  resource_neutral attributes c
    (context_after
       (_cogl_draw_vertex_attributes_array_real wireframe_nesting mode
          first n attributes state) c).
Proof.
  intros Hready. unfold wireframe_nesting.
  rewrite draw_array_unfold. cbv zeta.
  destruct (draw_core_resources mode first n attributes state c
              (proj1 Hready)) as [Hr K].
  cbv zeta in Hr, K.
  set (c1 := context_after
               (_cogl_draw_vertex_attributes_array_real 0 mode first n
                  attributes state) c) in *.
  unfold context_after at 1. rewrite draw_wireframe_any_nesting.
  now apply wireframe_step_neutral.
Qed.

Lemma draw_indexed_real_neutral mode first n indices attributes state c :
  ready_to_draw c ->
  resource_neutral attributes c
    (context_after
       (_cogl_draw_indexed_vertex_attributes_array_real mode first n
          indices attributes state) c).
Proof.
  intros Hready. destruct (proj1 Hready) as [p Hp].
  unfold _cogl_draw_indexed_vertex_attributes_array_real.
  pose proof (enable_gl_state_keeps_setup attributes state c) as K1.
  pose proof (fun c1 => disable_after_enable attributes state c p c1 Hp)
    as B.
  cbv zeta in B.
  unfold context_after in *. rewrite run_bind.
  destruct (enable_gl_state attributes state c) as [h c1].
  cbn [fst snd] in *. cbv zeta.
  rewrite !run_bind.
  match goal with
  | |- context [disable_gl_state attributes h ?c0] => set (c2 := c0)
  end.
  pose proof (disable_gl_state_keeps_setup attributes h c2) as K2.
  unfold context_after in K2.
  destruct (B c2 eq_refl eq_refl) as [Hr _].
  set (c3 := snd (disable_gl_state attributes h c2)) in *.
  unfold get. cbn [fst snd].
  assert (E : forall m : M unit,
            snd ((if debug_wireframe c3 then m else ret tt) c3)
            = if debug_wireframe c3 then snd (m c3) else c3)
    by (intros m; destruct (debug_wireframe c3); reflexivity).
  rewrite E.
  apply (wireframe_step_neutral mode first n attributes (Some indices) c c3
           Hready Hr).
  eapply keeps_setup_trans; [exact K1|].
  eapply keeps_setup_trans; [|exact K2]. repeat split; auto.
Qed.

Lemma foreach_validate_same_but_trace pipeline layer_indices :
  forall state,
    preserves same_but_trace
      (foreach_layer_index validate_layer_cb pipeline layer_indices state).
Proof.
  induction layer_indices as [|i rest IH]; intros state;
    cbn [foreach_layer_index].
  - apply (preserves_ret _ same_but_trace_refl).
  - apply (preserves_bind _ same_but_trace_trans).
    + apply validate_layer_cb_same_but_trace.
    + intros [[] state']; cbn [fst snd];
        [apply IH | apply (preserves_ret _ same_but_trace_refl)].
Qed.

(** What the public entry points do before the draw changes nothing but
    the trace. *)
Lemma preparation_same_but_trace :
  preserves same_but_trace
    (_cogl_journal_flush;;;
     current <- cogl_get_source;;
     state <- cogl_pipeline_foreach_layer current validate_layer_cb
                initial_state;;
     _cogl_framebuffer_flush_state;;;
     ret state).
Proof.
  unfold _cogl_journal_flush, _cogl_framebuffer_flush_state,
    cogl_get_source, cogl_pipeline_foreach_layer.
  preserves_step same_but_trace_refl same_but_trace_trans
    ltac:(first [ apply foreach_validate_same_but_trace
                | apply same_but_trace_GE ]).
Qed.

Lemma resource_neutral_after attributes ctx c c' :
  same_but_trace ctx c ->
  resource_neutral attributes c c' -> resource_neutral attributes ctx c'.
Proof.
  intros (_ & Tr & Tp & Ts & _ & Td & _ & Tw).
  unfold resource_neutral. now rewrite Tr, Tp, Ts, Td, Tw.
Qed.

Lemma ready_to_draw_after ctx c :
  same_but_trace ctx c -> ready_to_draw ctx -> ready_to_draw c.
Proof.
  intros (_ & Tr & Tp & Ts & _ & Td & _ & Tw).
  unfold ready_to_draw. now rewrite Tp, Ts, Tw.
Qed.

Lemma cogl_draw_vertex_attributes_array_steps mode first_vertex n_vertices
    attributes ctx :
  let prepare :=
    _cogl_journal_flush;;;
    current <- cogl_get_source;;
    state <- cogl_pipeline_foreach_layer current validate_layer_cb
               initial_state;;
    _cogl_framebuffer_flush_state;;;
    ret state in
  context_after
    (cogl_draw_vertex_attributes_array mode first_vertex n_vertices
       attributes) ctx
  = context_after
      (_cogl_draw_vertex_attributes_array_real wireframe_nesting mode
         first_vertex n_vertices attributes (result_of prepare ctx))
      (context_after prepare ctx).
Proof.
  cbv zeta. unfold cogl_draw_vertex_attributes_array.
  repeat (rewrite context_bind || rewrite result_bind). reflexivity.
Qed.

(** X10: a draw is neutral on the resources of the context.  From a
    context whose current source is a pipeline (and whose pipeline of the
    wireframes, if it was created, is one), each of the six draw
    functions leaves the stack of sources, the wireframe flag and every
    reference count as it found them, and removes no pipeline: the copy
    of the source that the flush may make, the array and the attribute of
    the wireframe are all released, the source pushed for the wireframe
    is popped.  The one thing that stays is the pipeline of the
    wireframes, created with one reference by the first wireframe
    drawn. *)
Theorem draws_are_resource_neutral mode first_vertex n_vertices indices
    attributes ctx :
  ready_to_draw ctx ->
  let neutral (draw : M unit) :=
    resource_neutral attributes ctx (context_after draw ctx) in
  neutral (_cogl_draw_vertex_attributes_array mode first_vertex n_vertices
             attributes)
  /\ neutral (cogl_draw_vertex_attributes_array mode first_vertex
                n_vertices attributes)
  /\ neutral (cogl_draw_vertex_attributes mode first_vertex n_vertices
                attributes)
  /\ neutral (_cogl_draw_indexed_vertex_attributes_array mode first_vertex
                n_vertices indices attributes)
  /\ neutral (cogl_draw_indexed_vertex_attributes_array mode first_vertex
                n_vertices indices attributes)
  /\ neutral (cogl_draw_indexed_vertex_attributes mode first_vertex
                n_vertices indices attributes).
Proof.
  intros Hready neutral.
  pose proof (preparation_same_but_trace ctx) as T.
  assert (Harray :
            neutral (cogl_draw_vertex_attributes_array mode first_vertex
                       n_vertices attributes)).
  { unfold neutral. rewrite cogl_draw_vertex_attributes_array_steps.
    cbv zeta. eapply resource_neutral_after; [exact T|].
    apply draw_array_real_neutral.
    eapply ready_to_draw_after; eassumption. }
  assert (Hindexed :
            neutral (cogl_draw_indexed_vertex_attributes_array mode
                       first_vertex n_vertices indices attributes)).
  { unfold neutral.
    rewrite cogl_draw_indexed_vertex_attributes_array_steps.
    cbv zeta. eapply resource_neutral_after; [exact T|].
    apply draw_indexed_real_neutral.
    eapply ready_to_draw_after; eassumption. }
  split; [|split; [|split; [|split; [|split]]]].
  - unfold neutral, _cogl_draw_vertex_attributes_array.
    apply draw_array_real_neutral. exact Hready.
  - exact Harray.
  - exact Harray.
  - unfold neutral, _cogl_draw_indexed_vertex_attributes_array.
    apply draw_indexed_real_neutral. exact Hready.
  - exact Hindexed.
  - exact Hindexed.
Qed.

Lemma draws_are_resource_neutral_witness :
  resource_neutral [sample_position] sample_debug_context
    (context_after
       (cogl_draw_vertex_attributes_array COGL_VERTICES_MODE_TRIANGLES 0 3
          [sample_position]) sample_debug_context).
Proof.
  refine (proj1 (proj2 (draws_are_resource_neutral
                          COGL_VERTICES_MODE_TRIANGLES 0 3 sample_indices
                          [sample_position] sample_debug_context _))).
  split; [exists (sample_pipeline true); reflexivity|].
  intros wp H. discriminate H.
Defined.

(** ** The pipeline that is flushed *)

Lemma enable_attribute_pipelines src ctx0 p seen a l c :
  pipelines ctx0 !! src = Some p ->
  loop_pipelines src ctx0 p seen l c ->
  loop_pipelines src ctx0 p (seen || is_color_attribute a)
    (fst (enable_attribute a l c)) (snd (enable_attribute a l c)).
Proof.
  intros Hp H. unfold loop_pipelines in *.
  destruct (is_color_attribute a) eqn:E.
  - apply is_color_attribute_spec in E. rewrite orb_true_r. cbn [andb].
    destruct (real_blend_enable p) eqn:Hb; cbn [negb andb] in *.
    + rewrite andb_false_r in H. destruct H as (Hs & Hc & Hps).
      assert (Hp' : pipelines c !! source l = Some p) by now rewrite Hs, Hps.
      destruct (enable_attribute_color_blending a l c p E Hp' Hb)
        as (Hs' & Hc' & _ & Hps' & _).
      rewrite Hs', Hc', Hps'. auto.
    + rewrite andb_true_r in H. destruct seen.
      * destruct H as (Hc & Hi & Hn & Hps).
        assert (Hq : pipelines c !! source l
                     = Some (with_real_blend_enable true p))
          by (rewrite Hps; apply lookup_insert_eq).
        destruct (enable_attribute_color_blending a l c _ E Hq eq_refl)
          as (Hs' & Hc' & _ & Hps' & _).
        rewrite Hs', Hc', Hps'. auto.
      * destruct H as (Hs & Hc & Hps).
        assert (Hp' : pipelines c !! source l = Some p)
          by now rewrite Hs, Hps.
        destruct (enable_attribute_color_copies a l c p E Hp' Hb)
          as (Hs' & Hc' & _ & Hps' & _).
        destruct (fresh_handle_spec c) as (Fi & Fp & _).
        rewrite Hs', Hc', Hps', Hps. rewrite Hps in Fp. auto.
  - assert (Ha : name_id a <> COGL_VERTEX_ATTRIBUTE_NAME_ID_COLOR_ARRAY).
    { intros Ha. apply is_color_attribute_spec in Ha. congruence. }
    destruct (enable_attribute_not_color a l c Ha)
      as (Hs' & Hc' & _ & Hps' & _).
    rewrite orb_false_r, Hs', Hc', Hps'. exact H.
Qed.

Lemma for_each_enable_pipelines src ctx0 p attributes :
  pipelines ctx0 !! src = Some p ->
  forall seen l c,
    loop_pipelines src ctx0 p seen l c ->
    loop_pipelines src ctx0 p
      (seen || existsb is_color_attribute attributes)
      (fst (for_each enable_attribute attributes l c))
      (snd (for_each enable_attribute attributes l c)).
Proof.
  intros Hp. induction attributes as [|a rest IH]; intros seen l c H;
    cbn [for_each existsb].
  - now rewrite orb_false_r.
  - rewrite run_bind, orb_assoc. apply IH.
    now apply enable_attribute_pipelines.
Qed.

(** X11: [enable_gl_state] never changes a pipeline of the context.
    It flushes the source itself when nothing is to be changed; when a
    colour attribute asks for blending that the source does not have,
    when overrides are pending or when legacy state is set, it flushes
    one copy of the source, a pipeline the context did not have, which
    differs from the source in this only: blending is on if the set has
    a colour, the pending overrides are applied, and so is the legacy
    state. *)
Theorem enable_gl_state_copy_on_write attributes state ctx p :
  let src := hd COGL_INVALID_HANDLE (source_stack ctx) in
  pipelines ctx !! src = Some p ->
  let r := enable_gl_state attributes state ctx in
  let legacy := legacy_state_set ctx in
  if needs_copy p attributes state legacy then
    fst r <> COGL_INVALID_HANDLE
    /\ pipelines ctx !! fst r = None
    /\ pipelines (snd r)
       = <[fst r := flushed_copy p attributes state legacy]> (pipelines ctx)
  else fst r = src /\ pipelines (snd r) = pipelines ctx.
Proof.
  intros src Hp. cbv zeta. unfold enable_gl_state. run_monad.
  cbv beta iota. fold src.
  match goal with
  | |- context [for_each enable_attribute attributes ?l ?c] =>
      assert (B : loop_pipelines src ctx p false l c)
        by (repeat split);
      apply (for_each_enable_pipelines src ctx p attributes Hp) in B;
      pose proof (for_each_enable_same_world attributes l c) as W;
      unfold context_after in W;
      destruct (for_each enable_attribute attributes l c) as [l' c']
  end.
  unfold same_world in W.
  cbn [fst snd orb legacy_state_set set_temp_bitmask] in B, W.
  destruct W as (_ & _ & _ & Wl & _).
  unfold loop_pipelines in B. unfold needs_copy, flushed_copy.
  rewrite <- Wl. clear Wl.
  destruct (fresh_handle_spec c') as (Fi & Fp & _).
  set (h := fresh_handle c') in *.
  assert (Hh : (h =? COGL_INVALID_HANDLE)%nat = false)
    by now apply Nat.eqb_neq.
  destruct p as [blend colour lyrs overrides legacy_applied].
  cbn [real_blend_enable color4ub layers applied_overrides
         applied_legacy_state] in *.
  destruct (existsb is_color_attribute attributes), blend;
    cbn [andb negb orb] in *.
  2: {
    destruct B as (Hc & Hi & Hn & Hps).
    apply Nat.eqb_neq in Hi as Hi'. rewrite Hc.
    destruct (flags (state_options state) =? 0) eqn:Ef; cbn;
      repeat (progress (rewrite ?Hps, ?lookup_insert_eq, ?Hi',
                          ?insert_insert_eq; cbn));
      destruct (legacy_state_set c') eqn:El; cbn;
      repeat (progress (rewrite ?Hps, ?lookup_insert_eq, ?Hi',
                          ?insert_insert_eq; cbn));
      rewrite ?app_nil_r, ?orb_true_r, ?orb_false_r; auto. }
  all: destruct B as (Hs & Hc & Hps);
    assert (Hp' : pipelines c' !! src = Some _) by (rewrite Hps; exact Hp);
    rewrite Hs, Hc;
    destruct (flags (state_options state) =? 0) eqn:Ef; cbn;
    rewrite ?fresh_handle_set_trace; fold h;
    repeat (progress (rewrite ?Hp', ?lookup_insert_eq, ?Hh,
                        ?insert_insert_eq; cbn;
                      rewrite ?fresh_handle_set_trace; fold h));
    destruct (legacy_state_set c') eqn:El; cbn;
    rewrite ?fresh_handle_set_trace; fold h;
    repeat (progress (rewrite ?Hp', ?lookup_insert_eq, ?Hh,
                        ?insert_insert_eq; cbn;
                      rewrite ?fresh_handle_set_trace; fold h));
    rewrite ?Hps, ?app_nil_r, ?orb_true_r, ?orb_false_r;
    rewrite ?Hps in Fp; auto.
Qed.

Lemma enable_gl_state_copy_on_write_witness :
  let attributes :=
    [sample_attribute "cogl_color_in"
       COGL_VERTEX_ATTRIBUTE_NAME_ID_COLOR_ARRAY 4] in
  let ctx := sample_context false in
  let r := enable_gl_state attributes initial_state ctx in
  fst r <> COGL_INVALID_HANDLE
  /\ pipelines ctx !! fst r = None
  /\ pipelines (snd r)
     = <[fst r := flushed_copy (sample_pipeline false) attributes
                    initial_state false]> (pipelines ctx).
Proof.
  exact (enable_gl_state_copy_on_write
           [sample_attribute "cogl_color_in"
              COGL_VERTEX_ATTRIBUTE_NAME_ID_COLOR_ARRAY 4]
           initial_state (sample_context false) (sample_pipeline false)
           eq_refl).
Defined.
